(** * The Sieve action runtime of lmtpd (imap/lmtp_sieve.c)

    A shallow embedding of the action handlers that lmtpd registers with the
    Sieve engine, and the properties of the delivery runtime proved on it.

    C strings are [string] (a NUL-free byte sequence); where a loop walks a
    buffer by pointer the buffer is the [list ascii] of its bytes and a
    pointer is an offset into it.  [time_t] and [int] values are [Z];
    [size_t] arithmetic is taken modulo [2^64]. *)

From Stdlib Require Import ZArith Ascii Lia DecimalString.
From Stdlib Require String DecimalZ.
From stdpp Require Import base option list gmap strings.

Local Open Scope Z_scope.

(** ** C strings *)

Definition chars (s : string) : list ascii := String.list_ascii_of_string s.
Definition str (l : list ascii) : string := String.string_of_list_ascii l.

Definition strlen (s : string) : Z := Z.of_nat (String.length s).

Definition HTAB : ascii := "009"%char.
Definition SP : ascii := " "%char.
Definition CR : ascii := "013"%char.
Definition LF : ascii := "010"%char.
Definition CRLF : string := String CR (String LF "").
Definition DQUOTE : ascii := "034"%char.

(** [isblank] of <ctype.h> in the C locale. *)
Definition isblank (c : ascii) : bool := Ascii.eqb c SP || Ascii.eqb c HTAB.

(** [isascii] of <ctype.h>: the byte is in 0..127. *)
Definition isascii (c : ascii) : bool := (nat_of_ascii c <? 128)%nat.

(** ** Header folding: [dump_header] *)

Module Fold.

(** [while (isblank( *++p));] started on a blank at offset 0: the number of
    blanks that follow the first one. *)
Fixpoint skip_fws (tl : list ascii) : nat :=
  match tl with
  | c :: tl' => if isblank c then S (skip_fws tl') else 0%nat
  | [] => 0%nat
  end.

(** [if (isblank( *p))] with the skip of the folding white space: where [p]
    stands when the scan starts. *)
Definition lead_blanks (mimehdr : list ascii) : nat :=
  match mimehdr with
  | c :: tl => if isblank c then S (skip_fws tl) else 0%nat
  | [] => 0%nat
  end.

(** [p[1] == ' '] *)
Definition next_is_sp (tl : list ascii) : bool :=
  match tl with
  | c :: _ => Ascii.eqb c SP
  | [] => false
  end.

(** The [for (; *p; p++)] scan of one chunk together with the
    [if (!*p && last_sp) p = last_sp;] that follows it.  [total] is
    [strlen(mimehdr)], [off] is [p - mimehdr], [s] is the buffer from [p] on;
    the result is the final [p - mimehdr]. *)
Fixpoint scan (total maxlen : Z) (off : nat) (last_sp : option nat)
    (s : list ascii) : nat :=
  match s with
  | [] => match last_sp with Some l => l | None => off end
  | c :: s' =>
      if Ascii.eqb c HTAB then off
      else if Ascii.eqb c SP then
        if next_is_sp s' then off
        else if total <=? maxlen then scan total maxlen (S off) last_sp s'
        else match last_sp with
             | None => scan total maxlen (S off) (Some off) s'
             | Some _ =>
                 if Z.of_nat off <=? maxlen
                 then scan total maxlen (S off) (Some off) s'
                 else scan total maxlen (S off) last_sp s'
             end
      else scan total maxlen (S off) last_sp s'
  end.

(** The end of the chunk that starts at [mimehdr]: the value of
    [p - mimehdr] when the chunk is written. *)
Definition chunk_end (maxlen : Z) (mimehdr : list ascii) : nat :=
  let p0 := lead_blanks mimehdr in
  scan (Z.of_nat (length mimehdr)) maxlen p0 None (drop p0 mimehdr).

(** The [while ( *mimehdr)] loop: what is written for the value.  One unit of
    fuel is one iteration; [None] is a loop that is still running when the
    fuel is gone. *)
Fixpoint fold_loop (fuel : nat) (maxlen : Z) (mimehdr : list ascii)
    : option (list ascii) :=
  match mimehdr with
  | [] => Some []
  | c :: _ =>
      match fuel with
      | O => None
      | S fuel' =>
          let p := chunk_end maxlen mimehdr in
          match fold_loop fuel' 78 (drop p mimehdr) with
          | Some out =>
              Some ((if isblank c then chars CRLF else []) ++
                    take p mimehdr ++ out)
          | None => None
          end
      end
  end.

(** Every iteration moves [mimehdr] forward, so [strlen(mimehdr)] iterations
    are enough. *)
Definition fold_value (maxlen : Z) (mimehdr : list ascii)
    : option (list ascii) :=
  fold_loop (length mimehdr) maxlen mimehdr.

(** [size_t maxlen = 78 - (strlen(name) + 2);] *)
Definition first_maxlen (name : string) : Z :=
  (78 - (strlen name + 2)) mod 2 ^ 64.

Section Encoder.

(** The Q-encoder of lib/charset.c, which is outside this file. *)
Variable charset_encode_mimeheader : string -> string.

(** [dump_header(name, value, rock)]: the bytes appended to the file [rock]. *)
Definition dump_header (name value : string) : option string :=
  let mimehdr := charset_encode_mimeheader value in
  match fold_value (first_maxlen name) (chars mimehdr) with
  | Some out => Some (name +:+ ": " +:+ str out +:+ CRLF)
  | None => None
  end.

End Encoder.

(** Predicates on header values. *)

Definition has_tab (s : list ascii) : bool :=
  existsb (fun c => Ascii.eqb c HTAB) s.
Definition has_sp (s : list ascii) : bool :=
  existsb (fun c => Ascii.eqb c SP) s.

Fixpoint has_double_sp (s : list ascii) : bool :=
  match s with
  | c :: tl => (Ascii.eqb c SP && next_is_sp tl) || has_double_sp tl
  | [] => false
  end.

(** [strcspn(s, " ")]: the length of the first word of [s]. *)
Fixpoint word_len (s : list ascii) : nat :=
  match s with
  | c :: tl => if Ascii.eqb c SP then 0%nat else S (word_len tl)
  | [] => 0%nat
  end.

Definition starts_blank (s : list ascii) : bool :=
  match s with
  | c :: _ => isblank c
  | [] => false
  end.

(** The offset of the first HTAB or of the first SP that another SP
    follows. *)
Fixpoint first_fold_point (s : list ascii) : option nat :=
  match s with
  | c :: tl =>
      if Ascii.eqb c HTAB || (Ascii.eqb c SP && next_is_sp tl) then Some 0%nat
      else S <$> first_fold_point tl
  | [] => None
  end.

End Fold.


(** ** Values and interfaces declared outside this file *)

(** [SIEVE_OK] is [(0)] in sieve/sieve_interface.h; the other codes come from
    generated error tables.  All that is known of a code of an error table
    is that it is not zero and differs from the other codes of its table. *)
Definition SIEVE_OK : Z := 0.

Class Constants := {
  SIEVE_FAIL : Z;
  SIEVE_DONE : Z;
  IMAP_MAILBOX_NONEXISTENT : Z;
  LMTP_MESSAGE_REJECTED : Z;
  MAX_MAILBOX_PATH : Z;
  FNAME_DOMAINDIR : string;
  SIEVE_VERSION : string;
  CYRUS_VERSION : string;
  SIEVE_FAIL_nonzero : SIEVE_FAIL <> 0;
  SIEVE_DONE_nonzero : SIEVE_DONE <> 0;
  SIEVE_DONE_not_FAIL : SIEVE_DONE <> SIEVE_FAIL;
  IMAP_MAILBOX_NONEXISTENT_nonzero : IMAP_MAILBOX_NONEXISTENT <> 0;
}.

(** The switches and strings of imapd.conf that the runtime reads, and the
    two compile-time switches of the file. *)
Record config := {
  config_auditlog : bool;
  config_servername : string;
  config_fulldirhash : bool;
  sieve_use_lmtp_reject : bool;      (* IMAPOPT_SIEVE_USE_LMTP_REJECT *)
  anysievefolder : bool;             (* IMAPOPT_ANYSIEVEFOLDER *)
  autocreate_sieve_folders : option string;
  sievenotifier : option string;     (* IMAPOPT_SIEVENOTIFIER *)
  postmaster : string;               (* IMAPOPT_POSTMASTER *)
  srs_domain : option string;        (* IMAPOPT_SRS_DOMAIN *)
  sieve_usehomedir : bool;
  sieve_dir : option string;
  with_dav : bool;                   (* WITH_DAV *)
}.

(** Library routines of the server that are pure functions of their
    arguments. *)
Class Library := {
  (* lib/charset.c *)
  charset_encode_mimeheader : string -> string;
  charset_qpencode_mimebody : string -> string;
  (* lib/tok.c: the tokens that successive [tok_next] calls return for
     [tok_initm(&tok, buf, sep, 0)] *)
  tok_tokens : string -> string -> list string;
  (* lib/times.c, com_err *)
  time_to_rfc5322 : Z -> string;
  error_message : Z -> string;
  srs_strerror : Z -> string;
  (* imap/mboxname.c *)
  mboxname_from_external : string -> option string -> string;
  mboxname_user_mbox : string -> string -> string;
  (* lib/strarray.c: [strarray_split(s, sep, STRARRAY_TRIM)] *)
  strarray_split_trim : string -> string -> list string;
  (* imap/mboxlist.c: [specialuse_validate], [None] when it fails *)
  specialuse_validate : option string -> string -> option string;
  (* lib/util.c *)
  dir_hash_c : string -> bool -> ascii;
  (* libxml2, imap/carddav_db.c *)
  xmlURIUnescapeString : string -> string;
  carddav_mboxname : option string -> string -> string;
}.

(** ** The duplicate delivery database *)

(** [duplicate_key_t]; the three fields are never NULL where the key is
    used. *)
Record duplicate_key_t := {
  dk_id : string;
  dk_to : string;
  dk_date : string;
}.

Definition dkey_tuple (k : duplicate_key_t) : string * string * string :=
  (dk_id k, dk_to k, dk_date k).

Abbreviation ledger := (gmap (string * string * string) Z).

(** Modelled from the spec: [duplicate_check] of imap/duplicate.c, which is
    not part of this file.  The ledger maps a key to an expiry; the check
    returns the stored expiry, and [0] where the spec says absent, which is
    what the callers test with [if (t)]. *)
Definition duplicate_check (db : ledger) (k : duplicate_key_t) : Z :=
  default 0 (db !! dkey_tuple k).

(** Modelled from the spec: [duplicate_mark] of imap/duplicate.c; an
    overwriting insert. *)
Definition duplicate_mark (db : ledger) (k : duplicate_key_t) (t : Z)
    : ledger :=
  <[dkey_tuple k := t]> db.

Definition is_Some_b {A} (o : option A) : bool :=
  match o with Some _ => true | None => false end.

(** ** String routines of libc *)

(** [tolower] in the C locale. *)
Definition lower (c : ascii) : ascii :=
  let n := nat_of_ascii c in
  if ((65 <=? n) && (n <=? 90))%nat then ascii_of_nat (n + 32) else c.

Fixpoint lcase (s : string) : string :=
  match s with
  | String c s' => String (lower c) (lcase s')
  | EmptyString => EmptyString
  end.

(** [strcasecmp(a, b) == 0] *)
Definition strcaseeq (a b : string) : bool := String.eqb (lcase a) (lcase b).

(** [strncmp(s, p, strlen(p)) == 0], and the rest of [s] in that case. *)
Fixpoint strip_prefix (p s : string) : option string :=
  match p, s with
  | EmptyString, _ => Some s
  | String a p', String b s' =>
      if Ascii.eqb a b then strip_prefix p' s' else None
  | String _ _, EmptyString => None
  end.

(** [strncasecmp(s, p, strlen(p)) == 0] *)
Definition has_prefix_nocase (s p : string) : bool :=
  String.eqb (lcase (str (take (String.length p) (chars s)))) (lcase p).

(** [strlcat(dst, src, size)] for [strlen(dst) < size]. *)
Definition strlcat (dst src : string) (size : Z) : string :=
  str (take (Z.to_nat (size - 1)) (chars (dst +:+ src))).

(** What [snprintf(buf, size, ...)] leaves in [buf] when the formatted text
    is [s]. *)
Definition snprintf (size : Z) (s : string) : string :=
  str (take (Z.to_nat (size - 1)) (chars s)).

(** [(int) x] for a 32-bit [int]. *)
Definition to_int (x : Z) : Z := (x + 2 ^ 31) mod 2 ^ 32 - 2 ^ 31.

(** The text of [%d]. *)
Definition fmt_d (x : Z) : string :=
  DecimalString.NilEmpty.string_of_int (Z.to_int x).

(** [strstr(hay, needle) != NULL] *)
Fixpoint strstr (hay : string) (needle : string) : bool :=
  String.prefix needle hay ||
  match hay with
  | String _ hay' => strstr hay' needle
  | EmptyString => false
  end.

(** [make_sieve_db] *)
Definition make_sieve_db `{Constants} (user : string) : string :=
  let size := MAX_MAILBOX_PATH + 1 in
  let buf := "." in
  let buf := strlcat buf user size in
  strlcat buf ".sieve." size.

(** ** Messages and delivery contexts *)

(** The header cache of imap/spool.c: an opaque table with these
    operations. *)
Class HeaderCache (hdrcache : Type) := {
  spool_append_header : string -> string -> hdrcache -> hdrcache;
  spool_prepend_header : string -> string -> hdrcache -> hdrcache;
  spool_remove_header : string -> hdrcache -> hdrcache;
  spool_remove_header_instance : string -> Z -> hdrcache -> hdrcache;
  (* [NULL] when the cache has no such header *)
  spool_getheader : hdrcache -> string -> option (list string);
  (* the (name, value) pairs that [spool_enum_hdrcache] passes to its
     callback, in order *)
  spool_enum_hdrcache : hdrcache -> list (string * string);
}.

(** Modelled from the spec: the header cache as the ordered list of the
    header fields of the message; names compare without case. *)
Module ListCache.

Definition same_name (a b : string) : bool := strcaseeq a b.

Definition lookup (hc : list (string * string)) (head : string)
    : option (list string) :=
  match filter (fun nv => same_name (fst nv) head = true) hc with
  | [] => None
  | l => Some (map snd l)
  end.

Definition remove (head : string) (hc : list (string * string))
    : list (string * string) :=
  filter (fun nv => same_name (fst nv) head = false) hc.

(** Instance [index] counts from 1, from the end when negative. *)
Fixpoint remove_nth (head : string) (n : nat) (hc : list (string * string))
    : list (string * string) :=
  match hc with
  | nv :: hc' =>
      if same_name (fst nv) head then
        match n with
        | O => hc'
        | S n' => nv :: remove_nth head n' hc'
        end
      else nv :: remove_nth head n hc'
  | [] => []
  end.

Definition remove_instance (head : string) (index : Z)
    (hc : list (string * string)) : list (string * string) :=
  if 0 <? index then remove_nth head (Z.to_nat (index - 1)) hc
  else rev (remove_nth head (Z.to_nat (- index - 1)) (rev hc)).

#[export] Instance list_cache : HeaderCache (list (string * string)) := {|
  spool_append_header head body hc := hc ++ [(head, body)];
  spool_prepend_header head body hc := (head, body) :: hc;
  spool_remove_header := remove;
  spool_remove_header_instance := remove_instance;
  spool_getheader := lookup;
  spool_enum_hdrcache hc := hc;
|}.

End ListCache.

Section Runtime.

Context `{Constants} `{Library}.
Context {hdrcache : Type} `{HeaderCache hdrcache}.

(** [message_data_t] of imap/lmtpengine.h, the fields the runtime uses.
    [m_f] is the content of the spool file; [data] is a stream over the same
    file.  [m_rcpt_status] is what [msg_setrcpt_status] has recorded, by
    recipient number. *)
Record message_data_t := {
  m_id : option string;
  m_return_path : option string;
  m_date : string;
  m_hdrcache : hdrcache;
  m_f : string;
  m_body_offset : nat;
  m_size : Z;
  m_rcpt_status : gmap Z (Z * list string);
}.

(** [mbname_t] through its accessors. *)
Record mbname_t := {
  mbname_userid : option string;
  mbname_localpart : option string;
  mbname_domain : option string;
}.

(** [deliver_data_t] of imap/lmtpd.h.  [dd_stage] tells the staging
    directory the message file lives in. *)
Record deliver_data_t := {
  dd_m : message_data_t;
  dd_cur_rcpt : Z;
  dd_stage : string;
  dd_body_parsed : bool;             (* content->body != NULL *)
  dd_authuser : option string;
  dd_notifyheader : option string;
  dd_ignorequota : bool;             (* msg_getrcpt_ignorequota *)
}.

(** [script_data_t] *)
Record script_data_t := {
  sd_mbname : mbname_t;
  sd_edited_header : bool;
}.

(** [struct sieve_interp_ctx] *)
Record sieve_interp_ctx := {
  ctx_userid : option string;
}.

(** Arguments of [deliver_mailbox] (imap/lmtpd.c). *)
Record delivery := {
  dl_file : string;
  dl_stage : string;
  dl_size : Z;
  dl_flags : list string;
  dl_authuser : option string;
  dl_id : option string;
  dl_user : option string;
  dl_notifyheader : option string;
  dl_mailbox : string;
  dl_date : string;
  dl_quotaoverride : bool;
}.

(** The mailbox store: mboxlist, annotations and message append.  An
    operation takes the store and returns the new store with its result
    code. *)
Class MailStore (store : Type) := {
  mboxlist_lookup : store -> string -> Z;
  mboxlist_createmailbox : store -> string -> string -> store * Z;
  mboxlist_changesub : store -> string -> string -> store;
  annotatemore_write : store -> string -> string -> option string -> string
                       -> store;
  deliver_mailbox : store -> delivery -> store * Z;
  deliver_local : store -> deliver_data_t -> list string -> mbname_t
                  -> store * Z;
  (* [append_setup] up to [append_commit] or [append_abort] in [do_fcc]:
     what is left in [r] *)
  append_message : store -> string -> option string -> list string -> string
                   -> store * Z;
  (* CardDAV: the e-mail lists of the cards of an address book *)
  carddav_emails : store -> string -> list (option (list string));
}.

Context {store : Type} `{MailStore store}.

(** ** Effects *)

Inductive priority := LOG_ERR | LOG_NOTICE | LOG_INFO | LOG_DEBUG.

(** [smtp_envelope_t] and what is handed to [smtpclient_send]. *)
Record smtp_envelope_t := {
  env_from : string;
  env_rcpts : list string;
}.

Record smtp_job := {
  sm_auth : option string;
  sm_dsn : option (string * string * string);   (* notify, ret, by *)
  sm_env : smtp_envelope_t;
  sm_msg : string;
}.

(** What the runtime asks of its collaborators, in the order of the calls.
    [Syslog] keeps the format and the [%s] arguments as they are passed. *)
Inductive event :=
  | Syslog (prio : priority) (fmt : string) (args : list (option string))
  | Prometheus (metric : string)
  | Snmp (metric : string)
  | DuplicateLog (k : duplicate_key_t) (action : string)
  | SmtpSend (job : smtp_job)
  | NewStage (stage : option string)
  | RemoveStage (stage : string)
  | DeliverMailbox (d : delivery) (r : Z)
  | DeliverLocal (dd : deliver_data_t) (flags : list string) (r : Z)
  | CreateMailbox (name : string) (r : Z)
  | ChangeSub (name : string)
  | WriteAnnotation (name entry : string) (value : string)
  | AppendMessage (name : string) (msg : string) (r : Z)
  | Notify (method class : string) (priority : string) (user : option string)
           (options : list string) (message : string) (fname : option string)
  | Getpwnam (user : string)
  | Stat (path : string)
  | GetDefaultBc (path : string)
  | SieveRebuild (path : string).

(** The state that the handlers share. *)
Record world := {
  w_dup : ledger;
  w_store : store;
  w_trace : list event;
  w_outgoing_count : Z;               (* global_outgoing_count *)
}.

(** What the environment answers during one handler call. *)
Record oracle := {
  o_now : Z;                          (* time(NULL) *)
  o_pid : Z;                          (* getpid() *)
  o_session_id : string;
  o_smtp_open : Z;                    (* smtpclient_open *)
  o_smtp_send : Z;                    (* smtpclient_send *)
  o_newstage : option string;         (* append_newstage: the stage, if any *)
  o_carddav_open : bool;              (* carddav_open_userid succeeds *)
  o_getpwnam : string -> option string;
  o_stat : string -> bool;            (* stat(fname) == 0 *)
  o_getdefaultbcfname : string -> option string;
  (* srs_forward_alloc of the engine, if one is set up: status and result *)
  o_srs_engine : option (option string -> option string -> Z * option string);
}.

(** A handler is a state transformer over [world]; [None] is a run that the
    C standard leaves undefined (a NULL pointer given to a string routine)
    or that does not end. *)
Definition M (A : Type) : Type := world -> option (A * world).

Definition ret {A} (a : A) : M A := fun w => Some (a, w).
Definition bind {A B} (m : M A) (k : A -> M B) : M B :=
  fun w => match m w with Some (a, w') => k a w' | None => None end.
Definition undefined {A} : M A := fun _ => None.
Definition nonnull {A} (p : option A) : M A :=
  match p with Some a => ret a | None => undefined end.

Definition set_dup (w : world) (db : ledger) : world :=
  {| w_dup := db; w_store := w_store w; w_trace := w_trace w;
     w_outgoing_count := w_outgoing_count w |}.
Definition set_store (w : world) (st : store) : world :=
  {| w_dup := w_dup w; w_store := st; w_trace := w_trace w;
     w_outgoing_count := w_outgoing_count w |}.
Definition add_trace (w : world) (es : list event) : world :=
  {| w_dup := w_dup w; w_store := w_store w; w_trace := w_trace w ++ es;
     w_outgoing_count := w_outgoing_count w |}.

Definition emit (e : event) : M unit := fun w => Some (tt, add_trace w [e]).
Definition get_dup : M ledger := fun w => Some (w_dup w, w).
Definition put_dup (db : ledger) : M unit := fun w => Some (tt, set_dup w db).
Definition get_store : M store := fun w => Some (w_store w, w).
Definition put_store (st : store) : M unit :=
  fun w => Some (tt, set_store w st).
(** [global_outgoing_count++] *)
Definition next_outgoing_count : M Z :=
  fun w => Some (w_outgoing_count w,
                 {| w_dup := w_dup w; w_store := w_store w;
                    w_trace := w_trace w;
                    w_outgoing_count := to_int (w_outgoing_count w + 1) |}).

Definition when (b : bool) (m : M unit) : M unit := if b then m else ret tt.

Notation "'do' x <- m ; k" := (bind m (fun x => k))
  (at level 10, x name, m at level 100, k at level 200).
Notation "'run' m ; k" := (bind m (fun _ => k))
  (at level 10, m at level 100, k at level 200).

(** ** Reading and editing the message *)

(** Modelled from the spec: [msg_getheader] of imap/lmtpengine.c, which is
    not part of this file; a header test reads the header cache of the
    message. *)
Definition msg_getheader (m : message_data_t) (phead : string)
    : option (list string) :=
  spool_getheader (m_hdrcache m) phead.

Definition set_hdrcache (m : message_data_t) (hc : hdrcache)
    : message_data_t :=
  {| m_id := m_id m; m_return_path := m_return_path m; m_date := m_date m;
     m_hdrcache := hc; m_f := m_f m; m_body_offset := m_body_offset m;
     m_size := m_size m; m_rcpt_status := m_rcpt_status m |}.

Definition set_m (dd : deliver_data_t) (m : message_data_t)
    : deliver_data_t :=
  {| dd_m := m; dd_cur_rcpt := dd_cur_rcpt dd; dd_stage := dd_stage dd;
     dd_body_parsed := dd_body_parsed dd; dd_authuser := dd_authuser dd;
     dd_notifyheader := dd_notifyheader dd;
     dd_ignorequota := dd_ignorequota dd |}.

Definition set_edited_header (sd : script_data_t) : script_data_t :=
  {| sd_mbname := sd_mbname sd; sd_edited_header := true |}.

(** [getheader]: the code and what [*body] is set to. *)
Definition getheader (v : deliver_data_t) (phead : option string)
    : Z * option (list string) :=
  match phead with
  | None => (SIEVE_FAIL, None)
  | Some head =>
      match msg_getheader (dd_m v) head with
      | Some body => (SIEVE_OK, Some body)
      | None => (SIEVE_FAIL, None)
      end
  end.

(** [addheader]: the header goes into the cache of the message that [mc]
    points to; the script context records the edit. *)
Definition addheader (sc : script_data_t) (mc : deliver_data_t)
    (head body : option string) (index : Z)
    : Z * script_data_t * deliver_data_t :=
  match head, body with
  | Some head, Some body =>
      let m := dd_m mc in
      let hc := if index <? 0
                then spool_append_header head body (m_hdrcache m)
                else spool_prepend_header head body (m_hdrcache m) in
      (SIEVE_OK, set_edited_header sc, set_m mc (set_hdrcache m hc))
  | _, _ => (SIEVE_FAIL, sc, mc)
  end.

(** [deleteheader] *)
Definition deleteheader (sc : script_data_t) (mc : deliver_data_t)
    (head : option string) (index : Z)
    : Z * script_data_t * deliver_data_t :=
  match head with
  | Some head =>
      let m := dd_m mc in
      let hc := if index =? 0
                then spool_remove_header head (m_hdrcache m)
                else spool_remove_header_instance head index (m_hdrcache m) in
      (SIEVE_OK, set_edited_header sc, set_m mc (set_hdrcache m hc))
  | None => (SIEVE_FAIL, sc, mc)
  end.

(** ** Locating a script *)

(** [strrchr(s, c)]: the tail of [s] from the last [c] on. *)
Fixpoint strrchr (s : string) (c : ascii) : option string :=
  match s with
  | EmptyString => None
  | String x s' =>
      match strrchr s' c with
      | Some r => Some r
      | None => if Ascii.eqb x c then Some s else None
      end
  end.

(** [snprintf(fname + len, size - len, ...)] with formatted text [text], on
    a buffer [fname] of [size] bytes.  Below [size], [len] is
    [strlen(fname)]; at [size] nothing is written; beyond it the pointer is
    outside the buffer. *)
Definition snprintf_at (fname : string) (size : Z) (len : Z)
    (text : string) : option string :=
  if size <? len then None
  else if len =? size then Some fname
  else Some (fname +:+ str (take (Z.to_nat (size - len - 1)) (chars text))).

Variable cfg : config.

(** The file-scope [sieve_dir], as [setup_sieve] sets it. *)
Definition sieve_dir_global : option string :=
  if sieve_usehomedir cfg then None else sieve_dir cfg.

(** The end of [sieve_find_script]: rebuild a [.bc] file, return 0. *)
Definition rebuild_if_bc (fname : string) : M (Z * string) :=
  run when (match strrchr fname "."%char with
            | Some ext => String.eqb ext ".bc"
            | None => false
            end) (emit (SieveRebuild fname));
  ret (0, fname).

(** [sieve_find_script]: the code and the content of [fname], a buffer of
    [size >= 1] bytes. *)
Definition sieve_find_script (o : oracle) (user domain script : option string)
    (fname : string) (size : Z) : M (Z * string) :=
  if negb (is_Some_b user) && negb (is_Some_b script) then ret (-1, fname)
  else if match user with Some u => 900 <? strlen u | None => false end
  then ret (-1, fname)
  else
    match sieve_usehomedir cfg, user with
    | true, Some u =>
        run emit (Getpwnam u);
        match o_getpwnam o u with
        | None => ret (-1, fname)
        | Some pw_dir =>
            rebuild_if_bc
              (snprintf size (pw_dir +:+ "/" +:+ default ".sieve" script))
        end
    | _, _ =>
        do dir <- nonnull sieve_dir_global;
        let fname := snprintf size dir in        (* strlcpy *)
        let len := strlen dir in
        do fl <- match domain with
                 | Some d =>
                     let dhash := dir_hash_c d (config_fulldirhash cfg) in
                     let text := FNAME_DOMAINDIR +:+ String dhash "" +:+
                                 "/" +:+ d in
                     do f <- nonnull (snprintf_at fname size len text);
                     ret (f, len + strlen text)
                 | None => ret (fname, len)
                 end;
        let fname := fst fl in
        let len := snd fl in
        match user with
        | None =>
            let len := strlen fname + strlen "/global/" in
            let fname := strlcat fname "/global/" size in
            do name <- nonnull script;
            do f <- nonnull (snprintf_at fname size len (name +:+ ".bc"));
            rebuild_if_bc f
        | Some u =>
            let hash := dir_hash_c u (config_fulldirhash cfg) in
            let text := "/" +:+ String hash "" +:+ "/" +:+ u +:+ "/" in
            do f <- nonnull (snprintf_at fname size len text);
            let fname := f in
            let len := len + strlen text in
            match script with
            | None =>
                let fname := strlcat fname "defaultbc" size in
                run emit (GetDefaultBc fname);
                run match o_getdefaultbcfname o fname with
                    | Some bc_fname => emit (SieveRebuild bc_fname)
                    | None => ret tt
                    end;
                ret (0, fname)
            | Some name =>
                do f <- nonnull (snprintf_at fname size len (name +:+ ".bc"));
                rebuild_if_bc f
            end
        end
    end.

(** [getinclude]: the code and the content of [fname]. *)
Definition getinclude (o : oracle) (sc : script_data_t) (script : string)
    (isglobal : bool) (fname : string) (size : Z) : M (Z * string) :=
  let mbname := sd_mbname sc in
  if strstr script "../" then
    run emit (Syslog LOG_NOTICE "Illegal script name '%s' for user '%s'"
                [Some script; mbname_userid mbname]);
    ret (SIEVE_FAIL, fname)
  else
    do r <- sieve_find_script o
              (if isglobal then None else mbname_localpart mbname)
              (mbname_domain mbname) (Some script) fname size;
    if (fst r =? 0) && isglobal && is_Some_b (mbname_domain mbname) then
      run emit (Stat (snd r));
      if negb (o_stat o (snd r))
      then sieve_find_script o None None (Some script) (snd r) size
      else ret r
    else ret r.

(** ** Outbound mail *)

(** [md->id ? md->id : "<nomsgid>"] *)
Definition id_or_nomsgid (id : option string) : option string :=
  Some (default "<nomsgid>" id).

(** The calls from [smtpclient_open] to [smtpclient_close] around one
    message: the result code.  The message is handed to the transport only
    when the session opens. *)
Definition smtp_submit (o : oracle) (job : smtp_job) : M Z :=
  if o_smtp_open o =? 0 then
    run emit (SmtpSend job);
    ret (o_smtp_send o)
  else ret (o_smtp_open o).

(** ["<cmu-sieve-%d-%d-%d@%s>"] with [global_outgoing_count++] *)
Definition new_msgid (o : oracle) : M string :=
  do n <- next_outgoing_count;
  ret (snprintf 8192
         ("<cmu-sieve-" +:+ fmt_d (to_int (o_pid o)) +:+ "-" +:+
          fmt_d (to_int (o_now o)) +:+ "-" +:+ fmt_d n +:+ "@" +:+
          config_servername cfg +:+ ">")).

(** ["%d/%s"] of the MIME boundary *)
Definition boundary (o : oracle) : string :=
  fmt_d (to_int (o_pid o)) +:+ "/" +:+ config_servername cfg.

Definition opt_line (label : string) (v : option string) : string :=
  match v with Some x => label +:+ x +:+ CRLF | None => "" end.

(** [send_rejection]; [file] is the content of the stream. *)
Definition send_rejection (o : oracle) (userid origid : option string)
    (rejto : string) (origreceip : option string) (mailreceip : option string)
    (reason : string) (file : string) : M Z :=
  let sm_env := {| env_from := "<>"; env_rcpts := [rejto] |} in
  let t := o_now o in
  do buf <- new_msgid o;
  do mailreceip <- nonnull mailreceip;
  let namebuf := make_sieve_db mailreceip in
  let datestr := time_to_rfc5322 t in
  let dkey := {| dk_id := buf; dk_to := namebuf; dk_date := datestr |} in
  do db <- get_dup;
  run put_dup (duplicate_mark db dkey t);
  let msgbuf :=
    "Message-ID: " +:+ buf +:+ CRLF +:+
    "Date: " +:+ datestr +:+ CRLF +:+
    "X-Sieve: " +:+ SIEVE_VERSION +:+ CRLF +:+
    "From: Mail Sieve Subsystem <" +:+ postmaster cfg +:+ ">" +:+ CRLF +:+
    "To: <" +:+ rejto +:+ ">" +:+ CRLF +:+
    "MIME-Version: 1.0" +:+ CRLF +:+
    "Content-Type: multipart/report; report-type=disposition-notification;"
      +:+ CRLF +:+ String HTAB "boundary=" +:+ String DQUOTE (boundary o)
      +:+ String DQUOTE CRLF +:+
    "Subject: Automatically rejected mail" +:+ CRLF +:+
    "Auto-Submitted: auto-replied (rejected)" +:+ CRLF +:+
    CRLF +:+ "This is a MIME-encapsulated message" +:+ CRLF +:+ CRLF +:+
    "--" +:+ boundary o +:+ CRLF +:+
    "Content-Type: text/plain; charset=utf-8" +:+ CRLF +:+
    "Content-Disposition: inline" +:+ CRLF +:+
    "Content-Transfer-Encoding: 8bit" +:+ CRLF +:+ CRLF +:+
    "Your message was automatically rejected by Sieve, a mail" +:+ CRLF +:+
    "filtering language." +:+ CRLF +:+ CRLF +:+
    "The following reason was given:" +:+ CRLF +:+ reason +:+ CRLF +:+ CRLF
      +:+
    "--" +:+ boundary o +:+ CRLF +:+
    "Content-Type: message/disposition-notification" +:+ CRLF +:+ CRLF +:+
    "Reporting-UA: " +:+ config_servername cfg +:+ "; Cyrus " +:+
      CYRUS_VERSION +:+ "/" +:+ SIEVE_VERSION +:+ CRLF +:+
    opt_line "Original-Recipient: rfc822; " origreceip +:+
    "Final-Recipient: rfc822; " +:+ mailreceip +:+ CRLF +:+
    opt_line "Original-Message-ID: " origid +:+
    "Disposition: automatic-action/MDN-sent-automatically; deleted" +:+ CRLF
      +:+ CRLF +:+
    "--" +:+ boundary o +:+ CRLF +:+ "Content-Type: message/rfc822" +:+ CRLF
      +:+ CRLF +:+
    file +:+ CRLF +:+ CRLF +:+
    "--" +:+ boundary o +:+ "--" +:+ CRLF in
  do r <- smtp_submit o {| sm_auth := userid; sm_dsn := None;
                           sm_env := sm_env; sm_msg := msgbuf |};
  run when (negb (r =? 0))
        (emit (Syslog LOG_ERR "sieve: send_rejection: SMTP error: %s"
                 [Some (error_message r)]));
  ret r.

(** [sieve_srs_forward]: without an SRS engine (not compiled in, or not
    configured) the result is NULL. *)
Definition sieve_srs_forward (o : oracle) (return_path : option string)
    : M (option string) :=
  match o_srs_engine o with
  | None => ret None
  | Some srs_forward_alloc =>
      let '(srs_status, srs_return_path) :=
        srs_forward_alloc return_path (srs_domain cfg) in
      if srs_status =? 0 then ret srs_return_path
      else
        run emit (Syslog LOG_ERR "sieve SRS forward failed (%s, %s): %s"
                    [return_path; srs_domain cfg;
                     Some (srs_strerror srs_status)]);
        ret None
  end.

(** [get_addrbook_mboxname] *)
Definition get_addrbook_mboxname (st : store) (list : string)
    (userid : option string) : option string :=
  let addrbook_urn_full := "urn:ietf:params:sieve:addrbook:" in
  let addrbook_urn_abbrev := ":addrbook:" in
  let uri := xmlURIUnescapeString list in
  let abook :=
    match strip_prefix addrbook_urn_full uri with
    | Some rest => Some rest
    | None => strip_prefix addrbook_urn_abbrev uri
    end in
  match abook with
  | None => None
  | Some abook =>
      let abook := if strcaseeq abook "Default" then "Default" else abook in
      let mboxname := carddav_mboxname userid abook in
      if mboxlist_lookup st mboxname =? 0 then Some mboxname else None
  end.

(** [list_addresses] over the cards that [carddav_foreach] visits. *)
Definition list_addresses (cards : list (option (list string)))
    : list string :=
  concat (map (fun emails => default [] emails) cards).

(** [sieve_redirect_context_t] *)
Record sieve_redirect_context_t := {
  rc_addr : string;
  rc_is_ext_list : bool;
  rc_dsn_notify : string;
  rc_dsn_ret : string;
  rc_deliverby : string;
}.

(** The lines of a stream as [prot_fgets] delivers them: each ends with its
    LF, except maybe the last. *)
Fixpoint lines_from (cur : list ascii) (s : list ascii) : list string :=
  match s with
  | [] => match cur with [] => [] | _ => [str (rev cur)] end
  | c :: s' =>
      if Ascii.eqb c LF then str (rev (c :: cur)) :: lines_from [] s'
      else lines_from (c :: cur) s'
  end.

(** The copy loop of [send_forward]: the Return-Path lines of the header
    are dropped. *)
Fixpoint strip_return_path (body : bool) (lines : list string) : string :=
  match lines with
  | [] => ""
  | buf :: rest =>
      let body := body || is_Some_b (strip_prefix CRLF buf) in
      let skip := negb body && has_prefix_nocase buf "Return-Path:" in
      (if skip then "" else buf) +:+ strip_return_path body rest
  end.

(** [send_forward]; [file] is the content of the stream.  [o_carddav_open]
    tells whether [ctx->carddavdb] is, or can be, opened. *)
Definition send_forward (o : oracle) (rc : sieve_redirect_context_t)
    (ctx : sieve_interp_ctx) (return_path : option string) (file : string)
    : M Z :=
  do srs_return_path <- sieve_srs_forward o return_path;
  let from :=
    match srs_return_path with
    | Some p => p
    | None =>
        match return_path with
        | Some p => if String.eqb p "" then "<>" else p
        | None => "<>"
        end
    end in
  do st <- get_store;
  let rcpts :=
    if rc_is_ext_list rc then
      if with_dav cfg then
        match get_addrbook_mboxname st (rc_addr rc) (ctx_userid ctx) with
        | Some abook =>
            if o_carddav_open o
            then Some (list_addresses (carddav_emails st abook))
            else None
        | None => None
        end
      else Some []
    else Some [rc_addr rc] in
  match rcpts with
  | None => ret SIEVE_FAIL
  | Some rcpts =>
      let msgbuf := strip_return_path false (lines_from [] (chars file)) in
      smtp_submit o
        {| sm_auth := ctx_userid ctx;
           sm_dsn := Some (rc_dsn_notify rc, rc_dsn_ret rc, rc_deliverby rc);
           sm_env := {| env_from := from; env_rcpts := rcpts |};
           sm_msg := msgbuf |}
  end.

(** ** The staged copy of an edited message *)

(** [spool_enum_hdrcache(..., &dump_header, md.f)]: what is written. *)
Definition dump_headers (hc : hdrcache) : option string :=
  foldr (fun nv acc =>
           match Fold.dump_header charset_encode_mimeheader (fst nv) (snd nv),
                 acc with
           | Some line, Some rest => Some (line +:+ rest)
           | _, _ => None
           end)
        (Some "") (spool_enum_hdrcache hc).

(** The copy [dd] that [setup_special_delivery] returns: its message is the
    new staged file, the headers [hdrs] written from the cache and then the
    body of the original; the header cache is the shared one. *)
Definition staged_copy (stage hdrs : string) (mydata : deliver_data_t)
    : deliver_data_t :=
  let m := dd_m mydata in
  let f := hdrs +:+ str (drop (m_body_offset m) (chars (m_f m))) in
  let md := {| m_id := m_id m; m_return_path := m_return_path m;
               m_date := m_date m; m_hdrcache := m_hdrcache m;
               m_f := f; m_body_offset := String.length hdrs;
               m_size := strlen f;
               m_rcpt_status := m_rcpt_status m |} in
  {| dd_m := md; dd_cur_rcpt := dd_cur_rcpt mydata;
     dd_stage := stage; dd_body_parsed := false;
     dd_authuser := dd_authuser mydata;
     dd_notifyheader := dd_notifyheader mydata;
     dd_ignorequota := dd_ignorequota mydata |}.

(** [setup_special_delivery]: NULL when no stage file can be made. *)
Definition setup_special_delivery (o : oracle) (mydata : deliver_data_t)
    : M (option deliver_data_t) :=
  run emit (NewStage (o_newstage o));
  match o_newstage o with
  | Some stage =>
      do hdrs <- nonnull (dump_headers (m_hdrcache (dd_m mydata)));
      ret (Some (staged_copy stage hdrs mydata))
  | None => ret None
  end.

(** [cleanup_special_delivery] *)
Definition cleanup_special_delivery (mydata : deliver_data_t) : M unit :=
  emit (RemoveStage (dd_stage mydata)).

(** [if (sd->edited_header) mdata = setup_special_delivery(mdata);]: the
    context that the action delivers, NULL when the staging failed. *)
Definition special_delivery (o : oracle) (sd : script_data_t)
    (mdata : deliver_data_t) : M (option deliver_data_t) :=
  if sd_edited_header sd then setup_special_delivery o mdata
  else ret (Some mdata).

(** ** The action handlers *)

(** The key under which [sieve_redirect] tracks a redirect. *)
Definition redirect_key (id : string) (rc : sieve_redirect_context_t)
    (userid : string) (m : message_data_t) : duplicate_key_t :=
  {| dk_id := snprintf 8192 (id +:+ "-" +:+ rc_addr rc);
     dk_to := make_sieve_db userid;
     dk_date := m_date m |}.

(** [sieve_redirect] from [if (sd->edited_header)] on; [dkey] is the key
    when [sievedb] is set. *)
Definition redirect_send (o : oracle) (rc : sieve_redirect_context_t)
    (ctx : sieve_interp_ctx) (sd : script_data_t) (mdata : deliver_data_t)
    (dkey : option duplicate_key_t) : M (Z * option string) :=
  do special <- special_delivery o sd mdata;
  match special with
  | None => ret (SIEVE_FAIL, None)
  | Some mdata =>
      let m := dd_m mdata in
      do res <- send_forward o rc ctx (m_return_path m) (m_f m);
      run when (sd_edited_header sd) (cleanup_special_delivery mdata);
      if res =? 0 then
        run match dkey with
            | Some k =>
                do db <- get_dup; put_dup (duplicate_mark db k (o_now o))
            | None => ret tt
            end;
        run emit (Prometheus "CYRUS_LMTP_SIEVE_REDIRECT_TOTAL");
        run emit (Snmp "SIEVE_REDIRECT");
        run emit (Syslog LOG_INFO "sieve redirected: %s to: %s"
                    [id_or_nomsgid (m_id m); Some (rc_addr rc)]);
        run when (config_auditlog cfg)
              (emit (Syslog LOG_NOTICE
                 "auditlog: redirect sessionid=<%s> message-id=%s target=<%s>"
                 [Some (o_session_id o); id_or_nomsgid (m_id m);
                  Some (rc_addr rc)]));
        ret (SIEVE_OK, None)
      else
        ret (SIEVE_FAIL,
             Some (if res =? -1 then "Could not spawn sendmail process"
                   else error_message res))
  end.

(** [sieve_redirect]: the code and [*errmsg]. *)
Definition sieve_redirect (o : oracle) (rc : sieve_redirect_context_t)
    (ctx : sieve_interp_ctx) (sd : script_data_t) (mdata : deliver_data_t)
    : M (Z * option string) :=
  let m := dd_m mdata in
  match m_id m with
  | Some id =>
      do userid <- nonnull (mbname_userid (sd_mbname sd));
      let dkey := redirect_key id rc userid m in
      do db <- get_dup;
      if negb (duplicate_check db dkey =? 0) then
        run emit (DuplicateLog dkey "redirect");
        ret (SIEVE_OK, None)
      else redirect_send o rc ctx sd mdata (Some dkey)
  | None => redirect_send o rc ctx sd mdata None
  end.

(** [sieve_discard] *)
Definition sieve_discard (o : oracle) (mc : deliver_data_t) : M Z :=
  let md := dd_m mc in
  run emit (Prometheus "CYRUS_LMTP_SIEVE_DISCARD_TOTAL");
  run emit (Snmp "SIEVE_DISCARD");
  run emit (Syslog LOG_INFO "sieve discarded: %s" [id_or_nomsgid (m_id md)]);
  run when (config_auditlog cfg)
        (emit (Syslog LOG_NOTICE
                 "auditlog: discard sessionid=<%s> message-id=%s"
                 [Some (o_session_id o); id_or_nomsgid (m_id md)]));
  ret SIEVE_OK.

(** [sieve_reject_context_t] *)
Record sieve_reject_context_t := {
  rj_msg : string;
  rj_is_extended : bool;
}.

(** The [isascii] loop of [sieve_reject]. *)
Definition need_encode (msg : string) : bool :=
  existsb (fun c => negb (isascii c)) (chars msg).

(** The [for (cur = tok_next(&tok); (next = tok_next(&tok)); cur = next)]
    loop and the line after it; [cur] is NULL when the text has no token,
    and is then given to [%s]. *)
Fixpoint reject_lines (cur : option string) (rest : list string)
    : option (list string) :=
  match rest with
  | next :: rest' =>
      match cur, reject_lines (Some next) rest' with
      | Some c, Some l => Some (("550-5.7.1 " +:+ c +:+ CRLF) :: l)
      | _, _ => None
      end
  | [] =>
      match cur with
      | Some c => Some ["550 5.7.1 " +:+ c +:+ CRLF]
      | None => None
      end
  end.

Definition reject_response (tokens : list string) : option (list string) :=
  match tokens with
  | cur :: rest => reject_lines (Some cur) rest
  | [] => reject_lines None []
  end.

(** Modelled from the spec: [msg_setrcpt_status] of imap/lmtpengine.c, which
    is not part of this file; it records the status and the response lines
    of one recipient of the message. *)
Definition msg_setrcpt_status (m : message_data_t) (rcpt_num : Z) (r : Z)
    (resp : list string) : message_data_t :=
  {| m_id := m_id m; m_return_path := m_return_path m; m_date := m_date m;
     m_hdrcache := m_hdrcache m; m_f := m_f m;
     m_body_offset := m_body_offset m; m_size := m_size m;
     m_rcpt_status := <[rcpt_num := (r, resp)]> (m_rcpt_status m) |}.

(** The first part of [sieve_reject]: the rejection in the LMTP dialogue. *)
Definition reject_lmtp (o : oracle) (rc : sieve_reject_context_t)
    (mydata : deliver_data_t) : M (Z * option string * deliver_data_t) :=
  let md := dd_m mydata in
  let msg := if need_encode (rj_msg rc)
             then charset_qpencode_mimebody (rj_msg rc)
             else rj_msg rc in
  do resp <- nonnull (reject_response (tok_tokens msg CRLF));
  let md' := msg_setrcpt_status md (dd_cur_rcpt mydata)
               LMTP_MESSAGE_REJECTED resp in
  run emit (Prometheus "CYRUS_LMTP_SIEVE_REJECT_TOTAL");
  run emit (Snmp "SIEVE_REJECT");
  run emit (Syslog LOG_INFO "sieve LMTP rejected: %s"
              [id_or_nomsgid (m_id md)]);
  run when (config_auditlog cfg)
        (emit (Syslog LOG_NOTICE
                 "auditlog: LMTP reject sessionid=<%s> message-id=%s"
                 [Some (o_session_id o); id_or_nomsgid (m_id md)]));
  ret (SIEVE_OK, None, set_m mydata md').

(** The rest of [sieve_reject]: the rejection by mail. *)
Definition reject_mail (o : oracle) (rc : sieve_reject_context_t)
    (ctx : sieve_interp_ctx) (sd : script_data_t) (mydata : deliver_data_t)
    : M (Z * option string * deliver_data_t) :=
  let md := dd_m mydata in
  match m_return_path md with
  | None => ret (SIEVE_FAIL, Some "No return-path for reply", mydata)
  | Some return_path =>
      if strlen return_path =? 0 then
        run emit (Syslog LOG_INFO
                    "sieve: discarded reject to <> for %s id %s"
                    [mbname_userid (sd_mbname sd); id_or_nomsgid (m_id md)]);
        run when (config_auditlog cfg)
              (emit (Syslog LOG_NOTICE
                 "auditlog: discard-reject sessionid=<%s> message-id=%s"
                 [Some (o_session_id o); id_or_nomsgid (m_id md)]));
        ret (SIEVE_OK, None, mydata)
      else
        let origreceip :=
          match msg_getheader md "original-recipient" with
          | Some body => head body
          | None => None
          end in
        do res <- send_rejection o (ctx_userid ctx) (m_id md) return_path
                    origreceip (mbname_userid (sd_mbname sd)) (rj_msg rc)
                    (m_f md);
        if res =? 0 then
          run emit (Prometheus "CYRUS_LMTP_SIEVE_REJECT_TOTAL");
          run emit (Snmp "SIEVE_REJECT");
          run emit (Syslog LOG_INFO "sieve rejected: %s to: %s"
                      [id_or_nomsgid (m_id md); Some return_path]);
          run when (config_auditlog cfg)
                (emit (Syslog LOG_NOTICE
                   "auditlog: reject sessionid=<%s> message-id=%s target=<%s>"
                   [Some (o_session_id o); id_or_nomsgid (m_id md);
                    Some return_path]));
          ret (SIEVE_OK, None, mydata)
        else
          ret (SIEVE_FAIL,
               Some (if res =? -1 then "Could not spawn sendmail process"
                     else error_message res), mydata)
  end.

(** [sieve_reject]: the code, [*errmsg], and the delivery context with the
    message as the handler leaves it. *)
Definition sieve_reject (o : oracle) (rc : sieve_reject_context_t)
    (ctx : sieve_interp_ctx) (sd : script_data_t) (mydata : deliver_data_t)
    : M (Z * option string * deliver_data_t) :=
  if rj_is_extended rc ||
     (sieve_use_lmtp_reject cfg && negb (need_encode (rj_msg rc)))
  then reject_lmtp o rc mydata
  else reject_mail o rc ctx sd mydata.

(** [sieve_fileinto_context_t] *)
Record sieve_fileinto_context_t := {
  fc_mailbox : string;
  fc_specialuse : option string;
  fc_imapflags : list string;
  fc_do_create : bool;
}.

(** The [for] loop of [autosieve_createfolder] over the configured names. *)
Fixpoint autocreate_match (userid internalname : string)
    (create : list string) (createsievefolder : bool) : bool :=
  match create with
  | name :: rest =>
      let foldername := mboxname_user_mbox userid name in
      let createsievefolder :=
        if String.eqb foldername internalname then true
        else createsievefolder in
      if createsievefolder then true
      else autocreate_match userid internalname rest createsievefolder
  | [] => createsievefolder
  end.

(** The value of [createsievefolder] when [autosieve_createfolder] reaches
    [if (createsievefolder)]. *)
Definition autocreate_allowed (userid internalname : string)
    (createsievefolder : bool) : bool :=
  if anysievefolder cfg then true
  else
    match autocreate_sieve_folders cfg with
    | Some subf =>
        autocreate_match userid internalname (strarray_split_trim subf "|")
          createsievefolder
    | None => createsievefolder
    end.

(** The policy in the words of the specification: autocreation is permitted
    by the global any-folder override, or because the target is the folder
    of one of the configured auto-create names, or by the create flag of the
    rule. *)
Definition autocreate_policy (userid internalname : string)
    (do_create : bool) : Prop :=
  anysievefolder cfg = true \/
  (exists subf name : string,
      autocreate_sieve_folders cfg = Some subf /\
      In name (strarray_split_trim subf "|") /\
      mboxname_user_mbox userid name = internalname) \/
  do_create = true.

(** [autosieve_createfolder] *)
Definition autosieve_createfolder (userid internalname : option string)
    (createsievefolder : bool) : M Z :=
  match userid, internalname with
  | Some userid, Some internalname =>
      run emit (Syslog LOG_DEBUG
        "autosievefolder: autosieve_createfolder() was called for user %s, folder %s"
        [Some userid; Some internalname]);
      if autocreate_allowed userid internalname createsievefolder then
        do st <- get_store;
        let '(st', r) := mboxlist_createmailbox st internalname userid in
        run put_store st';
        run emit (CreateMailbox internalname r);
        if r =? 0 then
          do st <- get_store;
          run put_store (mboxlist_changesub st internalname userid);
          run emit (ChangeSub internalname);
          run emit (Syslog LOG_DEBUG
            "autosievefolder: User %s, folder %s creation succeeded"
            [Some userid; Some internalname]);
          ret 0
        else
          run emit (Syslog LOG_ERR
            "autosievefolder: User %s, folder %s creation failed. %s"
            [Some userid; Some internalname; Some (error_message r)]);
          ret r
      else ret IMAP_MAILBOX_NONEXISTENT
  | _, _ => ret IMAP_MAILBOX_NONEXISTENT
  end.

(** The folder that [sieve_fileinto] and [do_fcc] resolve: the special-use
    folder when it is asked for and exists, else the named one. *)
Definition resolve_folder (st : store) (fc : sieve_fileinto_context_t)
    (userid : option string) : string :=
  let ret := match fc_specialuse fc with
             | Some specialuse =>
                 mboxlist_lookup st (mboxname_from_external specialuse userid)
             | None => IMAP_MAILBOX_NONEXISTENT
             end in
  match fc_specialuse fc with
  | Some specialuse =>
      if ret =? 0 then mboxname_from_external specialuse userid
      else mboxname_from_external (fc_mailbox fc) userid
  | None => mboxname_from_external (fc_mailbox fc) userid
  end.

(** The special-use annotation of a newly created folder. *)
Definition annotate_specialuse (fc : sieve_fileinto_context_t)
    (userid : option string) (intname : string) : M unit :=
  match fc_specialuse fc with
  | Some specialuse =>
      match specialuse_validate userid specialuse with
      | Some value =>
          do st <- get_store;
          run put_store (annotatemore_write st intname "/specialuse" userid
                           value);
          emit (WriteAnnotation intname "/specialuse" value)
      | None => ret tt
      end
  | None => ret tt
  end.

Definition call_deliver_mailbox (d : delivery) : M Z :=
  do st <- get_store;
  let '(st', r) := deliver_mailbox st d in
  run put_store st';
  run emit (DeliverMailbox d r);
  ret r.

(** The delivery of [sieve_fileinto]: [deliver_mailbox], and when it says
    that the mailbox does not exist, [autosieve_createfolder] and, if the
    folder was created, the annotation and one more [deliver_mailbox].  The
    result is the last value of [ret]. *)
Definition fileinto_deliver (fc : sieve_fileinto_context_t)
    (userid : option string) (d : delivery) : M Z :=
  do ret1 <- call_deliver_mailbox d;
  if ret1 =? IMAP_MAILBOX_NONEXISTENT then
    do r <- autosieve_createfolder userid (Some (dl_mailbox d))
              (fc_do_create fc);
    if r =? 0 then
      run annotate_specialuse fc userid (dl_mailbox d);
      call_deliver_mailbox d
    else ret r
  else ret ret1.

(** The store after [annotate_specialuse]. *)
Definition annotated (st : store) (fc : sieve_fileinto_context_t)
    (userid : option string) (intname : string) : store :=
  match fc_specialuse fc with
  | Some specialuse =>
      match specialuse_validate userid specialuse with
      | Some value => annotatemore_write st intname "/specialuse" userid value
      | None => st
      end
  | None => st
  end.

(** What [fileinto_deliver] asks of the store [st], what the store answers
    and the store that is left, and the value of [ret] it ends with: one
    delivery when the store does not answer "mailbox does not exist"; one
    delivery and no creation when it does and there is no userid or the
    policy does not permit a creation; one delivery and one failed
    creation; or one delivery, one creation, and one more delivery, on the
    store that the creation (with the subscription and the annotation)
    left. *)
Inductive fileinto_calls (fc : sieve_fileinto_context_t)
    (userid : option string) (d : delivery) (st : store)
    : list event -> store -> Z -> Prop :=
  | fileinto_once (st1 : store) (r1 : Z) :
      deliver_mailbox st d = (st1, r1) ->
      r1 <> IMAP_MAILBOX_NONEXISTENT ->
      fileinto_calls fc userid d st [DeliverMailbox d r1] st1 r1
  | fileinto_not_permitted (st1 : store) :
      deliver_mailbox st d = (st1, IMAP_MAILBOX_NONEXISTENT) ->
      (userid = None \/
       exists u, userid = Some u /\
                 ~ autocreate_policy u (dl_mailbox d) (fc_do_create fc)) ->
      fileinto_calls fc userid d st
        [DeliverMailbox d IMAP_MAILBOX_NONEXISTENT] st1
        IMAP_MAILBOX_NONEXISTENT
  | fileinto_create_failed (st1 st2 : store) (u : string) (rc : Z) :
      deliver_mailbox st d = (st1, IMAP_MAILBOX_NONEXISTENT) ->
      userid = Some u ->
      autocreate_policy u (dl_mailbox d) (fc_do_create fc) ->
      mboxlist_createmailbox st1 (dl_mailbox d) u = (st2, rc) ->
      rc <> 0 ->
      fileinto_calls fc userid d st
        [DeliverMailbox d IMAP_MAILBOX_NONEXISTENT;
         CreateMailbox (dl_mailbox d) rc] st2 rc
  | fileinto_retried (st1 st2 st3 : store) (u : string) (r2 : Z) :
      deliver_mailbox st d = (st1, IMAP_MAILBOX_NONEXISTENT) ->
      userid = Some u ->
      autocreate_policy u (dl_mailbox d) (fc_do_create fc) ->
      mboxlist_createmailbox st1 (dl_mailbox d) u = (st2, 0) ->
      deliver_mailbox
        (annotated (mboxlist_changesub st2 (dl_mailbox d) u) fc userid
           (dl_mailbox d)) d = (st3, r2) ->
      fileinto_calls fc userid d st
        [DeliverMailbox d IMAP_MAILBOX_NONEXISTENT;
         CreateMailbox (dl_mailbox d) 0;
         DeliverMailbox d r2] st3 r2.

(** The arguments of the [deliver_mailbox] calls of [sieve_fileinto]. *)
Definition fileinto_delivery (fc : sieve_fileinto_context_t)
    (sd : script_data_t) (mdata : deliver_data_t) (intname : string)
    : delivery :=
  let md := dd_m mdata in
  let userid := mbname_userid (sd_mbname sd) in
  {| dl_file := m_f md; dl_stage := dd_stage mdata;
     dl_size := m_size md; dl_flags := fc_imapflags fc;
     dl_authuser := userid; dl_id := m_id md;
     dl_user := userid;
     dl_notifyheader := dd_notifyheader mdata;
     dl_mailbox := intname; dl_date := m_date md;
     dl_quotaoverride := dd_ignorequota mdata |}.

(** [sieve_fileinto]: the code and [*errmsg]. *)
Definition sieve_fileinto (o : oracle) (fc : sieve_fileinto_context_t)
    (sd : script_data_t) (mdata : deliver_data_t) : M (Z * option string) :=
  let userid := mbname_userid (sd_mbname sd) in
  do special <- special_delivery o sd mdata;
  match special with
  | None => ret (SIEVE_FAIL, None)
  | Some mdata =>
      do st <- get_store;
      let intname := resolve_folder st fc userid in
      do ret_ <- fileinto_deliver fc userid
                   (fileinto_delivery fc sd mdata intname);
      run when (sd_edited_header sd) (cleanup_special_delivery mdata);
      if ret_ =? 0 then
        run emit (Prometheus "CYRUS_LMTP_SIEVE_FILEINTO_TOTAL");
        run emit (Snmp "SIEVE_FILEINTO");
        ret (SIEVE_OK, None)
      else ret (SIEVE_FAIL, Some (error_message ret_))
  end.

(** [sieve_keep]; [imapflags] is [kc->imapflags]. *)
Definition sieve_keep (o : oracle) (imapflags : list string)
    (sd : script_data_t) (mydata : deliver_data_t) : M (Z * option string) :=
  do special <- special_delivery o sd mydata;
  match special with
  | None => ret (SIEVE_FAIL, None)
  | Some mydata =>
      do st <- get_store;
      let '(st', r) := deliver_local st mydata imapflags (sd_mbname sd) in
      run put_store st';
      run emit (DeliverLocal mydata imapflags r);
      run when (sd_edited_header sd) (cleanup_special_delivery mydata);
      if r =? 0 then
        run emit (Prometheus "CYRUS_LMTP_SIEVE_KEEP_TOTAL");
        run emit (Snmp "SIEVE_KEEP");
        ret (SIEVE_OK, None)
      else ret (SIEVE_FAIL, Some (error_message r))
  end.

(** [sieve_notify_context_t] *)
Record sieve_notify_context_t := {
  nc_method : string;
  nc_priority : string;
  nc_options : list string;
  nc_message : string;
  nc_fname : option string;
}.

(** [sieve_notify] *)
Definition sieve_notify (nc : sieve_notify_context_t) (sd : script_data_t)
    : M Z :=
  run match sievenotifier cfg with
      | Some notifier =>
          run emit (Prometheus "CYRUS_LMTP_SIEVE_NOTIFY_TOTAL");
          run emit (Snmp "SIEVE_NOTIFY");
          emit (Notify (if String.eqb "default" (nc_method nc) then notifier
                        else nc_method nc)
                  "SIEVE" (nc_priority nc) (mbname_userid (sd_mbname sd))
                  (nc_options nc) (nc_message nc) (nc_fname nc))
      | None => ret tt
      end;
  ret SIEVE_OK.

(** ** Vacation *)

(** [sieve_autorespond_context_t]; [arc_hash] is the array of
    [SIEVE_HASHLEN] bytes. *)
Record sieve_autorespond_context_t := {
  arc_hash : list ascii;
  arc_seconds : Z;
}.

(** [hex[x]] for ["0123456789ABCDEF"] *)
Definition hex (x : nat) : ascii :=
  default "0"%char (String.get x "0123456789ABCDEF").

(** The id that [autorespond] builds from the hash. *)
Definition hash_id (hash : list ascii) : string :=
  str (concat (map (fun b => [hex (nat_of_ascii b / 16);
                              hex (nat_of_ascii b mod 16)]) hash)).

(** The key under which [autorespond] tracks a response. *)
Definition vacation_key (arc : sieve_autorespond_context_t)
    (userid : string) : duplicate_key_t :=
  {| dk_id := hash_id (arc_hash arc); dk_to := userid; dk_date := "" |}.

(** [autorespond] *)
Definition autorespond (o : oracle) (arc : sieve_autorespond_context_t)
    (sd : script_data_t) : M Z :=
  run emit (Prometheus "CYRUS_LMTP_SIEVE_AUTORESPOND_TOTAL");
  run emit (Snmp "SIEVE_VACATION_TOTAL");
  let now := o_now o in
  do userid <- nonnull (mbname_userid (sd_mbname sd));
  let dkey := vacation_key arc userid in
  do db <- get_dup;
  let t := duplicate_check db dkey in
  let ret_ := if negb (t =? 0)
              then (if t <=? now then SIEVE_OK else SIEVE_DONE)
              else SIEVE_OK in
  run when (ret_ =? SIEVE_OK)
        (put_dup (duplicate_mark db dkey (now + arc_seconds arc)));
  ret ret_.

(** [do_fcc] *)
Definition do_fcc (sdata : script_data_t) (fcc : sieve_fileinto_context_t)
    (header msg footer : string) : M unit :=
  let userid := mbname_userid (sd_mbname sdata) in
  do st <- get_store;
  let intname := resolve_folder st fcc userid in
  let r := mboxlist_lookup st intname in
  do r <- (if r =? IMAP_MAILBOX_NONEXISTENT then
             do r <- autosieve_createfolder userid (Some intname)
                       (fc_do_create fcc);
             run when (r =? 0) (annotate_specialuse fcc userid intname);
             ret r
           else ret r);
  do r <- (if r =? 0 then
             do st <- get_store;
             let content := header +:+ msg +:+ footer in
             let '(st', r) := append_message st intname userid
                                (fc_imapflags fcc) content in
             run put_store st';
             run emit (AppendMessage intname content r);
             ret r
           else ret r);
  when (negb (r =? 0))
    (emit (Syslog LOG_NOTICE "sieve fcc '%s' failed: %s"
             [Some (fc_mailbox fcc); Some (error_message r)])).

(** [sieve_send_response_context_t]; [src_fcc] is [None] when
    [fcc.mailbox] is NULL. *)
Record sieve_send_response_context_t := {
  src_addr : string;
  src_fromaddr : string;
  src_subj : string;
  src_msg : string;
  src_mime : bool;
  src_fcc : option sieve_fileinto_context_t;
}.

(** [Uiscntrl] *)
Definition iscntrl (c : ascii) : bool :=
  let n := nat_of_ascii c in ((n <? 32) || (n =? 127))%nat.

(** The subject up to its first control character. *)
Fixpoint sane_subject (subj : string) : string :=
  match subj with
  | String c rest => if iscntrl c then "" else String c (sane_subject rest)
  | EmptyString => ""
  end.

(** [send_response]: the code and [*errmsg]. *)
Definition send_response (o : oracle) (src : sieve_send_response_context_t)
    (ctx : sieve_interp_ctx) (sdata : script_data_t) (mc : deliver_data_t)
    : M (Z * option string) :=
  let md := dd_m mc in
  let sm_env := {| env_from := "<>"; env_rcpts := [src_addr src] |} in
  let t := o_now o in
  do outmsgid <- new_msgid o;
  let datestr := time_to_rfc5322 t in
  let subj := charset_encode_mimeheader (sane_subject (src_subj src)) in
  let header :=
    "Message-ID: " +:+ outmsgid +:+ CRLF +:+
    "Date: " +:+ datestr +:+ CRLF +:+
    "X-Sieve: " +:+ SIEVE_VERSION +:+ CRLF +:+
    (if strstr (src_fromaddr src) "<"
     then "From: " +:+ src_fromaddr src +:+ CRLF
     else "From: <" +:+ src_fromaddr src +:+ ">" +:+ CRLF) +:+
    "To: <" +:+ src_addr src +:+ ">" +:+ CRLF +:+
    "Subject: " +:+ subj +:+ CRLF +:+
    opt_line "In-Reply-To: " (m_id md) +:+
    "Auto-Submitted: auto-replied (vacation)" +:+ CRLF +:+
    "MIME-Version: 1.0" +:+ CRLF +:+
    (if src_mime src then
       "Content-Type: multipart/mixed;" +:+ CRLF +:+
       String HTAB "boundary=" +:+ String DQUOTE (boundary o) +:+
       String DQUOTE CRLF +:+
       CRLF +:+
       "This is a MIME-encapsulated message" +:+ CRLF +:+
       CRLF +:+ "--" +:+ boundary o +:+ CRLF
     else
       "Content-Type: text/plain; charset=utf-8" +:+ CRLF +:+
       "Content-Transfer-Encoding: 8bit" +:+ CRLF +:+
       CRLF) in
  let footer :=
    CRLF +:+
    (if src_mime src then CRLF +:+ "--" +:+ boundary o +:+ "--" +:+ CRLF
     else "") in
  let msgbuf := header +:+ src_msg src +:+ footer in
  do r <- smtp_submit o {| sm_auth := ctx_userid ctx; sm_dsn := None;
                           sm_env := sm_env; sm_msg := msgbuf |};
  if r =? 0 then
    do userid <- nonnull (mbname_userid (sd_mbname sdata));
    let dkey := {| dk_id := outmsgid; dk_to := make_sieve_db userid;
                   dk_date := m_date md |} in
    do db <- get_dup;
    run put_dup (duplicate_mark db dkey t);
    run match src_fcc src with
        | Some fcc => do_fcc sdata fcc header (src_msg src) footer
        | None => ret tt
        end;
    run emit (Prometheus "CYRUS_LMTP_SIEVE_AUTORESPOND_SENT_TOTAL");
    run emit (Snmp "SIEVE_VACATION_REPLIED");
    ret (SIEVE_OK, None)
  else ret (SIEVE_FAIL, Some (error_message r)).

(** Modelled from the spec: the vacation verb as the script engine
    (sieve/script.c, not part of this file) runs it, the [autorespond] and
    [send_response] pair: the response is composed and sent when
    [autorespond] allows it. *)
Definition vacation (o : oracle) (arc : sieve_autorespond_context_t)
    (src : sieve_send_response_context_t) (ctx : sieve_interp_ctx)
    (sd : script_data_t) (mc : deliver_data_t) : M (Z * option string) :=
  do r <- autorespond o arc sd;
  if r =? SIEVE_OK then send_response o src ctx sd mc
  else ret (r, None).

(** ** Duplicate tracking *)

(** [sieve_duplicate_context_t] *)
Record sieve_duplicate_context_t := {
  dtc_id : string;
  dtc_seconds : Z;
}.

(** The key of [sieve_duplicate_check] and [sieve_duplicate_track]. *)
Definition duplicate_key (dtc : sieve_duplicate_context_t) (userid : string)
    : duplicate_key_t :=
  {| dk_id := dtc_id dtc; dk_to := make_sieve_db userid; dk_date := "" |}.

(** [sieve_duplicate_check] *)
Definition sieve_duplicate_check (o : oracle)
    (dtc : sieve_duplicate_context_t) (sd : script_data_t) : M Z :=
  let now := o_now o in
  do userid <- nonnull (mbname_userid (sd_mbname sd));
  let dkey := duplicate_key dtc userid in
  do db <- get_dup;
  let t := duplicate_check db dkey in
  if negb (t =? 0) && (now <? t) then
    run emit (DuplicateLog dkey "sieve-duplicate");
    ret 1
  else ret 0.

(** [sieve_duplicate_track] *)
Definition sieve_duplicate_track (o : oracle)
    (dtc : sieve_duplicate_context_t) (sd : script_data_t) : M Z :=
  let now := o_now o in
  do userid <- nonnull (mbname_userid (sd_mbname sd));
  let dkey := duplicate_key dtc userid in
  do db <- get_dup;
  run put_dup (duplicate_mark db dkey (now + dtc_seconds dtc));
  ret SIEVE_OK.

End Runtime.

(** Unfolds the steps of a handler. *)
Ltac unfold_m :=
  repeat (progress
    (unfold bind, ret, emit, when, get_dup, put_dup, get_store, put_store,
       nonnull, undefined in *;
     cbv beta iota in *)).

(** Closes an equation between closed terms by evaluation; the kernel
    checks the conversion when the proof is closed. *)
Ltac by_vm :=
  lazymatch goal with
  | |- _ = ?b => vm_cast_no_check (@eq_refl _ b)
  end.

(** ** Counting what a run did *)

Section Counting.

Context {hdrcache : Type}.

(** The counters that [autorespond] bumps first. *)
Definition autorespond_counters : list (event (hdrcache := hdrcache)) :=
  [Prometheus "CYRUS_LMTP_SIEVE_AUTORESPOND_TOTAL";
   Snmp "SIEVE_VACATION_TOTAL"].

Definition is_send (e : event (hdrcache := hdrcache)) : bool :=
  match e with SmtpSend _ => true | _ => false end.

(** The messages handed to the transport. *)
Definition sends (t : list (event (hdrcache := hdrcache))) : list event :=
  filter (fun e => is_send e = true) t.

Definition is_store_call (e : event (hdrcache := hdrcache)) : bool :=
  match e with
  | DeliverMailbox _ _ | CreateMailbox _ _ => true
  | _ => false
  end.

(** The deliveries and mailbox creations asked of the store, in order. *)
Definition store_calls (t : list (event (hdrcache := hdrcache)))
    : list event :=
  filter (fun e => is_store_call e = true) t.


End Counting.

(** ** What a run hands over *)

Section Delivered.

Context `{Constants} `{Library}.
Context {hdrcache : Type} `{HeaderCache hdrcache}.

(** The text of the message that an event hands over: the file of a
    delivery, the message given to the transport. *)
Definition delivered_text (e : event (hdrcache := hdrcache))
    : option string :=
  match e with
  | DeliverMailbox d _ => Some (dl_file d)
  | DeliverLocal dd _ _ => Some (m_f (dd_m dd))
  | SmtpSend job => Some (sm_msg job)
  | _ => None
  end.

(** The messages that a run delivered or sent, in order. *)
Definition delivered (t : list (event (hdrcache := hdrcache)))
    : list string :=
  omap delivered_text t.

(** What [send_forward] sends of a message file. *)
Definition forwarded (file : string) : string :=
  strip_return_path false (lines_from [] (chars file)).

End Delivered.

(** ** A small installation to run the handlers on *)

Module Sample.

Import ListCache.

#[export] Instance constants : Constants := {|
  SIEVE_FAIL := -1237848064;
  SIEVE_DONE := -1237848058;
  IMAP_MAILBOX_NONEXISTENT := -1904809466;
  LMTP_MESSAGE_REJECTED := 5;
  MAX_MAILBOX_PATH := 4096;
  FNAME_DOMAINDIR := "/domain/";
  SIEVE_VERSION := "CMU Sieve 3.0";
  CYRUS_VERSION := "3.0";
  SIEVE_FAIL_nonzero := ltac:(discriminate);
  SIEVE_DONE_nonzero := ltac:(discriminate);
  SIEVE_DONE_not_FAIL := ltac:(discriminate);
  IMAP_MAILBOX_NONEXISTENT_nonzero := ltac:(discriminate);
|}.

(** Modelled from the spec: the tokenizer of lib/tok.c is not part of this
    file; the text is cut at every byte of [sep] and the empty pieces are
    left out, so a reason is cut into its lines. *)
Fixpoint tokens_from (sep : list ascii) (cur : list ascii) (s : list ascii)
    : list string :=
  let flush := match cur with [] => [] | _ => [str (rev cur)] end in
  match s with
  | [] => flush
  | c :: s' =>
      if existsb (Ascii.eqb c) sep then flush ++ tokens_from sep [] s'
      else tokens_from sep (c :: cur) s'
  end.

Definition tokens (s sep : string) : list string :=
  tokens_from (chars sep) [] (chars s).

(** Modelled from the spec: the routines of lib/ and imap/ that this file
    calls and does not define.  The encoders leave the text as it is (which
    is what they do on printable ASCII); a user's folder [name] is
    [user.<userid>.<name>]. *)
#[export] Instance library : Library := {|
  charset_encode_mimeheader s := s;
  charset_qpencode_mimebody s := s;
  tok_tokens := tokens;
  time_to_rfc5322 := fmt_d;
  error_message := fmt_d;
  srs_strerror := fmt_d;
  mboxname_from_external name userid :=
    "user." +:+ default "" userid +:+ "." +:+ name;
  mboxname_user_mbox userid name := "user." +:+ userid +:+ "." +:+ name;
  strarray_split_trim := tokens;
  specialuse_validate _ specialuse := Some specialuse;
  dir_hash_c s _ := match s with String c _ => c | EmptyString => "q"%char end;
  xmlURIUnescapeString s := s;
  carddav_mboxname userid abook :=
    "user." +:+ default "" userid +:+ ".#addressbooks." +:+ abook;
|}.

Definition has_mailbox (st : list string) (name : string) : bool :=
  existsb (String.eqb name) st.

(** Modelled from the spec: the mailbox store (lookup, create, append) is
    outside this file; here it is the list of the mailboxes that exist, and
    an append fails with "mailbox does not exist" for any other name. *)
#[export] Instance mail_store {hdrcache : Type}
    : MailStore (hdrcache := hdrcache) (list string) := {|
  mboxlist_lookup st name :=
    if has_mailbox st name then 0 else IMAP_MAILBOX_NONEXISTENT;
  mboxlist_createmailbox st name _ :=
    if has_mailbox st name then (st, -1904809460) else (name :: st, 0);
  mboxlist_changesub st _ _ := st;
  annotatemore_write st _ _ _ _ := st;
  deliver_mailbox st d :=
    (st, if has_mailbox st (dl_mailbox d) then 0
         else IMAP_MAILBOX_NONEXISTENT);
  deliver_local st _ _ _ := (st, 0);
  append_message st name _ _ _ :=
    (st, if has_mailbox st name then 0 else IMAP_MAILBOX_NONEXISTENT);
  carddav_emails _ _ := [];
|}.

Definition cfg : config := {|
  config_auditlog := false;
  config_servername := "mail.example.org";
  config_fulldirhash := false;
  sieve_use_lmtp_reject := true;
  anysievefolder := false;
  autocreate_sieve_folders := Some "Junk|Lists";
  sievenotifier := None;
  postmaster := "postmaster";
  srs_domain := None;
  sieve_usehomedir := false;
  sieve_dir := Some "/var/lib/sieve";
  with_dav := false;
|}.

(** An environment in which everything works, at time [now]. *)
Definition oracle_at (now : Z) : oracle := {|
  o_now := now;
  o_pid := 4242;
  o_session_id := "session-1";
  o_smtp_open := 0;
  o_smtp_send := 0;
  o_newstage := Some "stage-1";
  o_carddav_open := false;
  o_getpwnam _ := None;
  o_stat _ := true;
  o_getdefaultbcfname _ := None;
  o_srs_engine := None;
|}.

(** The same with the transport down. *)
Definition oracle_smtp_down (now : Z) : oracle := {|
  o_now := now;
  o_pid := 4242;
  o_session_id := "session-1";
  o_smtp_open := 75;
  o_smtp_send := 0;
  o_newstage := Some "stage-1";
  o_carddav_open := false;
  o_getpwnam _ := None;
  o_stat _ := true;
  o_getdefaultbcfname _ := None;
  o_srs_engine := None;
|}.

Definition hdrs : list (string * string) :=
  [("From", "alice@example.com"); ("Subject", "hello")].

Definition msg : message_data_t (hdrcache := list (string * string)) := {|
  m_id := Some "<m1@example.com>";
  m_return_path := Some "alice@example.com";
  m_date := "Fri, 30 Oct 2026 10:00:00 +0000";
  m_hdrcache := hdrs;
  m_f := "From: alice@example.com" +:+ CRLF +:+ "Subject: hello" +:+ CRLF
         +:+ CRLF +:+ "body" +:+ CRLF;
  m_body_offset := 41;      (* the empty line that ends the header *)
  m_size := 51;
  m_rcpt_status := ∅;
|}.

Definition dd : deliver_data_t := {|
  dd_m := msg;
  dd_cur_rcpt := 0;
  dd_stage := "stage-0";
  dd_body_parsed := false;
  dd_authuser := None;
  dd_notifyheader := None;
  dd_ignorequota := false;
|}.

Definition bob : mbname_t := {|
  mbname_userid := Some "bob";
  mbname_localpart := Some "bob";
  mbname_domain := None;
|}.

Definition sd : script_data_t :=
  {| sd_mbname := bob; sd_edited_header := false |}.

Definition ctx : sieve_interp_ctx := {| ctx_userid := Some "bob" |}.

Definition w0 : world (hdrcache := list (string * string)) := {|
  w_dup := ∅;
  w_store := ["user.bob"];
  w_trace := [];
  w_outgoing_count := 0;
|}.

Definition redirect_to_carol : sieve_redirect_context_t := {|
  rc_addr := "carol@example.net";
  rc_is_ext_list := false;
  rc_dsn_notify := "";
  rc_dsn_ret := "";
  rc_deliverby := "";
|}.

Definition dup : sieve_duplicate_context_t :=
  {| dtc_id := "order-42"; dtc_seconds := 3600 |}.

Definition holiday : sieve_autorespond_context_t :=
  {| arc_hash := chars "0123456789abcdef"; arc_seconds := 86400 |}.

Definition reply : sieve_send_response_context_t := {|
  src_addr := "alice@example.com";
  src_fromaddr := "bob@example.org";
  src_subj := "Away";
  src_msg := "I am away.";
  src_mime := false;
  src_fcc := None;
|}.

Definition go_away : sieve_reject_context_t :=
  {| rj_msg := "go away" +:+ CRLF +:+ "please"; rj_is_extended := false |}.

(** A reason with the two bytes of U+00E9 in it. *)
Definition fache : sieve_reject_context_t :=
  {| rj_msg := "f" +:+ String (ascii_of_nat 195) (String (ascii_of_nat 169) "")
               +:+ "ch";
     rj_is_extended := false |}.

Definition into_junk : sieve_fileinto_context_t := {|
  fc_mailbox := "Junk";
  fc_specialuse := None;
  fc_imapflags := [];
  fc_do_create := false;
|}.


(** The key that the specification gives for the redirect of [msg] to
    [redirect_to_carol]. *)
Definition claimed_redirect_key : duplicate_key_t :=
  {| dk_id := "<m1@example.com>"; dk_to := "carol@example.net";
     dk_date := "" |}.

(** The state after [msg] has been redirected to [redirect_to_carol] at
    time 100. *)
Definition w1 : world (hdrcache := list (string * string)) :=
  match sieve_redirect cfg (oracle_at 100) redirect_to_carol ctx sd dd w0 with
  | Some (_, w) => w
  | None => w0
  end.

(** [sd] after a header edit. *)
Definition sd_edited : script_data_t :=
  {| sd_mbname := bob; sd_edited_header := true |}.

Definition into_other : sieve_fileinto_context_t := {|
  fc_mailbox := "Other";
  fc_specialuse := None;
  fc_imapflags := [];
  fc_do_create := false;
|}.

(** An encoder that leaves the value as it is. *)
Definition plain_encoder (s : string) : string := s.

Definition fox : string :=
  "the quick brown fox jumps over the lazy dog and keeps running".

Definition woods : string := "throughthewoods until nightfall".

(** A value of 100 printable characters without HTAB and double SP. *)
Definition hundred : string :=
  "Lorem ipsum dolor sit amet consectetur adipiscing elit sed do eiusmod tempor incididunt ut labore et".

End Sample.

(** ** Unfolding a header value *)

(** The unfolding of RFC 5322, 2.2.3: a CRLF that is followed by a blank is
    taken out. *)
Fixpoint unfolded (s : list ascii) : list ascii :=
  match s with
  | [] => []
  | c1 :: tl =>
      match tl with
      | c2 :: (c3 :: _) as tl2 =>
          if Ascii.eqb c1 CR && Ascii.eqb c2 LF && isblank c3
          then unfolded tl2
          else c1 :: unfolded tl
      | _ => c1 :: unfolded tl
      end
  end.

Definition has_cr (s : list ascii) : bool :=
  existsb (fun c => Ascii.eqb c CR) s.

(** ** The layout of the sieve directory *)

Section Layout.

Context `{Constants} `{Library}.
Variable cfg : config.

(** Where the bytecode of a script is kept below [sieve_dir]: the scripts
    of a domain are below [FNAME_DOMAINDIR], its hash letter and its name;
    the scripts of a user are below the hash letter of the user and the
    name of the user, the global ones below [global]; a script is
    [<name>.bc], and the script that a delivery runs is [defaultbc]. *)
Definition domain_dir (domain : option string) : string :=
  match domain with
  | Some d =>
      FNAME_DOMAINDIR +:+ String (dir_hash_c d (config_fulldirhash cfg)) ""
        +:+ "/" +:+ d
  | None => ""
  end.

Definition user_dir (user : option string) : string :=
  match user with
  | Some u =>
      "/" +:+ String (dir_hash_c u (config_fulldirhash cfg)) "" +:+ "/" +:+ u
        +:+ "/"
  | None => "/global/"
  end.

Definition script_file (script : option string) : string :=
  match script with
  | Some name => name +:+ ".bc"
  | None => "defaultbc"
  end.

Definition script_path (dir : string) (domain user script : option string)
    : string :=
  dir +:+ domain_dir domain +:+ user_dir user +:+ script_file script.

End Layout.


Section LookupEvents.

Context {hdrcache : Type}.

(** What a lookup below [sieve_dir] that leaves [p] in [fname] asks of the
    bytecode files: a named script is handed to [sieve_rebuild]; for the
    default script the file that [sieve_getdefaultbcfname] finds is. *)
Definition lookup_events (o : oracle) (user script : option string)
    (p : string) : list (event (hdrcache := hdrcache)) :=
  match script, user with
  | None, Some _ =>
      GetDefaultBc p ::
      match o_getdefaultbcfname o p with
      | Some bc_fname => [SieveRebuild bc_fname]
      | None => []
      end
  | _, _ => [SieveRebuild p]
  end.

End LookupEvents.

(** ** The lines of a message *)

(** A complete line of a message header: it ends with its LF, has no other
    LF, and is not the empty line [CRLF] that ends the header. *)
Definition header_line (l : string) : bool :=
  match rev (chars l) with
  | c :: t => Ascii.eqb c LF && negb (existsb (fun x => Ascii.eqb x LF) t)
  | [] => false
  end && negb (is_Some_b (strip_prefix CRLF l)).

(** The text made of the lines [ls]. *)
Definition concat_lines (ls : list string) : string :=
  foldr String.append "" ls.

(** A Return-Path field, by its name. *)
Definition is_return_path (l : string) : bool :=
  has_prefix_nocase l "Return-Path:".

(** ** Frames: what a handler leaves alone *)

Section Frames.

Context {hdrcache store : Type}.

Definition is_stage (e : event (hdrcache := hdrcache)) : bool :=
  match e with NewStage _ | RemoveStage _ => true | _ => false end.

(** The staging directories made and removed, in order. *)
Definition stage_events (t : list (event (hdrcache := hdrcache)))
    : list event :=
  filter (fun e => is_stage e = true) t.

(** The stage events of a handler that delivers a message whose header may
    have been edited: none without an edit; with an edit, the attempt to
    make a stage and, if it was made, its removal. *)
Definition staged_once (o : oracle) (edited : bool)
    : list (event (hdrcache := hdrcache)) :=
  if edited then
    match o_newstage o with
    | Some stage => [NewStage (Some stage); RemoveStage stage]
    | None => [NewStage None]
    end
  else [].

Definition not_stage (e : event (hdrcache := hdrcache)) : bool :=
  negb (is_stage e).

(** Every run of [m] that returns has only added to the trace, and only
    events that [P] accepts. *)
Definition emits_only {A} (P : event (hdrcache := hdrcache) -> bool)
    (m : M (hdrcache := hdrcache) (store := store) A) : Prop :=
  forall w a w', m w = Some (a, w') ->
    exists t, w_trace w' = w_trace w ++ t /\ forallb P t = true.

(** Every run of [m] that returns leaves the part [f] of the state as it
    was. *)
Definition preserves {A X} (f : world (hdrcache := hdrcache) (store := store) -> X)
    (m : M (hdrcache := hdrcache) (store := store) A) : Prop :=
  forall w a w', m w = Some (a, w') -> f w' = f w.

Definition not_send (e : event (hdrcache := hdrcache)) : bool :=
  negb (is_send e).

(** Two frames of the runtime: the mailbox store, and the mail handed to
    the transport. *)
Definition keeps_store {A}
    (m : M (hdrcache := hdrcache) (store := store) A) : Prop :=
  preserves w_store m.

Definition sends_nothing {A}
    (m : M (hdrcache := hdrcache) (store := store) A) : Prop :=
  emits_only not_send m.

Definition is_annotation (e : event (hdrcache := hdrcache)) : bool :=
  match e with WriteAnnotation _ _ _ => true | _ => false end.

(** The annotations written, in order. *)
Definition annotations (t : list (event (hdrcache := hdrcache)))
    : list event :=
  filter (fun e => is_annotation e = true) t.

(** The mailbox [name] was created. *)
Definition is_created (name : string) (e : event (hdrcache := hdrcache))
    : bool :=
  match e with
  | CreateMailbox n r => String.eqb n name && (r =? 0)
  | _ => false
  end.

End Frames.

Section Annotation.

Context `{Library}.
Context {hdrcache : Type}.

(** The annotation that [fileinto] writes on a folder it has created. *)
Definition specialuse_annotation (fc : sieve_fileinto_context_t)
    (userid : option string) (intname : string)
    : list (event (hdrcache := hdrcache)) :=
  match fc_specialuse fc with
  | Some specialuse =>
      match specialuse_validate userid specialuse with
      | Some value => [WriteAnnotation intname "/specialuse" value]
      | None => []
      end
  | None => []
  end.

End Annotation.

(** ** The tests that a script makes *)

(** [strchr(s, c)]: the tail of [s] from the first [c] on. *)
Fixpoint strchr (s : string) (c : ascii) : option string :=
  match s with
  | EmptyString => None
  | String x s' => if Ascii.eqb x c then Some s else strchr s' c
  end.

(** [strcspn(s, reject)] *)
Fixpoint strcspn (s reject : string) : nat :=
  match s with
  | EmptyString => 0%nat
  | String x s' =>
      if existsb (Ascii.eqb x) (chars reject) then 0%nat
      else S (strcspn s' reject)
  end.

(** [xstrndup(s, n)] *)
Definition xstrndup (s : string) (n : nat) : string := str (take n (chars s)).

(** What [get_clienthost] tells of the peer: the text for the remote host,
    and the remote address when there is one. *)
Record clienthost := {
  remotehost : string;
  remoteip : option string;
}.

Section ScriptTests.

Context `{Constants} `{Library}.
Context {hdrcache : Type} `{HeaderCache hdrcache}.
Context {store : Type} `{MailStore (hdrcache := hdrcache) store}.
Variable cfg : config.

(** [getenvironment]: the code and [*res]. *)
Definition getenvironment (peer : clienthost) (keyname : string)
    : Z * option string :=
  let res :=
    match keyname with
    | String c _ =>
        if Ascii.eqb c "d" then
          if String.eqb keyname "domain" then
            Some match strchr (config_servername cfg) "."%char with
                 | Some (String _ domain) => domain
                 | _ => ""
                 end
          else None
        else if Ascii.eqb c "h" then
          if String.eqb keyname "host" then Some (config_servername cfg)
          else None
        else if Ascii.eqb c "l" then
          if String.eqb keyname "location" then Some "MDA" else None
        else if Ascii.eqb c "n" then
          if String.eqb keyname "name" then Some "Cyrus LMTP" else None
        else if Ascii.eqb c "p" then
          if String.eqb keyname "phase" then Some "during" else None
        else if Ascii.eqb c "r" then
          match strip_prefix "remote-" keyname with
          | Some item =>
              if String.eqb item "host" then
                Some (xstrndup (remotehost peer)
                        (strcspn (remotehost peer) " ["))
              else
                match remoteip peer with
                | Some ip =>
                    if String.eqb item "ip"
                    then Some (xstrndup ip (strcspn ip ";"))
                    else None
                | None => None
                end
          | None => None
          end
        else if Ascii.eqb c "v" then
          if String.eqb keyname "version" then Some CYRUS_VERSION else None
        else None
    | EmptyString => None
    end in
  (if is_Some_b res then SIEVE_OK else SIEVE_FAIL, res).

(** [msg_getrcptall] of imap/lmtpengine.c, which is outside this file. *)
Variable msg_getrcptall :
  message_data_t (hdrcache := hdrcache) -> Z -> option string.

(** The NULL-terminated array [mydata->temp] after [temp[0] = p]. *)
Definition temp_of (p : option string) : list string :=
  match p with Some s => [s] | None => [] end.

(** [getenvelope]: the code and [*contents]. *)
Definition getenvelope (mydata : deliver_data_t (hdrcache := hdrcache))
    (field : string)
    : Z * option (list string) :=
  let m := dd_m mydata in
  if strcaseeq field "from" then (SIEVE_OK, Some (temp_of (m_return_path m)))
  else if strcaseeq field "to" then
    (SIEVE_OK, Some (temp_of (msg_getrcptall m (dd_cur_rcpt mydata))))
  else if strcaseeq field "auth" && is_Some_b (dd_authuser mydata) then
    (SIEVE_OK, Some (temp_of (dd_authuser mydata)))
  else (SIEVE_FAIL, None).

(** [listvalidator] *)
Definition listvalidator (st : store) (ctx : sieve_interp_ctx)
    (list : string) : Z :=
  if is_Some_b (get_addrbook_mboxname st list (ctx_userid ctx))
  then SIEVE_OK else SIEVE_FAIL.

(** [carddav_getemail2uids] of imap/carddav_db.c, which is outside this
    file: the cards of an address book that have the address. *)
Variable carddav_getemail2uids : store -> string -> string -> list string.

(** [strarray_add] of lib/strarray.c, which is outside this file: the array
    after the call. *)
Variable strarray_add : list string -> string -> list string.

(** [listcompare]: the number of matches and [match_vars] after the call
    ([None] when the caller passes NULL). *)
Definition listcompare (o : oracle) (st : store) (ctx : sieve_interp_ctx)
    (text listname : string) (match_vars : option (list string))
    : Z * option (list string) :=
  match get_addrbook_mboxname st listname (ctx_userid ctx) with
  | None => (0, match_vars)
  | Some abook =>
      let ret := if o_carddav_open o
                 then Z.of_nat (length (carddav_getemail2uids st text abook))
                 else 0 in
      (ret,
       if negb (ret =? 0)
       then (fun mv => strarray_add mv text) <$> match_vars
       else match_vars)
  end.

End ScriptTests.

(** ** More of the small installation *)

Module MoreSamples.
Import ListCache Sample.

(** The installation of [Sample] with the scripts in the home directories. *)
Definition cfg_homedir : config := {|
  config_auditlog := false;
  config_servername := "mail.example.org";
  config_fulldirhash := false;
  sieve_use_lmtp_reject := true;
  anysievefolder := false;
  autocreate_sieve_folders := Some "Junk|Lists";
  sievenotifier := None;
  postmaster := "postmaster";
  srs_domain := None;
  sieve_usehomedir := true;
  sieve_dir := Some "/var/lib/sieve";
  with_dav := false;
|}.

(** An environment in which no file exists. *)
Definition oracle_nofile : oracle := {|
  o_now := 100;
  o_pid := 4242;
  o_session_id := "session-1";
  o_smtp_open := 0;
  o_smtp_send := 0;
  o_newstage := Some "stage-1";
  o_carddav_open := false;
  o_getpwnam _ := None;
  o_stat _ := false;
  o_getdefaultbcfname _ := None;
  o_srs_engine := None;
|}.

(** A user of a virtual domain. *)
Definition dora : mbname_t := {|
  mbname_userid := Some "dora@example.org";
  mbname_localpart := Some "dora";
  mbname_domain := Some "example.org";
|}.

Definition sd_dora : script_data_t :=
  {| sd_mbname := dora; sd_edited_header := false |}.

(** [msg] as it comes without a Message-ID. *)
Definition dd_noid : deliver_data_t (hdrcache := list (string * string)) := {|
  dd_m := {| m_id := None; m_return_path := m_return_path msg;
             m_date := m_date msg; m_hdrcache := m_hdrcache msg;
             m_f := m_f msg; m_body_offset := m_body_offset msg;
             m_size := m_size msg; m_rcpt_status := m_rcpt_status msg |};
  dd_cur_rcpt := 0;
  dd_stage := "stage-0";
  dd_body_parsed := false;
  dd_authuser := None;
  dd_notifyheader := None;
  dd_ignorequota := false;
|}.

(** The header lines and the body of a message that was relayed. *)
Definition relayed_header : list string :=
  ["Return-Path: <alice@example.com>" +:+ CRLF;
   "Subject: hello" +:+ CRLF].

Definition relayed_body : string := "Return-Path: is a header field" +:+ CRLF.

(** An environment in which [getpwnam] knows bob. *)
Definition oracle_home : oracle := {|
  o_now := 100;
  o_pid := 4242;
  o_session_id := "session-1";
  o_smtp_open := 0;
  o_smtp_send := 0;
  o_newstage := Some "stage-1";
  o_carddav_open := false;
  o_getpwnam u := if String.eqb u "bob" then Some "/home/bob" else None;
  o_stat _ := true;
  o_getdefaultbcfname _ := None;
  o_srs_engine := None;
|}.

(** An environment with an SRS engine that fails with status 1, and one
    with an engine that rewrites every return path to one address. *)
Definition oracle_srs (engine : option string -> option string
                                -> Z * option string) : oracle := {|
  o_now := 100;
  o_pid := 4242;
  o_session_id := "session-1";
  o_smtp_open := 0;
  o_smtp_send := 0;
  o_newstage := Some "stage-1";
  o_carddav_open := true;
  o_getpwnam _ := None;
  o_stat _ := true;
  o_getdefaultbcfname _ := None;
  o_srs_engine := Some engine;
|}.

Definition srs_fails (_ _ : option string) : Z * option string := (1, None).

Definition srs_rewrites (_ _ : option string) : Z * option string :=
  (0, Some "SRS0=x@example.org").

(** The installation of [Sample] built with DAV. *)
Definition cfg_dav : config := {|
  config_auditlog := false;
  config_servername := "mail.example.org";
  config_fulldirhash := false;
  sieve_use_lmtp_reject := true;
  anysievefolder := false;
  autocreate_sieve_folders := Some "Junk|Lists";
  sievenotifier := None;
  postmaster := "postmaster";
  srs_domain := None;
  sieve_usehomedir := false;
  sieve_dir := Some "/var/lib/sieve";
  with_dav := true;
|}.

(** A redirect to the default address book of bob, and a state in which
    bob has that address book and a folder for sent mail. *)
Definition redirect_to_friends : sieve_redirect_context_t := {|
  rc_addr := ":addrbook:default";
  rc_is_ext_list := true;
  rc_dsn_notify := "";
  rc_dsn_ret := "";
  rc_deliverby := "";
|}.

Definition w_bob : world (hdrcache := list (string * string)) := {|
  w_dup := ∅;
  w_store := ["user.bob"; "user.bob.Sent"; "user.bob.#addressbooks.Default"];
  w_trace := [];
  w_outgoing_count := 0;
|}.

Definition into_sent : sieve_fileinto_context_t := {|
  fc_mailbox := "Sent";
  fc_specialuse := None;
  fc_imapflags := [];
  fc_do_create := false;
|}.

(** [reply] with a copy filed in [Sent]. *)
Definition reply_fcc : sieve_send_response_context_t := {|
  src_addr := "alice@example.com";
  src_fromaddr := "bob@example.org";
  src_subj := "Away";
  src_msg := "I am away.";
  src_mime := false;
  src_fcc := Some into_sent;
|}.

(** A shared mailbox: its script has an owner without userid. *)
Definition shared : mbname_t := {|
  mbname_userid := None;
  mbname_localpart := None;
  mbname_domain := None;
|}.

Definition sd_shared : script_data_t :=
  {| sd_mbname := shared; sd_edited_header := false |}.

(** A reject without a reason. *)
Definition no_reason : sieve_reject_context_t :=
  {| rj_msg := ""; rj_is_extended := false |}.

(** What the redirect of [msg] to [redirect_to_carol] hands to the
    transport, for bob and for dora. *)
Definition carol_job : smtp_job := {|
  sm_auth := Some "bob";
  sm_dsn := Some ("", "", "");
  sm_env := {| env_from := "alice@example.com";
               env_rcpts := ["carol@example.net"] |};
  sm_msg := m_f msg;
|}.

Definition ctx_dora : sieve_interp_ctx :=
  {| ctx_userid := Some "dora@example.org" |}.

Definition carol_job_of_dora : smtp_job := {|
  sm_auth := Some "dora@example.org";
  sm_dsn := Some ("", "", "");
  sm_env := {| env_from := "alice@example.com";
               env_rcpts := ["carol@example.net"] |};
  sm_msg := m_f msg;
|}.

(** The state after [dup] has been tracked for bob at time 100. *)
Definition w_tracked : world (hdrcache := list (string * string)) := {|
  w_dup := {[ ("order-42", ".bob.sieve.", "") := 3700 ]};
  w_store := ["user.bob"];
  w_trace := [];
  w_outgoing_count := 0;
|}.

Definition other_order : sieve_duplicate_context_t :=
  {| dtc_id := "order-43"; dtc_seconds := 3600 |}.

End MoreSamples.

(** ** An installation with an address book *)

Module DavSample.
Import ListCache Sample MoreSamples.

(** A store with an address book: the mailboxes that exist, and the e-mail
    lists of the cards of each address book. *)
Record dav_store := {
  dav_mailboxes : list string;
  dav_cards : list (string * list (option (list string)));
}.

(** Modelled from the spec: the mailbox store with the address book as the
    member addresses it enumerates; the mailbox part is that of
    [mail_store]. *)
#[export] Instance dav_mail_store {hdrcache : Type}
    : MailStore (hdrcache := hdrcache) dav_store := {|
  mboxlist_lookup st name :=
    if has_mailbox (dav_mailboxes st) name then 0
    else IMAP_MAILBOX_NONEXISTENT;
  mboxlist_createmailbox st name _ :=
    if has_mailbox (dav_mailboxes st) name then (st, -1904809460)
    else ({| dav_mailboxes := name :: dav_mailboxes st;
             dav_cards := dav_cards st |}, 0);
  mboxlist_changesub st _ _ := st;
  annotatemore_write st _ _ _ _ := st;
  deliver_mailbox st d :=
    (st, if has_mailbox (dav_mailboxes st) (dl_mailbox d) then 0
         else IMAP_MAILBOX_NONEXISTENT);
  deliver_local st _ _ _ := (st, 0);
  append_message st name _ _ _ :=
    (st, if has_mailbox (dav_mailboxes st) name then 0
         else IMAP_MAILBOX_NONEXISTENT);
  carddav_emails st abook :=
    default [] (snd <$> find (fun ac => String.eqb (fst ac) abook)
                          (dav_cards st));
|}.

(** Bob's default address book: a card with two addresses, a card without
    any, and a card with one. *)
Definition w_friends : world (hdrcache := list (string * string)) := {|
  w_dup := ∅;
  w_store :=
    {| dav_mailboxes := ["user.bob"; "user.bob.#addressbooks.Default"];
       dav_cards :=
         [("user.bob.#addressbooks.Default",
           [Some ["carol@example.net"; "carol@work.example"]; None;
            Some ["dave@example.net"]])] |};
  w_trace := [];
  w_outgoing_count := 0;
|}.
End DavSample.

(** * Properties *)

(** ** C strings *)

Lemma chars_app a b : chars (a +:+ b) = chars a ++ chars b.
Proof.
  unfold chars. induction a as [|c a IH]; simpl; [reflexivity|].
  rewrite IH. reflexivity.
Qed.

Lemma str_app a b : str (a ++ b) = str a +:+ str b.
Proof.
  unfold str. induction a as [|c a IH]; simpl; [reflexivity|].
  rewrite IH. reflexivity.
Qed.

Lemma str_chars s : str (chars s) = s.
Proof. apply String.string_of_list_ascii_of_string. Qed.

Lemma chars_str l : chars (str l) = l.
Proof. apply String.list_ascii_of_string_of_list_ascii. Qed.

Lemma length_chars s : length (chars s) = String.length s.
Proof.
  unfold chars. induction s as [|c s IH]; simpl; [reflexivity|].
  rewrite IH. reflexivity.
Qed.

Lemma string_app_assoc a b c : (a +:+ b) +:+ c = a +:+ b +:+ c.
Proof.
  induction a as [|x a IH]; [reflexivity|].
  change (String x ((a +:+ b) +:+ c) = String x (a +:+ b +:+ c)).
  f_equal. exact IH.
Qed.

(** *** Facts about the scan *)

Module FoldFacts.
Import Fold.

Local Arguments Ascii.eqb : simpl never.

Lemma eqb_SP_HTAB c : Ascii.eqb c SP = true -> Ascii.eqb c HTAB = false.
Proof.
  intros H. apply Ascii.eqb_eq in H. subst c. reflexivity.
Qed.

Lemma isblank_false c :
  isblank c = false -> Ascii.eqb c SP = false /\ Ascii.eqb c HTAB = false.
Proof.
  unfold isblank. intros H. apply orb_false_iff in H. exact H.
Qed.

Lemma skip_fws_le tl : (skip_fws tl <= length tl)%nat.
Proof.
  induction tl as [|c tl IH]; simpl; [lia|].
  destruct (isblank c); lia.
Qed.

Lemma scan_ge s : forall total m off ls lo,
  (lo <= off)%nat -> (forall l, ls = Some l -> (lo <= l)%nat) ->
  (lo <= scan total m off ls s)%nat.
Proof.
  induction s as [|c s IH]; intros total m off ls lo Hoff Hls; simpl.
  - destruct ls as [l|]; [apply Hls; reflexivity | exact Hoff].
  - destruct (Ascii.eqb c HTAB); [exact Hoff|].
    destruct (Ascii.eqb c SP).
    + destruct (next_is_sp s); [exact Hoff|].
      destruct (total <=? m).
      * apply IH; [lia | exact Hls].
      * destruct ls as [l|].
        -- destruct (Z.of_nat off <=? m); apply IH; try lia.
           ++ intros l' [= <-]. exact Hoff.
           ++ exact Hls.
        -- apply IH; [lia|]. intros l' [= <-]. exact Hoff.
    + apply IH; [lia | exact Hls].
Qed.

Lemma scan_le s : forall total m off ls,
  (forall l, ls = Some l -> (l <= off)%nat) ->
  (scan total m off ls s <= off + length s)%nat.
Proof.
  induction s as [|c s IH]; intros total m off ls Hls; simpl.
  - destruct ls as [l|]; [specialize (Hls l eq_refl); lia | lia].
  - destruct (Ascii.eqb c HTAB); [lia|].
    assert (Hstep : forall ls', (forall l, ls' = Some l -> (l <= S off)%nat) ->
              (scan total m (S off) ls' s <= off + S (length s))%nat).
    { intros ls' H'. specialize (IH total m (S off) ls' H'). lia. }
    assert (Hkeep : forall l, ls = Some l -> (l <= S off)%nat).
    { intros l Hl. specialize (Hls l Hl). lia. }
    assert (Hnew : forall l, Some off = Some l -> (l <= S off)%nat).
    { intros l [= <-]. lia. }
    destruct (Ascii.eqb c SP).
    + destruct (next_is_sp s); [lia|].
      destruct (total <=? m); [apply Hstep, Hkeep|].
      destruct ls as [l|].
      * destruct (Z.of_nat off <=? m); apply Hstep; [exact Hnew | exact Hkeep].
      * apply Hstep, Hnew.
    + apply Hstep, Hkeep.
Qed.

(** Each chunk is at least one byte long and stays inside the buffer: the
    loop of [dump_header] makes progress. *)
Lemma chunk_end_bounds m c tl :
  (1 <= chunk_end m (c :: tl) <= length (c :: tl))%nat.
Proof.
  unfold chunk_end, lead_blanks. destruct (isblank c) eqn:Hb.
  - pose proof (skip_fws_le tl) as Hle. split.
    + apply scan_ge; [lia | discriminate].
    + etransitivity; [apply scan_le; discriminate|].
      rewrite length_drop. simpl. lia.
  - apply isblank_false in Hb as [Hsp Htab]. rewrite drop_0. simpl.
    rewrite Htab, Hsp. split.
    + apply scan_ge; [lia | discriminate].
    + etransitivity; [apply scan_le; discriminate|]. lia.
Qed.

Lemma fold_loop_fuel n : forall fuel1 fuel2 m s,
  (length s <= n)%nat -> (length s <= fuel1)%nat -> (length s <= fuel2)%nat ->
  fold_loop fuel1 m s = fold_loop fuel2 m s.
Proof.
  induction n as [|n IH]; intros fuel1 fuel2 m s Hn H1 H2.
  - destruct s; [destruct fuel1, fuel2; reflexivity | simpl in Hn; lia].
  - destruct s as [|c tl]; [destruct fuel1, fuel2; reflexivity|].
    destruct fuel1 as [|fuel1]; [simpl in H1; lia|].
    destruct fuel2 as [|fuel2]; [simpl in H2; lia|].
    pose proof (chunk_end_bounds m c tl) as Hp.
    cbn [fold_loop].
    rewrite (IH fuel1 fuel2); [reflexivity| | |];
      rewrite length_drop; simpl in *; lia.
Qed.

Lemma fold_loop_total fuel : forall m s,
  (length s <= fuel)%nat -> is_Some (fold_loop fuel m s).
Proof.
  induction fuel as [|fuel IH]; intros m s Hlen.
  - destruct s; [eexists; reflexivity | simpl in Hlen; lia].
  - destruct s as [|c tl]; [eexists; reflexivity|].
    pose proof (chunk_end_bounds m c tl) as Hp.
    cbn [fold_loop].
    destruct (IH 78 (drop (chunk_end m (c :: tl)) (c :: tl))) as [out Hout].
    { rewrite length_drop. simpl in *. lia. }
    rewrite Hout. eexists; reflexivity.
Qed.

(** The loop terminates on every value. *)
Lemma fold_value_total m s : is_Some (fold_value m s).
Proof. apply fold_loop_total. reflexivity. Qed.

(** The loop equation of [dump_header]: one chunk, then the rest with
    [maxlen = 78]. *)
Lemma fold_value_cons m c tl :
  fold_value m (c :: tl) =
  match fold_value 78 (drop (chunk_end m (c :: tl)) (c :: tl)) with
  | Some out =>
      Some ((if isblank c then chars CRLF else []) ++
            take (chunk_end m (c :: tl)) (c :: tl) ++ out)
  | None => None
  end.
Proof.
  unfold fold_value at 1. cbn [length fold_loop].
  pose proof (chunk_end_bounds m c tl) as Hp.
  unfold fold_value.
  rewrite (fold_loop_fuel (length tl) (length tl)
             (length (drop (chunk_end m (c :: tl)) (c :: tl))));
    [reflexivity| | |]; rewrite ?length_drop; simpl in *; lia.
Qed.

(** A value without SP and HTAB is one chunk. *)
Lemma scan_plain s : forall total m off,
  has_sp s = false -> has_tab s = false ->
  scan total m off None s = (off + length s)%nat.
Proof.
  induction s as [|c s IH]; intros total m off Hsp Htab; simpl in *.
  - lia.
  - apply orb_false_iff in Hsp as [Hc Hsp].
    apply orb_false_iff in Htab as [Hc' Htab].
    rewrite Hc, Hc'. rewrite IH by assumption. lia.
Qed.

(** The scan stops at the first HTAB or double SP, whatever [maxlen] is and
    whatever single SP it has passed. *)
Lemma scan_fold_point s : forall total m off ls k,
  first_fold_point s = Some k ->
  scan total m off ls s = (off + k)%nat.
Proof.
  induction s as [|c s IH]; intros total m off ls k Hk; simpl in *.
  - discriminate.
  - destruct (Ascii.eqb c HTAB) eqn:Htab; simpl in Hk.
    { injection Hk as <-. lia. }
    destruct (Ascii.eqb c SP) eqn:Hsp; simpl in Hk.
    + destruct (next_is_sp s) eqn:Hnx.
      { injection Hk as <-. lia. }
      destruct (first_fold_point s) as [k'|] eqn:Hf; [|discriminate].
      injection Hk as <-.
      assert (Hgo : forall ls', scan total m (S off) ls' s = (off + S k')%nat).
      { intros ls'. rewrite (IH total m (S off) ls' k' eq_refl). lia. }
      destruct (total <=? m); [apply Hgo|].
      destruct ls; [destruct (Z.of_nat off <=? m)|]; apply Hgo.
    + destruct (first_fold_point s) as [k'|] eqn:Hf; [|discriminate].
      injection Hk as <-.
      rewrite (IH total m (S off) ls k' eq_refl). lia.
Qed.

(** Past [maxlen], with a SP already recorded, single SP are passed over. *)
Lemma scan_after post : forall total m off l,
  m < total -> has_tab post = false -> has_double_sp post = false ->
  m < Z.of_nat (off + word_len post) ->
  scan total m off (Some l) post = l.
Proof.
  induction post as [|c post IH]; intros total m off l Htot Htab Hdbl Hm;
    simpl in *.
  - reflexivity.
  - apply orb_false_iff in Htab as [Hc Htab].
    apply orb_false_iff in Hdbl as [Hd Hdbl].
    rewrite Hc.
    destruct (Ascii.eqb c SP) eqn:Hsp; simpl in Hd.
    + rewrite Hd.
      destruct (total <=? m) eqn:Hle; [lia|].
      destruct (Z.of_nat off <=? m) eqn:Hoff; [lia|].
      apply IH; try assumption. lia.
    + apply IH; try assumption. lia.
Qed.

(** In a value too long for the line, without HTAB and double SP, the scan
    ends on the last SP at or before [maxlen]. *)
Lemma scan_last_sp pre : forall post total m off ls,
  m < total ->
  has_tab (pre ++ SP :: post) = false ->
  has_double_sp (pre ++ SP :: post) = false ->
  Z.of_nat (off + length pre) <= m ->
  m < Z.of_nat (off + length pre + 1 + word_len post) ->
  scan total m off ls (pre ++ SP :: post) = (off + length pre)%nat.
Proof.
  induction pre as [|c pre IH]; intros post total m off ls Htot Htab Hdbl Hle Hlt;
    simpl in *.
  - apply orb_false_iff in Hdbl as [Hd Hdbl]. rewrite Hd.
    destruct (total <=? m) eqn:Hcmp; [lia|].
    assert (Hgo : scan total m (S off) (Some off) post = (off + 0)%nat).
    { rewrite scan_after; try assumption; lia. }
    destruct ls; [|exact Hgo].
    destruct (Z.of_nat off <=? m) eqn:Hoff; [exact Hgo | lia].
  - apply orb_false_iff in Htab as [Hc Htab].
    apply orb_false_iff in Hdbl as [Hd Hdbl].
    rewrite Hc.
    assert (Hgo : forall ls', scan total m (S off) ls' (pre ++ SP :: post)
                              = (off + S (length pre))%nat).
    { intros ls'. rewrite IH; try assumption; lia. }
    destruct (Ascii.eqb c SP) eqn:Hsp; simpl in Hd; [|apply Hgo].
    rewrite Hd.
    destruct (total <=? m) eqn:Hcmp; [lia|].
    destruct ls; [|apply Hgo].
    destruct (Z.of_nat off <=? m); apply Hgo.
Qed.

Lemma word_len_le s : (word_len s <= length s)%nat.
Proof.
  induction s as [|c s IH]; simpl; [lia|]. destruct (Ascii.eqb c SP); lia.
Qed.

End FoldFacts.

(** *** Chunks of a header value *)

Module FoldChunks.
Import Fold FoldFacts.

Local Arguments Ascii.eqb : simpl never.

Lemma chunk_end_plain m s :
  has_sp s = false -> has_tab s = false -> chunk_end m s = length s.
Proof.
  intros Hsp Htab. unfold chunk_end, lead_blanks.
  destruct s as [|c tl]; [reflexivity|].
  assert (Hb : isblank c = false).
  { simpl in Hsp, Htab. apply orb_false_iff in Hsp as [Hsp _].
    apply orb_false_iff in Htab as [Htab _]. unfold isblank.
    rewrite Hsp, Htab. reflexivity. }
  rewrite Hb, drop_0. rewrite scan_plain by assumption. reflexivity.
Qed.

Lemma chunk_end_fold_point m s k :
  starts_blank s = false -> first_fold_point s = Some k ->
  chunk_end m s = k.
Proof.
  intros Hb Hk. unfold chunk_end, lead_blanks.
  destruct s as [|c tl]; [discriminate|].
  simpl in Hb. rewrite Hb, drop_0.
  rewrite (scan_fold_point _ _ _ _ _ k Hk). reflexivity.
Qed.

Lemma chunk_end_last_sp m pre post :
  pre <> [] ->
  has_tab (pre ++ SP :: post) = false ->
  has_double_sp (pre ++ SP :: post) = false ->
  Z.of_nat (length pre) <= m ->
  m < Z.of_nat (length pre + 1 + word_len post) ->
  chunk_end m (pre ++ SP :: post) = length pre.
Proof.
  intros Hne Htab Hdbl Hle Hlt.
  pose proof (word_len_le post) as Hw.
  destruct pre as [|c pre]; [congruence|]. clear Hne.
  change ((c :: pre) ++ SP :: post) with (c :: (pre ++ SP :: post)) in *.
  unfold chunk_end, lead_blanks.
  destruct (isblank c) eqn:Hb.
  - simpl in Htab, Hdbl.
    apply orb_false_iff in Htab as [Hc Htab].
    apply orb_false_iff in Hdbl as [Hd Hdbl].
    unfold isblank in Hb. rewrite Hc, orb_false_r in Hb. rewrite Hb in Hd.
    simpl in Hd.
    destruct pre as [|c' pre]; [simpl in Hd; discriminate|].
    simpl in Hd, Htab. apply orb_false_iff in Htab as [Hc' Htab].
    assert (Hb' : isblank c' = false).
    { unfold isblank. rewrite Hd, Hc'. reflexivity. }
    change ((c' :: pre) ++ SP :: post) with (c' :: (pre ++ SP :: post)).
    cbn [skip_fws]. rewrite Hb'. cbn [drop].
    change (drop 1 (c :: c' :: pre ++ SP :: post))
      with ((c' :: pre) ++ SP :: post).
    apply (scan_last_sp (c' :: pre) post _ m 1%nat None).
    + simpl. rewrite length_app. simpl in *. lia.
    + simpl. rewrite Hc'. exact Htab.
    + exact Hdbl.
    + simpl in *. lia.
    + simpl in *. lia.
  - change (drop 0 (c :: pre ++ SP :: post)) with ((c :: pre) ++ SP :: post).
    apply (scan_last_sp (c :: pre) post _ m 0%nat None); try assumption.
    simpl. rewrite length_app. simpl in *. lia.
Qed.

(** A chunk that starts on a blank is written after a fold. *)
Lemma fold_value_blank m c tl :
  isblank c = true ->
  exists out, fold_value m (c :: tl) = Some (chars CRLF ++ c :: out).
Proof.
  intros Hb. rewrite fold_value_cons, Hb.
  destruct (fold_value_total 78 (drop (chunk_end m (c :: tl)) (c :: tl)))
    as [rest Hrest].
  rewrite Hrest.
  pose proof (chunk_end_bounds m c tl) as [Hp _].
  destruct (chunk_end m (c :: tl)) as [|p]; [lia|].
  exists (take p tl ++ rest). reflexivity.
Qed.

End FoldChunks.

(** ** Folding of header lines *)

Lemma first_maxlen_small name :
  strlen name + 2 <= 78 -> Fold.first_maxlen name = 78 - (strlen name + 2).
Proof.
  intros H. unfold Fold.first_maxlen. apply Z.mod_small.
  unfold strlen in *. lia.
Qed.

Lemma strlen_chars s : Z.of_nat (length (chars s)) = strlen s.
Proof. unfold strlen. rewrite length_chars. reflexivity. Qed.

(** C9.  [dump_header] folds a value that is too long for the line and has
    neither HTAB nor double SP at its last single SP at or before column 78
    (part 1: the value is [pre], that SP, then [post] whose first word would
    cross column 78); a HTAB or a double SP is the fold point whatever single
    SP come before it and whatever the line length (part 2: [k] is the offset
    of the first HTAB or double SP); a value without any SP or HTAB is
    written on one line however long it is (part 3). *)
Theorem dump_header_folding (enc : string -> string) (name : string) :
  (forall pre post : string,
      enc (pre +:+ " " +:+ post) = pre +:+ " " +:+ post ->
      Fold.has_tab (chars (pre +:+ " " +:+ post)) = false ->
      Fold.has_double_sp (chars (pre +:+ " " +:+ post)) = false ->
      strlen name + 2 + strlen pre <= 78 ->
      78 < strlen name + 2 + strlen pre + 1
             + Z.of_nat (Fold.word_len (chars post)) ->
      exists out : string,
        Fold.dump_header enc name (pre +:+ " " +:+ post) =
          Some (name +:+ ": " +:+
                (if Fold.starts_blank (chars pre) then CRLF else "") +:+
                pre +:+ CRLF +:+ " " +:+ out +:+ CRLF) /\
        (pre <> "" ->
         Fold.fold_value 78 (chars (" " +:+ post)) =
           Some (chars (CRLF +:+ " " +:+ out)))) /\
  (forall (value : string) (k : nat),
      enc value = value ->
      Fold.starts_blank (chars value) = false ->
      Fold.first_fold_point (chars value) = Some k ->
      exists out : string,
        Fold.fold_value 78 (drop k (chars value)) =
          Some (chars (CRLF +:+ out)) /\
        Fold.dump_header enc name value =
          Some (name +:+ ": " +:+ str (take k (chars value)) +:+
                CRLF +:+ out +:+ CRLF)) /\
  (forall value : string,
      enc value = value ->
      Fold.has_sp (chars value) = false ->
      Fold.has_tab (chars value) = false ->
      Fold.dump_header enc name value =
        Some (name +:+ ": " +:+ value +:+ CRLF)).
Proof.
  split; [|split].
  - intros pre post Henc Htab Hdbl Hle Hlt.
    unfold Fold.dump_header. rewrite Henc.
    rewrite first_maxlen_small by (unfold strlen in *; lia).
    rewrite !chars_app in *.
    change (chars " ") with [SP] in *.
    change ([SP] ++ chars post) with (SP :: chars post) in *.
    destruct (chars pre) as [|c tl] eqn:Hpre.
    + (* the SP is the first byte of the value *)
      destruct (FoldChunks.fold_value_blank (78 - (strlen name + 2)) SP
                  (chars post) eq_refl) as [out Hout].
      cbn [app]. rewrite Hout. exists (str out). split.
      * assert (pre = "") as ->.
        { rewrite <- (str_chars pre), Hpre. reflexivity. }
        rewrite str_app. change (SP :: out) with ([SP] ++ out).
        rewrite str_app, str_chars, ?string_app_assoc. reflexivity.
      * intros Hne. exfalso. apply Hne.
        rewrite <- (str_chars pre), Hpre. reflexivity.
    + assert (Hend : Fold.chunk_end (78 - (strlen name + 2))
                       ((c :: tl) ++ SP :: chars post) = length (c :: tl)).
      { apply FoldChunks.chunk_end_last_sp; try assumption.
        - discriminate.
        - rewrite <- Hpre, strlen_chars. lia.
        - rewrite <- Hpre.
          rewrite !Nat2Z.inj_add, strlen_chars. lia. }
      change ((c :: tl) ++ SP :: chars post)
        with (c :: (tl ++ SP :: chars post)) in *.
      rewrite FoldFacts.fold_value_cons, Hend.
      change (c :: tl ++ SP :: chars post)
        with ((c :: tl) ++ SP :: chars post).
      rewrite drop_app_length, take_app_length.
      destruct (FoldChunks.fold_value_blank 78 SP (chars post) eq_refl)
        as [out Hout].
      rewrite Hout. exists (str out). split.
      * cbn [Fold.starts_blank].
        rewrite !str_app. rewrite <- Hpre, str_chars.
        change (SP :: out) with ([SP] ++ out). rewrite str_app.
        destruct (isblank c); cbn [app str String.string_of_list_ascii];
          rewrite ?str_chars, ?string_app_assoc; reflexivity.
      * intros _. rewrite !chars_app, chars_str. reflexivity.
  - intros value k Henc Hb Hk.
    unfold Fold.dump_header. rewrite Henc.
    destruct (chars value) as [|c tl] eqn:Hv; [discriminate|].
    rewrite FoldFacts.fold_value_cons.
    rewrite (FoldChunks.chunk_end_fold_point _ _ k Hb Hk).
    simpl in Hb. rewrite Hb.
    assert (Hrest : exists c' tl', drop k (c :: tl) = c' :: tl'
                                   /\ isblank c' = true).
    { clear Hv Hb. revert k Hk. generalize (c :: tl) as s.
      induction s as [|x s IH]; intros k Hk; [discriminate|].
      cbn [Fold.first_fold_point] in Hk.
      destruct (Ascii.eqb x HTAB || Ascii.eqb x SP && Fold.next_is_sp s)
        eqn:Hx.
      - injection Hk as <-. exists x, s. split; [reflexivity|].
        unfold isblank. destruct (Ascii.eqb x HTAB); [apply orb_true_r|].
        simpl in Hx. apply andb_true_iff in Hx as [-> _]. reflexivity.
      - destruct (Fold.first_fold_point s) as [k'|] eqn:Hs; [|discriminate].
        injection Hk as <-. exact (IH k' eq_refl). }
    destruct Hrest as (c' & tl' & Hdrop & Hb').
    rewrite Hdrop.
    destruct (FoldChunks.fold_value_blank 78 c' tl' Hb') as [out Hout].
    rewrite Hout. exists (str (c' :: out)). split.
    + rewrite chars_app, chars_str. reflexivity.
    + cbn [app]. rewrite !str_app, str_chars, ?string_app_assoc.
      change (c' :: out) with ([c'] ++ out). rewrite str_app. reflexivity.
  - intros value Henc Hsp Htab.
    unfold Fold.dump_header. rewrite Henc.
    destruct (chars value) as [|c tl] eqn:Hv.
    + assert (value = "") as ->.
      { rewrite <- (str_chars value), Hv. reflexivity. }
      reflexivity.
    + rewrite FoldFacts.fold_value_cons.
      rewrite FoldChunks.chunk_end_plain by assumption.
      rewrite drop_all, firstn_all.
      assert (Hb : isblank c = false).
      { simpl in Hsp, Htab. apply orb_false_iff in Hsp as [Hsp _].
        apply orb_false_iff in Htab as [Htab _]. unfold isblank.
        rewrite Hsp, Htab. reflexivity. }
      rewrite Hb. cbn [Fold.fold_value length Fold.fold_loop app].
      rewrite app_nil_r, <- Hv, str_chars. reflexivity.
Qed.

(** ** The handlers *)

Section HandlerFacts.

Context `{Constants} `{Library}.
Context {hdrcache : Type} `{HeaderCache hdrcache}.
Context {store : Type} `{MailStore (hdrcache := hdrcache) store}.
Variable cfg : config.

Implicit Types (w : world (hdrcache := hdrcache) (store := store)).
Implicit Types (o : oracle) (sd : script_data_t).

Lemma add_trace_trace w es : w_trace (add_trace w es) = w_trace w ++ es.
Proof. reflexivity. Qed.

Lemma add_trace_app w es1 es2 :
  add_trace (add_trace w es1) es2 = add_trace w (es1 ++ es2).
Proof. unfold add_trace. simpl. rewrite app_assoc. reflexivity. Qed.

Lemma add_trace_nil w : add_trace w [] = w.
Proof. destruct w. unfold add_trace. simpl. rewrite app_nil_r. reflexivity. Qed.

Lemma sends_app (t1 t2 : list (event (hdrcache := hdrcache))) :
  sends (t1 ++ t2) = sends t1 ++ sends t2.
Proof. apply filter_app. Qed.

Lemma store_calls_app (t1 t2 : list (event (hdrcache := hdrcache))) :
  store_calls (t1 ++ t2) = store_calls t1 ++ store_calls t2.
Proof. apply filter_app. Qed.

(** [bind] on a first step whose run is known. *)
Lemma bind_run {A B} (m : M A) (k : A -> M B) w (a : A) w1 :
  m w = Some (a, w1) -> bind m k w = k a w1.
Proof. intros Hm. unfold bind. rewrite Hm. reflexivity. Qed.

(** *** The staged copy *)

Lemma dump_header_total (name value : string) :
  is_Some (Fold.dump_header charset_encode_mimeheader name value).
Proof.
  unfold Fold.dump_header.
  destruct (FoldFacts.fold_value_total (Fold.first_maxlen name)
              (chars (charset_encode_mimeheader value))) as [out Hout].
  rewrite Hout. eexists; reflexivity.
Qed.

(** Writing the headers of a cache always ends. *)
Lemma dump_headers_total (hc : hdrcache) : is_Some (dump_headers hc).
Proof.
  unfold dump_headers.
  induction (spool_enum_hdrcache hc) as [|[name value] l IH]; simpl.
  - eexists; reflexivity.
  - destruct (dump_header_total name value) as [line Hline].
    destruct IH as [rest Hrest]. rewrite Hline, Hrest. eexists; reflexivity.
Qed.

Lemma setup_special_delivery_run o (mydata : deliver_data_t) w :
  exists hdrs : string,
    dump_headers (m_hdrcache (dd_m mydata)) = Some hdrs /\
    setup_special_delivery o mydata w =
      Some (match o_newstage o with
            | Some stage => Some (staged_copy stage hdrs mydata)
            | None => None
            end,
            add_trace w [NewStage (o_newstage o)]).
Proof.
  destruct (dump_headers_total (m_hdrcache (dd_m mydata))) as [hdrs Hh].
  exists hdrs. split; [exact Hh|].
  unfold setup_special_delivery. unfold_m.
  destruct (o_newstage o); [rewrite Hh|]; reflexivity.
Qed.

(** *** The transport *)

Lemma smtp_submit_run o (job : smtp_job) w :
  smtp_submit o job w =
    if o_smtp_open o =? 0
    then Some (o_smtp_send o, add_trace w [SmtpSend job])
    else Some (o_smtp_open o, w).
Proof.
  unfold smtp_submit. destruct (o_smtp_open o =? 0); reflexivity.
Qed.

Lemma sieve_srs_forward_run o (return_path : option string) w :
  exists (p : option string) (t : list event),
    sieve_srs_forward cfg o return_path w = Some (p, add_trace w t) /\
    sends t = [].
Proof.
  unfold sieve_srs_forward. destruct (o_srs_engine o) as [alloc|].
  - destruct (alloc return_path (srs_domain cfg)) as [status p].
    destruct (status =? 0).
    + exists p, []. rewrite add_trace_nil. split; reflexivity.
    + eexists None, [_]. unfold_m. split; reflexivity.
  - exists None, []. rewrite add_trace_nil. split; reflexivity.
Qed.

(** [send_forward] hands at most one message to the transport, and exactly
    one when it returns 0; it touches neither the ledger nor the store. *)
Lemma send_forward_run o (rc : sieve_redirect_context_t)
    (ctx : sieve_interp_ctx) (return_path : option string) (file : string) w :
  exists (res : Z) (t : list event),
    send_forward cfg o rc ctx return_path file w = Some (res, add_trace w t) /\
    ((res = 0 /\ exists job, sends t = [SmtpSend job]) \/
     (res <> 0 /\ (sends t = [] \/ exists job, sends t = [SmtpSend job]))).
Proof.
  unfold send_forward.
  destruct (sieve_srs_forward_run o return_path w) as (p & t0 & Hsrs & Hs0).
  rewrite (bind_run _ _ _ _ _ Hsrs).
  unfold get_store at 1. unfold bind at 1. cbv beta iota.
  match goal with
  | |- context [if rc_is_ext_list rc then ?a else ?b] =>
      destruct (if rc_is_ext_list rc then a else b) as [rcpts|]
  end; cbv beta iota.
  - rewrite smtp_submit_run. destruct (o_smtp_open o =? 0) eqn:Hopen.
    + eexists _, _. rewrite add_trace_app. split; [reflexivity|].
      rewrite sends_app, Hs0. simpl.
      destruct (Z.eq_dec (o_smtp_send o) 0) as [Hz|Hz].
      * left. split; [exact Hz|]. eexists; reflexivity.
      * right. split; [exact Hz|]. right. eexists; reflexivity.
    + eexists _, _. split; [reflexivity|]. right. split; [lia|].
      left. exact Hs0.
  - exists SIEVE_FAIL, t0. split; [reflexivity|]. right.
    split; [apply SIEVE_FAIL_nonzero | left; exact Hs0].
Qed.

(** *** Reject *)

Lemma reject_lines_spec (rest : list string) : forall cur : string,
  reject_lines (Some cur) rest =
    Some (map (fun l => "550-5.7.1 " +:+ l +:+ CRLF) (List.removelast (cur :: rest))
          ++ ["550 5.7.1 " +:+ List.last (cur :: rest) "" +:+ CRLF]).
Proof.
  induction rest as [|next rest IH]; intros cur.
  - reflexivity.
  - cbn [reject_lines]. rewrite IH. reflexivity.
Qed.


(** *** Redirect *)

(** One run of [sieve_redirect] past the duplicate check: it ends; when it
    returns [SIEVE_OK] exactly one message went to the transport and the
    ledger is marked under [dkey] with the time of the call; when it fails
    the ledger is as before. *)
Lemma redirect_send_run o (rc : sieve_redirect_context_t)
    (ctx : sieve_interp_ctx) sd (mdata : deliver_data_t)
    (dkey : option duplicate_key_t) w :
  exists (r : Z) (e : option string) w' (t : list event),
    redirect_send cfg o rc ctx sd mdata dkey w = Some ((r, e), w') /\
    w_trace w' = w_trace w ++ t /\
    ((r = SIEVE_OK /\ e = None /\
      w_dup w' = match dkey with
                 | Some k => duplicate_mark (w_dup w) k (o_now o)
                 | None => w_dup w
                 end /\
      exists job, sends t = [SmtpSend job]) \/
     (r = SIEVE_FAIL /\ w_dup w' = w_dup w /\
      (sends t = [] \/ exists job, sends t = [SmtpSend job]))).
Proof.
  unfold redirect_send.
  assert (Hstage : exists (special : option deliver_data_t) (t1 : list event),
             special_delivery o sd mdata w = Some (special, add_trace w t1) /\
             sends t1 = []).
  { unfold special_delivery. destruct (sd_edited_header sd).
    - destruct (setup_special_delivery_run o mdata w) as (hdrs & _ & Hrun).
      eexists _, _. split; [exact Hrun | reflexivity].
    - exists (Some mdata), []. rewrite add_trace_nil. split; reflexivity. }
  destruct Hstage as (special & t1 & Hstage & Hs1).
  rewrite (bind_run _ _ _ _ _ Hstage).
  destruct special as [mdata'|].
  - destruct (send_forward_run o rc ctx (m_return_path (dd_m mdata'))
                (m_f (dd_m mdata')) (add_trace w t1))
      as (res & t2 & Hfwd & Hres).
    rewrite (bind_run _ _ _ _ _ Hfwd).
    assert (Hclean : exists t3 : list event,
               when (sd_edited_header sd) (cleanup_special_delivery mdata')
                 (add_trace (add_trace w t1) t2) =
               Some (tt, add_trace (add_trace (add_trace w t1) t2) t3) /\
               sends t3 = []).
    { destruct (sd_edited_header sd).
      - eexists [_]. split; reflexivity.
      - exists []. rewrite add_trace_nil. split; reflexivity. }
    destruct Hclean as (t3 & Hclean & Hs3).
    rewrite (bind_run _ _ _ _ _ Hclean).
    destruct Hres as [[-> (job & Hjob)] | [Hnz Hs2]].
    + change (0 =? 0) with true. cbv beta iota. unfold_m.
      destruct dkey as [k|]; destruct (config_auditlog cfg); cbv beta iota;
        eexists _, _, _, _;
        (split; [reflexivity|]);
        (split; [simpl; rewrite <- ?app_assoc; reflexivity|]);
        left; (split; [reflexivity|]); (split; [reflexivity|]);
        (split; [reflexivity|]);
        exists job; rewrite !sends_app, Hs1, Hjob, Hs3; reflexivity.
    + rewrite (proj2 (Z.eqb_neq res 0) Hnz). unfold_m.
      eexists _, _, _, _. split; [reflexivity|].
      split; [simpl; rewrite <- ?app_assoc; reflexivity|].
      right. split; [reflexivity|]. split; [reflexivity|].
      rewrite !sends_app, Hs1, Hs3, app_nil_r. exact Hs2.
  - unfold_m. eexists _, _, _, _. split; [reflexivity|].
    split; [reflexivity|]. right. split; [reflexivity|].
    split; [reflexivity|]. left. exact Hs1.
Qed.

Lemma strlen_app (a b : string) : strlen (a +:+ b) = strlen a + strlen b.
Proof.
  unfold strlen. rewrite <- !length_chars, chars_app, length_app. lia.
Qed.

Lemma snprintf_fits (size : Z) (s : string) :
  strlen s < size -> snprintf size s = s.
Proof.
  intros Hlen. unfold snprintf. rewrite take_ge.
  - apply str_chars.
  - rewrite length_chars. unfold strlen in Hlen. lia.
Qed.

Lemma make_sieve_db_fits (user : string) :
  strlen user + 8 <= MAX_MAILBOX_PATH ->
  make_sieve_db user = "." +:+ user +:+ ".sieve.".
Proof.
  intros Hlen. unfold make_sieve_db, strlcat.
  replace (MAX_MAILBOX_PATH + 1 - 1) with MAX_MAILBOX_PATH by lia.
  assert (Hin : str (take (Z.to_nat MAX_MAILBOX_PATH) (chars ("." +:+ user)))
                = "." +:+ user).
  { rewrite take_ge; [apply str_chars|].
    rewrite length_chars.
    pose proof (strlen_app "." user) as Hl. unfold strlen in *.
    change (String.length ".") with 1%nat in Hl. lia. }
  rewrite Hin. rewrite take_ge.
  - rewrite str_chars. apply string_app_assoc.
  - rewrite length_chars.
    pose proof (strlen_app ("." +:+ user) ".sieve.") as Hl.
    pose proof (strlen_app "." user) as Hl'. unfold strlen in *.
    change (String.length ".sieve.") with 7%nat in Hl.
    change (String.length ".") with 1%nat in Hl'. lia.
Qed.

(** C3, amended.  The ledger key of a redirect: the id is the message id, a
    dash and the target address (cut to the 8192-byte buffer), the target is
    the sieve database name [.<userid>.sieve.] of the script's owner (cut
    to [MAX_MAILBOX_PATH]), and the date is the date of the message.
    [sieve_redirect] checks the ledger under this key before anything else
    and returns [SIEVE_OK] without sending when it is marked; when it is
    not, the run ends, and marks this key with the time of the call if it
    returns [SIEVE_OK], and leaves the ledger as it was if it fails. *)
Theorem redirect_ledger_key o (rc : sieve_redirect_context_t)
    (ctx : sieve_interp_ctx) sd (mdata : deliver_data_t)
    (id userid : string) w :
  m_id (dd_m mdata) = Some id ->
  mbname_userid (sd_mbname sd) = Some userid ->
  dkey_tuple (redirect_key id rc userid (dd_m mdata)) =
    (snprintf 8192 (id +:+ "-" +:+ rc_addr rc), make_sieve_db userid,
     m_date (dd_m mdata)) /\
  (strlen id + 1 + strlen (rc_addr rc) < 8192 ->
   dk_id (redirect_key id rc userid (dd_m mdata)) =
     id +:+ "-" +:+ rc_addr rc) /\
  (strlen userid + 8 <= MAX_MAILBOX_PATH ->
   dk_to (redirect_key id rc userid (dd_m mdata)) =
     "." +:+ userid +:+ ".sieve.") /\
  (duplicate_check (w_dup w) (redirect_key id rc userid (dd_m mdata)) <> 0 ->
   sieve_redirect cfg o rc ctx sd mdata w =
     Some ((SIEVE_OK, None),
           add_trace w [DuplicateLog (redirect_key id rc userid (dd_m mdata))
                          "redirect"])) /\
  (duplicate_check (w_dup w) (redirect_key id rc userid (dd_m mdata)) = 0 ->
   exists (r : Z) (e : option string) w',
     sieve_redirect cfg o rc ctx sd mdata w = Some ((r, e), w') /\
     ((r = SIEVE_OK /\
       w_dup w' = duplicate_mark (w_dup w)
                    (redirect_key id rc userid (dd_m mdata)) (o_now o)) \/
      (r = SIEVE_FAIL /\ w_dup w' = w_dup w))).
Proof.
  intros Hid Hu. split; [reflexivity|]. split; [|split; [|split]].
  - intros Hlen. unfold redirect_key. cbn [dk_id]. apply snprintf_fits.
    rewrite !strlen_app. change (strlen "-") with 1. lia.
  - intros Hlen. unfold redirect_key. cbn [dk_to].
    apply make_sieve_db_fits, Hlen.
  - intros Hmarked. unfold sieve_redirect. rewrite Hid, Hu. unfold_m.
    rewrite (proj2 (Z.eqb_neq _ 0) Hmarked). reflexivity.
  - intros Hfree. unfold sieve_redirect. rewrite Hid, Hu. unfold_m.
    rewrite Hfree. change (negb (0 =? 0)) with false. cbv iota.
    destruct (redirect_send_run o rc ctx sd mdata
                (Some (redirect_key id rc userid (dd_m mdata))) w)
      as (r & e & w' & t & Hrun & _ & Hcase).
    exists r, e, w'. split; [exact Hrun|].
    destruct Hcase as [(-> & _ & Hdup & _) | (-> & Hdup & _)].
    + left. split; [reflexivity | exact Hdup].
    + right. split; [reflexivity | exact Hdup].
Qed.

(** C2, amended.  Redirecting twice for one owner.  A message with id [id]
    is redirected to an address, for a script owner with a userid, by a run
    that finds no mark in the ledger and returns [SIEVE_OK], at a time that
    is not the epoch itself: that run handed exactly one message to the
    transport.  A second redirect of the message (the same id and date) to
    the same address for the same owner, whatever else its arguments and
    its environment are, returns [SIEVE_OK] and hands nothing to the
    transport: it finds the mark of the first. *)
Theorem redirect_twice_sends_once o1 o2
    (rc1 rc2 : sieve_redirect_context_t) (ctx1 ctx2 : sieve_interp_ctx)
    sd1 sd2 (mdata1 mdata2 : deliver_data_t) (id userid : string)
    w w1 (e1 : option string) :
  m_id (dd_m mdata1) = Some id ->
  m_id (dd_m mdata2) = Some id ->
  rc_addr rc2 = rc_addr rc1 ->
  m_date (dd_m mdata2) = m_date (dd_m mdata1) ->
  mbname_userid (sd_mbname sd1) = Some userid ->
  mbname_userid (sd_mbname sd2) = Some userid ->
  duplicate_check (w_dup w) (redirect_key id rc1 userid (dd_m mdata1)) = 0 ->
  o_now o1 <> 0 ->
  sieve_redirect cfg o1 rc1 ctx1 sd1 mdata1 w = Some ((SIEVE_OK, e1), w1) ->
  (exists job, sends (w_trace w1) = sends (w_trace w) ++ [SmtpSend job]) /\
  exists w2,
    sieve_redirect cfg o2 rc2 ctx2 sd2 mdata2 w1 = Some ((SIEVE_OK, None), w2)
    /\ sends (w_trace w2) = sends (w_trace w1)
    /\ w_dup w2 = w_dup w1.
Proof.
  intros Hid1 Hid2 Haddr Hdate Hu1 Hu2 Hfree Hnow Hrun1.
  assert (Hkey : redirect_key id rc2 userid (dd_m mdata2) =
                 redirect_key id rc1 userid (dd_m mdata1)).
  { unfold redirect_key. rewrite Haddr, Hdate. reflexivity. }
  unfold sieve_redirect in Hrun1. rewrite Hid1, Hu1 in Hrun1. unfold_m.
  rewrite Hfree in Hrun1. change (negb (0 =? 0)) with false in Hrun1.
  cbv iota in Hrun1.
  destruct (redirect_send_run o1 rc1 ctx1 sd1 mdata1
              (Some (redirect_key id rc1 userid (dd_m mdata1))) w)
    as (r & e & w' & t & Hrun & Htrace & Hcase).
  rewrite Hrun in Hrun1. injection Hrun1 as -> -> ->.
  destruct Hcase as [(_ & _ & Hdup & job & Hjob) | (Hfail & _)].
  2: { exfalso. apply SIEVE_FAIL_nonzero. symmetry. exact Hfail. }
  split.
  - exists job. rewrite Htrace, sends_app, Hjob. reflexivity.
  - assert (Hmarked : duplicate_check (w_dup w1)
                        (redirect_key id rc2 userid (dd_m mdata2)) = o_now o1).
    { rewrite Hkey, Hdup. unfold duplicate_check, duplicate_mark.
      rewrite lookup_insert_eq. reflexivity. }
    unfold sieve_redirect. rewrite Hid2, Hu2. unfold_m.
    rewrite Hmarked. rewrite (proj2 (Z.eqb_neq _ 0) Hnow). cbv iota.
    eexists. split; [reflexivity|]. split; [|reflexivity].
    rewrite add_trace_trace, sends_app. simpl. apply app_nil_r.
Qed.

(** *** Fileinto and the creation of folders *)

Lemma autocreate_match_spec (userid internalname : string)
    (create : list string) : forall createsievefolder : bool,
  autocreate_match userid internalname create createsievefolder = true <->
  createsievefolder = true \/
  exists name, In name create /\ mboxname_user_mbox userid name = internalname.
Proof.
  induction create as [|name rest IH]; intros c; cbn [autocreate_match].
  - split; [intros ->; left; reflexivity|].
    intros [Hc | (name & [] & _)]. exact Hc.
  - destruct (String.eqb_spec (mboxname_user_mbox userid name) internalname)
      as [Heq | Hne].
    + split; [|reflexivity]. intros _. right. exists name.
      split; [left; reflexivity | exact Heq].
    + destruct c.
      * split; [|reflexivity]. intros _. left. reflexivity.
      * rewrite IH. split.
        -- intros [Hc | (n & Hin & Hn)]; [discriminate|].
           right. exists n. split; [right; exact Hin | exact Hn].
        -- intros [Hc | (n & [<- | Hin] & Hn)]; [discriminate | contradiction|].
           right. exists n. split; assumption.
Qed.

(** The test of [autosieve_createfolder] is the policy of the
    specification. *)
Lemma autocreate_allowed_iff (userid internalname : string)
    (do_create : bool) :
  autocreate_allowed cfg userid internalname do_create = true <->
  autocreate_policy cfg userid internalname do_create.
Proof.
  unfold autocreate_allowed, autocreate_policy.
  destruct (anysievefolder cfg).
  - split; [intros _; left; reflexivity | reflexivity].
  - destruct (autocreate_sieve_folders cfg) as [subf|].
    + rewrite autocreate_match_spec. split.
      * intros [Hc | (name & Hin & Hn)].
        -- right. right. exact Hc.
        -- right. left. exists subf, name. repeat split; assumption.
      * intros [Hc | [(subf' & name & [= <-] & Hin & Hn) | Hc]].
        -- discriminate.
        -- right. exists name. split; assumption.
        -- left. exact Hc.
    + split.
      * intros ->. right. right. reflexivity.
      * intros [Hc | [(subf' & name & Hsome & _) | Hc]];
          [discriminate | discriminate | exact Hc].
Qed.

(** A run of [autosieve_createfolder]: it asks the store to create the
    folder exactly when there is a userid and the policy allows it, and
    then returns what the creation returned; otherwise it returns
    [IMAP_MAILBOX_NONEXISTENT]. *)
Lemma autosieve_createfolder_run (userid : option string)
    (internalname : string) (createsievefolder : bool) w :
  exists (r : Z) w' (t : list event),
    autosieve_createfolder cfg userid (Some internalname) createsievefolder w
      = Some (r, w') /\
    w_trace w' = w_trace w ++ t /\ w_dup w' = w_dup w /\ sends t = [] /\
    ((store_calls t = [] /\ r = IMAP_MAILBOX_NONEXISTENT /\
      (userid = None \/
       exists u, userid = Some u /\
                 autocreate_allowed cfg u internalname createsievefolder
                 = false)) \/
     (store_calls t = [CreateMailbox internalname r] /\
      exists u, userid = Some u /\
                autocreate_allowed cfg u internalname createsievefolder
                = true)).
Proof.
  unfold autosieve_createfolder. destruct userid as [u|].
  - unfold_m.
    destruct (autocreate_allowed cfg u internalname createsievefolder) eqn:Hal.
    + destruct (mboxlist_createmailbox (w_store w) internalname u)
        as [st' r] eqn:Hcr.
      cbn [add_trace set_store w_store]. rewrite Hcr. cbv beta iota.
      destruct (r =? 0) eqn:Hr.
      * apply Z.eqb_eq in Hr. subst r.
        eexists _, _, _. split; [reflexivity|].
        split; [simpl; rewrite <- ?app_assoc; reflexivity|].
        split; [reflexivity|]. split; [reflexivity|].
        right. split; [reflexivity|]. exists u. split; [reflexivity | exact Hal].
      * eexists _, _, _. split; [reflexivity|].
        split; [simpl; rewrite <- ?app_assoc; reflexivity|].
        split; [reflexivity|]. split; [reflexivity|].
        right. split; [reflexivity|]. exists u. split; [reflexivity | exact Hal].
    + eexists _, _, _. split; [reflexivity|].
      split; [reflexivity|]. split; [reflexivity|]. split; [reflexivity|].
      left. split; [reflexivity|]. split; [reflexivity|].
      right. exists u. split; [reflexivity | exact Hal].
  - unfold_m. exists IMAP_MAILBOX_NONEXISTENT, w, [].
    split; [reflexivity|]. split; [symmetry; apply app_nil_r|].
    split; [reflexivity|]. split; [reflexivity|].
    left. split; [reflexivity|]. split; [reflexivity|]. left. reflexivity.
Qed.

Lemma annotate_specialuse_run (fc : sieve_fileinto_context_t)
    (userid : option string) (intname : string) w :
  exists w' (t : list event),
    annotate_specialuse fc userid intname w = Some (tt, w') /\
    w_trace w' = w_trace w ++ t /\ w_dup w' = w_dup w /\
    sends t = [] /\ store_calls t = [].
Proof.
  unfold annotate_specialuse.
  destruct (fc_specialuse fc) as [su|];
    [destruct (specialuse_validate userid su) as [v|]|]; unfold_m.
  - eexists _, _. split; [reflexivity|]. split; [reflexivity|].
    repeat split; reflexivity.
  - exists w, []. split; [reflexivity|]. split; [symmetry; apply app_nil_r|].
    repeat split; reflexivity.
  - exists w, []. split; [reflexivity|]. split; [symmetry; apply app_nil_r|].
    repeat split; reflexivity.
Qed.

Lemma call_deliver_mailbox_run (d : delivery) w :
  exists (r : Z) w',
    call_deliver_mailbox d w = Some (r, w') /\
    r = snd (deliver_mailbox (w_store w) d) /\
    w_trace w' = w_trace w ++ [DeliverMailbox d r] /\ w_dup w' = w_dup w.
Proof.
  unfold call_deliver_mailbox. unfold_m.
  destruct (deliver_mailbox (w_store w) d) as [st' r]. cbv beta iota.
  eexists _, _. repeat split; reflexivity.
Qed.

(** *** Vacation *)

Lemma autorespond_run o (arc : sieve_autorespond_context_t) sd
    (userid : string) w :
  mbname_userid (sd_mbname sd) = Some userid ->
  autorespond o arc sd w =
    Some (let t := duplicate_check (w_dup w) (vacation_key arc userid) in
          if negb (t =? 0) && negb (t <=? o_now o)
          then (SIEVE_DONE, add_trace w autorespond_counters)
          else (SIEVE_OK,
                set_dup (add_trace w autorespond_counters)
                  (duplicate_mark (w_dup w) (vacation_key arc userid)
                     (o_now o + arc_seconds arc)))).
Proof.
  intros Hu. unfold autorespond. rewrite Hu. unfold_m.
  rewrite !add_trace_app. cbn [w_dup add_trace].
  set (t := duplicate_check (w_dup w) (vacation_key arc userid)).
  cbv zeta.
  destruct (negb (t =? 0)); cbn [andb];
    [destruct (t <=? o_now o); cbn [negb]|].
  - reflexivity.
  - rewrite (proj2 (Z.eqb_neq _ _) SIEVE_DONE_nonzero). reflexivity.
  - reflexivity.
Qed.

Lemma hex_not_lt (x : nat) : hex x <> "<"%char.
Proof.
  unfold hex.
  do 17 (destruct x as [|x]; [discriminate|]). discriminate.
Qed.

(** The id of a vacation key is made of hexadecimal digits; the ids that
    [new_msgid] makes start with ["<"]. *)
Lemma hash_id_first (hash : list ascii) :
  String.get 0 (hash_id hash) <> Some "<"%char.
Proof.
  unfold hash_id. destruct hash as [|b hash]; [discriminate|].
  cbn [map concat app str String.string_of_list_ascii String.get].
  intros [= Hc]. exact (hex_not_lt _ Hc).
Qed.

Lemma new_msgid_run o w :
  exists (id : string) w',
    new_msgid cfg o w = Some (id, w') /\
    String.get 0 id = Some "<"%char /\
    w_dup w' = w_dup w /\ w_store w' = w_store w /\ w_trace w' = w_trace w.
Proof.
  unfold new_msgid, next_outgoing_count. unfold_m.
  eexists _, _. split; [reflexivity|]. split; [|repeat split].
  unfold snprintf. rewrite chars_app.
  destruct (Z.to_nat (8192 - 1)) as [|n] eqn:Hn; [lia|]. reflexivity.
Qed.

Lemma do_fcc_run sd (fcc : sieve_fileinto_context_t)
    (header msg footer : string) w :
  exists w' (t : list event),
    do_fcc cfg sd fcc header msg footer w = Some (tt, w') /\
    w_trace w' = w_trace w ++ t /\ w_dup w' = w_dup w /\ sends t = [].
Proof.
  unfold do_fcc. unfold get_store at 1. unfold bind at 1. cbv beta iota.
  set (userid := mbname_userid (sd_mbname sd)).
  set (intname := resolve_folder (w_store w) fcc userid).
  assert (Hfirst : exists (r : Z) w1 (t1 : list event),
             (if mboxlist_lookup (w_store w) intname
                 =? IMAP_MAILBOX_NONEXISTENT
              then
                bind (autosieve_createfolder cfg userid (Some intname)
                        (fc_do_create fcc))
                  (fun r => bind (when (r =? 0)
                                    (annotate_specialuse fcc userid intname))
                              (fun _ => ret r))
              else ret (mboxlist_lookup (w_store w) intname)) w
             = Some (r, w1) /\
             w_trace w1 = w_trace w ++ t1 /\ w_dup w1 = w_dup w /\
             sends t1 = []).
  { destruct (mboxlist_lookup (w_store w) intname =? IMAP_MAILBOX_NONEXISTENT).
    - destruct (autosieve_createfolder_run userid intname (fc_do_create fcc) w)
        as (r & w1 & t1 & Hrun & Ht & Hd & Hs & _).
      rewrite (bind_run _ _ _ _ _ Hrun).
      destruct (r =? 0).
      + destruct (annotate_specialuse_run fcc userid intname w1)
          as (w2 & t2 & Hrun2 & Ht2 & Hd2 & Hs2 & _).
        cbn [when]. rewrite (bind_run _ _ _ _ _ Hrun2).
        eexists _, _, _. split; [reflexivity|].
        split; [rewrite Ht2, Ht, <- app_assoc; reflexivity|].
        split; [congruence|]. rewrite sends_app, Hs, Hs2. reflexivity.
      + cbn [when]. unfold_m. eexists _, _, _. split; [reflexivity|].
        split; [exact Ht|]. split; [exact Hd | exact Hs].
    - eexists _, w, []. split; [reflexivity|].
      split; [symmetry; apply app_nil_r|]. split; reflexivity. }
  destruct Hfirst as (r & w1 & t1 & Hrun1 & Ht1 & Hd1 & Hs1).
  rewrite (bind_run _ _ _ _ _ Hrun1).
  destruct (r =? 0) eqn:Hr.
  - unfold_m.
    destruct (append_message (w_store w1) intname userid (fc_imapflags fcc)
                (header +:+ msg +:+ footer)) as [st' r'].
    cbv beta iota. destruct (negb (r' =? 0)); cbv beta iota.
    + eexists _, _. split; [reflexivity|].
      split; [simpl; rewrite Ht1, <- !app_assoc; reflexivity|].
      split; [exact Hd1|]. rewrite !sends_app, Hs1. reflexivity.
    + eexists _, _. split; [reflexivity|].
      split; [simpl; rewrite Ht1, <- !app_assoc; reflexivity|].
      split; [exact Hd1|]. rewrite !sends_app, Hs1. reflexivity.
  - unfold_m. rewrite Hr. cbn [negb]. cbv beta iota.
    eexists _, _. split; [reflexivity|].
    split; [simpl; rewrite Ht1, <- !app_assoc; reflexivity|].
    split; [exact Hd1|]. rewrite !sends_app, Hs1. reflexivity.
Qed.

(** A run of [send_response] for a script owner with a userid: it ends; it
    hands one message to the transport when the transport opens and none
    otherwise; and in the ledger it touches no key whose id does not start
    with ["<"]. *)
Lemma send_response_run o (src : sieve_send_response_context_t)
    (ctx : sieve_interp_ctx) sd (mc : deliver_data_t) (userid : string) w :
  mbname_userid (sd_mbname sd) = Some userid ->
  exists (r : Z) (e : option string) w' (t : list event),
    send_response cfg o src ctx sd mc w = Some ((r, e), w') /\
    w_trace w' = w_trace w ++ t /\
    (o_smtp_open o = 0 -> exists job, sends t = [SmtpSend job]) /\
    (o_smtp_open o <> 0 -> sends t = [] /\ r = SIEVE_FAIL) /\
    (forall k : duplicate_key_t,
        String.get 0 (dk_id k) <> Some "<"%char ->
        w_dup w' !! dkey_tuple k = w_dup w !! dkey_tuple k).
Proof.
  intros Hu. unfold send_response.
  destruct (new_msgid_run o w) as (id & w1 & Hid & Hlt & Hd1 & _ & Ht1).
  rewrite (bind_run _ _ _ _ _ Hid). cbv zeta.
  unfold bind at 1. rewrite smtp_submit_run.
  destruct (o_smtp_open o =? 0) eqn:Hopen.
  - apply Z.eqb_eq in Hopen.
    destruct (o_smtp_send o =? 0) eqn:Hsend.
    + rewrite Hu. unfold nonnull, ret at 1. unfold bind at 1.
      unfold get_dup at 1. unfold bind at 1. unfold put_dup at 1.
      unfold bind at 1. cbv beta iota.
      match goal with
      | |- context [bind ?fccm _ ?w2] =>
          assert (Hfcc : exists w3 (t3 : list event),
                     fccm w2 = Some (tt, w3) /\
                     w_trace w3 = w_trace w2 ++ t3 /\ w_dup w3 = w_dup w2 /\
                     sends t3 = [])
      end.
      { destruct (src_fcc src) as [fcc|].
        - apply do_fcc_run.
        - eexists _, []. split; [reflexivity|].
          split; [symmetry; apply app_nil_r|]. split; reflexivity. }
      destruct Hfcc as (w3 & t3 & Hfcc & Ht3 & Hd3 & Hs3).
      rewrite (bind_run _ _ _ _ _ Hfcc). unfold_m.
      eexists _, _, _, _. split; [reflexivity|].
      split; [simpl; rewrite Ht3; simpl; rewrite Ht1, <- !app_assoc;
              reflexivity|].
      split; [|split].
      * intros _. eexists. rewrite !sends_app, Hs3. reflexivity.
      * intros Hno. contradiction.
      * intros k Hk. cbn [w_dup add_trace]. rewrite Hd3.
        cbn [w_dup set_dup add_trace]. unfold duplicate_mark.
        rewrite lookup_insert_ne; [rewrite Hd1; reflexivity|].
        intros Heq. unfold dkey_tuple in Heq. cbn [dk_id dk_to dk_date] in Heq.
        injection Heq as Heq _ _. apply Hk. rewrite <- Heq. exact Hlt.
    + unfold_m. eexists _, _, _, _. split; [reflexivity|].
      split; [simpl; rewrite Ht1; reflexivity|].
      split; [|split].
      * intros _. eexists. reflexivity.
      * intros Hno. contradiction.
      * intros k _. cbn [w_dup add_trace]. rewrite Hd1. reflexivity.
  - apply Z.eqb_neq in Hopen. rewrite (proj2 (Z.eqb_neq _ _) Hopen).
    unfold_m. eexists _, _, _, []. split; [reflexivity|].
    split; [rewrite app_nil_r; exact Ht1|].
    split; [|split].
    + intros Hz. contradiction.
    + intros _. split; reflexivity.
    + intros k _. rewrite Hd1. reflexivity.
Qed.

Lemma vacation_allowed o (arc : sieve_autorespond_context_t)
    (src : sieve_send_response_context_t) (ctx : sieve_interp_ctx) sd
    (mc : deliver_data_t) (userid : string) w :
  mbname_userid (sd_mbname sd) = Some userid ->
  (w_dup w !! dkey_tuple (vacation_key arc userid) = None \/
   exists e, w_dup w !! dkey_tuple (vacation_key arc userid) = Some e /\
             e <= o_now o) ->
  autorespond o arc sd w =
    Some (SIEVE_OK,
          set_dup (add_trace w autorespond_counters)
            (duplicate_mark (w_dup w) (vacation_key arc userid)
               (o_now o + arc_seconds arc))) /\
  vacation cfg o arc src ctx sd mc w =
    send_response cfg o src ctx sd mc
      (set_dup (add_trace w autorespond_counters)
         (duplicate_mark (w_dup w) (vacation_key arc userid)
            (o_now o + arc_seconds arc))).
Proof.
  intros Hu Hfree.
  assert (Hrun : autorespond o arc sd w =
    Some (SIEVE_OK,
          set_dup (add_trace w autorespond_counters)
            (duplicate_mark (w_dup w) (vacation_key arc userid)
               (o_now o + arc_seconds arc)))).
  { rewrite (autorespond_run o arc sd userid w Hu). cbv zeta.
    unfold duplicate_check.
    destruct Hfree as [-> | (e & -> & Hle)]; cbn [default from_option id].
    - reflexivity.
    - rewrite (proj2 (Z.leb_le _ _) Hle). rewrite andb_false_r. reflexivity. }
  split; [exact Hrun|].
  unfold vacation. rewrite (bind_run _ _ _ _ _ Hrun). reflexivity.
Qed.

Lemma vacation_suppressed o (arc : sieve_autorespond_context_t)
    (src : sieve_send_response_context_t) (ctx : sieve_interp_ctx) sd
    (mc : deliver_data_t) (userid : string) w (e : Z) :
  mbname_userid (sd_mbname sd) = Some userid ->
  w_dup w !! dkey_tuple (vacation_key arc userid) = Some e ->
  e <> 0 -> o_now o < e ->
  autorespond o arc sd w = Some (SIEVE_DONE, add_trace w autorespond_counters)
  /\ vacation cfg o arc src ctx sd mc w =
       Some ((SIEVE_DONE, None), add_trace w autorespond_counters).
Proof.
  intros Hu He Hnz Hlt.
  assert (Hrun : autorespond o arc sd w =
                 Some (SIEVE_DONE, add_trace w autorespond_counters)).
  { rewrite (autorespond_run o arc sd userid w Hu). cbv zeta.
    unfold duplicate_check. rewrite He. cbn [default from_option id].
    rewrite (proj2 (Z.eqb_neq _ _) Hnz).
    rewrite (proj2 (Z.leb_gt _ _) Hlt). reflexivity. }
  split; [exact Hrun|].
  unfold vacation. rewrite (bind_run _ _ _ _ _ Hrun).
  unfold SIEVE_OK. rewrite (proj2 (Z.eqb_neq _ _) SIEVE_DONE_nonzero).
  reflexivity.
Qed.

(** C7, amended.  The throttle of vacation responses, as the code has it.
    For the owner [userid] of the script and the key of the triggering hash:
    - when the ledger has no entry, or one whose expiry is at or before now,
      [autorespond] allows the response and itself marks the ledger with
      [now + seconds]; the response is composed and sent after that, by
      [send_response] started on the marked ledger, and the mark is there
      whether or not the transport opens;
    - when the clock is at or after the epoch and the entry expires after
      now, the outcome is [SIEVE_DONE], nothing is sent and the ledger is
      not touched;
    - so from a ledger without an entry, with a transport that opens, the
      same hash sends at [t0], is suppressed at [t0 + W - 1] and sends
      again at [t0 + W + 1] (for [0 < t0 + W]). *)
Theorem vacation_window (arc : sieve_autorespond_context_t)
    (src : sieve_send_response_context_t) (ctx : sieve_interp_ctx) sd
    (mc : deliver_data_t) (userid : string) :
  mbname_userid (sd_mbname sd) = Some userid ->
  (forall o w,
      w_dup w !! dkey_tuple (vacation_key arc userid) = None \/
      (exists e, w_dup w !! dkey_tuple (vacation_key arc userid) = Some e /\
                 e <= o_now o) ->
      autorespond o arc sd w =
        Some (SIEVE_OK,
              set_dup (add_trace w autorespond_counters)
                (duplicate_mark (w_dup w) (vacation_key arc userid)
                   (o_now o + arc_seconds arc))) /\
      vacation cfg o arc src ctx sd mc w =
        send_response cfg o src ctx sd mc
          (set_dup (add_trace w autorespond_counters)
             (duplicate_mark (w_dup w) (vacation_key arc userid)
                (o_now o + arc_seconds arc))) /\
      exists (r : Z) (e : option string) w' (t : list event),
        vacation cfg o arc src ctx sd mc w = Some ((r, e), w') /\
        w_trace w' = w_trace w ++ t /\
        w_dup w' !! dkey_tuple (vacation_key arc userid) =
          Some (o_now o + arc_seconds arc) /\
        (o_smtp_open o = 0 -> exists job, sends t = [SmtpSend job]) /\
        (o_smtp_open o <> 0 -> sends t = [] /\ r = SIEVE_FAIL)) /\
  (forall o w (e : Z),
      0 <= o_now o ->
      w_dup w !! dkey_tuple (vacation_key arc userid) = Some e ->
      o_now o < e ->
      autorespond o arc sd w =
        Some (SIEVE_DONE, add_trace w autorespond_counters) /\
      vacation cfg o arc src ctx sd mc w =
        Some ((SIEVE_DONE, None), add_trace w autorespond_counters)) /\
  (forall o0 o1 o2 w (t0 : Z),
      w_dup w !! dkey_tuple (vacation_key arc userid) = None ->
      0 < t0 + arc_seconds arc ->
      o_now o0 = t0 ->
      o_now o1 = t0 + arc_seconds arc - 1 ->
      o_now o2 = t0 + arc_seconds arc + 1 ->
      o_smtp_open o0 = 0 -> o_smtp_open o2 = 0 ->
      exists r0 e0 w1 job0 w2 r2 e2 w3 job2,
        vacation cfg o0 arc src ctx sd mc w = Some ((r0, e0), w1) /\
        sends (w_trace w1) = sends (w_trace w) ++ [SmtpSend job0] /\
        vacation cfg o1 arc src ctx sd mc w1 = Some ((SIEVE_DONE, None), w2) /\
        sends (w_trace w2) = sends (w_trace w1) /\
        w_dup w2 = w_dup w1 /\
        vacation cfg o2 arc src ctx sd mc w2 = Some ((r2, e2), w3) /\
        sends (w_trace w3) = sends (w_trace w2) ++ [SmtpSend job2]).
Proof.
  intros Hu.
  assert (Hallowed : forall o w,
      w_dup w !! dkey_tuple (vacation_key arc userid) = None \/
      (exists e, w_dup w !! dkey_tuple (vacation_key arc userid) = Some e /\
                 e <= o_now o) ->
      exists (r : Z) (e : option string) w' (t : list event),
        vacation cfg o arc src ctx sd mc w = Some ((r, e), w') /\
        w_trace w' = w_trace w ++ t /\
        w_dup w' !! dkey_tuple (vacation_key arc userid) =
          Some (o_now o + arc_seconds arc) /\
        (o_smtp_open o = 0 -> exists job, sends t = [SmtpSend job]) /\
        (o_smtp_open o <> 0 -> sends t = [] /\ r = SIEVE_FAIL)).
  { intros o w Hfree.
    destruct (vacation_allowed o arc src ctx sd mc userid w Hu Hfree)
      as [_ Hvac].
    destruct (send_response_run o src ctx sd mc userid
                (set_dup (add_trace w autorespond_counters)
                   (duplicate_mark (w_dup w) (vacation_key arc userid)
                      (o_now o + arc_seconds arc))) Hu)
      as (r & e & w' & t & Hrun & Ht & Hopen & Hdown & Hframe).
    exists r, e, w', (autorespond_counters ++ t).
    split; [rewrite Hvac; exact Hrun|].
    split; [rewrite Ht; cbn [w_trace set_dup add_trace];
            rewrite <- app_assoc; reflexivity|].
    split; [|split].
    - rewrite (Hframe (vacation_key arc userid) (hash_id_first _)).
      cbn [w_dup set_dup]. unfold duplicate_mark. apply lookup_insert_eq.
    - intros Hz. destruct (Hopen Hz) as [job Hjob]. exists job.
      rewrite sends_app, Hjob. reflexivity.
    - intros Hnz. destruct (Hdown Hnz) as [Hs Hr]. split; [|exact Hr].
      rewrite sends_app, Hs. reflexivity. }
  split; [|split].
  - intros o w Hfree.
    destruct (vacation_allowed o arc src ctx sd mc userid w Hu Hfree)
      as [Hauto Hvac].
    split; [exact Hauto|]. split; [exact Hvac|]. exact (Hallowed o w Hfree).
  - intros o w e Hnow He Hlt.
    apply (vacation_suppressed o arc src ctx sd mc userid w e Hu He); lia.
  - intros o0 o1 o2 w t0 Hnone Hpos Hn0 Hn1 Hn2 Hopen0 Hopen2.
    destruct (Hallowed o0 w (or_introl Hnone))
      as (r0 & e0 & w1 & ta & Hrun0 & Hta & Hmark & Hsend0 & _).
    destruct (Hsend0 Hopen0) as [job0 Hjob0].
    rewrite Hn0 in Hmark.
    destruct (vacation_suppressed o1 arc src ctx sd mc userid w1
                (t0 + arc_seconds arc) Hu Hmark) as [_ Hrun1]; [lia | lia|].
    assert (Hmark2 : w_dup (add_trace w1 autorespond_counters)
                       !! dkey_tuple (vacation_key arc userid)
                     = Some (t0 + arc_seconds arc)) by exact Hmark.
    destruct (Hallowed o2 (add_trace w1 autorespond_counters))
      as (r2 & e2 & w3 & tb & Hrun2 & Htb & _ & Hsend2 & _).
    { right. exists (t0 + arc_seconds arc). split; [exact Hmark2 | lia]. }
    destruct (Hsend2 Hopen2) as [job2 Hjob2].
    exists r0, e0, w1, job0, (add_trace w1 autorespond_counters),
      r2, e2, w3, job2.
    split; [exact Hrun0|].
    split; [rewrite Hta, sends_app, Hjob0; reflexivity|].
    split; [exact Hrun1|].
    split; [rewrite add_trace_trace, sends_app; simpl; apply app_nil_r|].
    split; [reflexivity|].
    split; [exact Hrun2|].
    rewrite Htb, sends_app, Hjob2. reflexivity.
Qed.

End HandlerFacts.

(** ** What the actions deliver *)

Section DeliveryFacts.

Context `{Constants} `{Library}.
Context {hdrcache : Type} `{HeaderCache hdrcache}.
Context {store : Type} `{MailStore (hdrcache := hdrcache) store}.
Variable cfg : config.

Implicit Types (w : world (hdrcache := hdrcache) (store := store)).
Implicit Types (o : oracle) (sd : script_data_t).

Lemma delivered_app (t1 t2 : list (event (hdrcache := hdrcache))) :
  delivered (t1 ++ t2) = delivered t1 ++ delivered t2.
Proof. apply omap_app. Qed.

(** What [special_delivery] hands to the action, and what it asks for. *)
Lemma special_delivery_copy o sd (mdata : deliver_data_t) w :
  exists (special : option deliver_data_t),
    special_delivery o sd mdata w =
      Some (special,
            add_trace w (if sd_edited_header sd
                         then [NewStage (o_newstage o)] else [])) /\
    (sd_edited_header sd = false -> special = Some mdata) /\
    (sd_edited_header sd = true ->
     exists hdrs, dump_headers (m_hdrcache (dd_m mdata)) = Some hdrs /\
       special = match o_newstage o with
                 | Some stage => Some (staged_copy stage hdrs mdata)
                 | None => None
                 end).
Proof.
  unfold special_delivery. destruct (sd_edited_header sd).
  - destruct (setup_special_delivery_run o mdata w) as (hdrs & Hh & Hrun).
    eexists. split; [exact Hrun|]. split; [discriminate|].
    intros _. exists hdrs. split; [exact Hh | reflexivity].
  - exists (Some mdata). rewrite add_trace_nil.
    split; [reflexivity|]. split; [reflexivity | discriminate].
Qed.

(** [send_forward] hands over nothing but the forwarded form of the file
    it is given, and does hand it over when it returns 0. *)
Lemma send_forward_delivered o (rc : sieve_redirect_context_t)
    (ctx : sieve_interp_ctx) (return_path : option string) (file : string) w :
  exists (res : Z) (t : list event),
    send_forward cfg o rc ctx return_path file w = Some (res, add_trace w t) /\
    (delivered t = [] \/ delivered t = [forwarded file]) /\
    (res = 0 -> delivered t = [forwarded file]).
Proof.
  unfold send_forward.
  assert (Hsrs : exists (p : option string) (t : list event),
             sieve_srs_forward cfg o return_path w = Some (p, add_trace w t) /\
             delivered t = []).
  { unfold sieve_srs_forward. destruct (o_srs_engine o) as [alloc|].
    - destruct (alloc return_path (srs_domain cfg)) as [status p].
      destruct (status =? 0).
      + exists p, []. rewrite add_trace_nil. split; reflexivity.
      + eexists None, [_]. unfold_m. split; reflexivity.
    - exists None, []. rewrite add_trace_nil. split; reflexivity. }
  destruct Hsrs as (p & t0 & Hsrs & Hd0).
  rewrite (bind_run _ _ _ _ _ Hsrs).
  unfold get_store at 1. unfold bind at 1. cbv beta iota.
  match goal with
  | |- context [if rc_is_ext_list rc then ?a else ?b] =>
      destruct (if rc_is_ext_list rc then a else b) as [rcpts|]
  end; cbv beta iota.
  - rewrite smtp_submit_run. destruct (o_smtp_open o =? 0) eqn:Hopen.
    + eexists _, _. rewrite add_trace_app. split; [reflexivity|].
      rewrite delivered_app, Hd0. split; [right; reflexivity|].
      intros _. reflexivity.
    + apply Z.eqb_neq in Hopen. eexists _, _. split; [reflexivity|].
      split; [left; exact Hd0|]. intros Hz. contradiction.
  - exists SIEVE_FAIL, t0. split; [reflexivity|].
    split; [left; exact Hd0|]. intros Hz.
    exfalso. exact (SIEVE_FAIL_nonzero Hz).
Qed.

(** [sieve_keep] delivers the message that [special_delivery] hands to it,
    once, and fails at once when there is none. *)
Lemma keep_delivers o (imapflags : list string) sd
    (mydata : deliver_data_t) w :
  exists (special : option deliver_data_t) (res : Z * option string) w'
         (t : list event),
    special_delivery o sd mydata w =
      Some (special,
            add_trace w (if sd_edited_header sd
                         then [NewStage (o_newstage o)] else [])) /\
    sieve_keep o imapflags sd mydata w = Some (res, w') /\
    w_trace w' = w_trace w ++ t /\
    match special with
    | Some mydata' =>
        delivered t = [m_f (dd_m mydata')] /\
        res = (let r := snd (deliver_local (w_store w) mydata' imapflags
                               (sd_mbname sd)) in
               if r =? 0 then (SIEVE_OK, None)
               else (SIEVE_FAIL, Some (error_message r))) /\
        w_store w' = fst (deliver_local (w_store w) mydata' imapflags
                            (sd_mbname sd))
    | None =>
        t = [NewStage None] /\ res = (SIEVE_FAIL, None) /\
        w_store w' = w_store w
    end.
Proof.
  destruct (special_delivery_copy o sd mydata w) as (special & Hsp & Hplain & Hed).
  exists special. unfold sieve_keep. rewrite (bind_run _ _ _ _ _ Hsp).
  destruct special as [mydata'|].
  - unfold_m. cbn [w_store add_trace].
    destruct (deliver_local (w_store w) mydata' imapflags (sd_mbname sd))
      as [st' r].
    cbv beta iota. cbn [fst snd].
    destruct (sd_edited_header sd); destruct (r =? 0); cbv beta iota;
      eexists _, _, _; (split; [exact Hsp|]); (split; [reflexivity|]);
      (split; [cbn [w_trace add_trace set_store]; rewrite <- ?app_assoc;
               reflexivity|]);
      (split; [reflexivity|]); split; reflexivity.
  - destruct (sd_edited_header sd) eqn:Hedit.
    + destruct (Hed eq_refl) as (hdrs & _ & Hnone).
      destruct (o_newstage o); [discriminate|].
      unfold_m. eexists _, _, _. split; [exact Hsp|].
      split; [reflexivity|]. split; [reflexivity|].
      split; [reflexivity|]. split; reflexivity.
    + specialize (Hplain eq_refl). discriminate.
Qed.


(** A run of [fileinto_deliver]: it ends, and what it asks of the store and
    what it leaves is a [fileinto_calls]. *)
Lemma fileinto_deliver_run (fc : sieve_fileinto_context_t)
    (userid : option string) (d : delivery) w :
  exists (r : Z) w' (t : list event),
    fileinto_deliver cfg fc userid d w = Some (r, w') /\
    w_trace w' = w_trace w ++ t /\ w_dup w' = w_dup w /\ sends t = [] /\
    fileinto_calls cfg fc userid d (w_store w) (store_calls t) (w_store w') r.
Proof.
  unfold fileinto_deliver, call_deliver_mailbox. unfold_m.
  destruct (deliver_mailbox (w_store w) d) as [st1 r1] eqn:Hd1. cbv beta iota.
  destruct (r1 =? IMAP_MAILBOX_NONEXISTENT) eqn:Hr1.
  - apply Z.eqb_eq in Hr1. subst r1.
    unfold autosieve_createfolder. destruct userid as [u|].
    + unfold_m.
      destruct (autocreate_allowed cfg u (dl_mailbox d) (fc_do_create fc)) eqn:Hal.
      * pose proof (proj1 (autocreate_allowed_iff cfg u _ _) Hal) as Hpol.
        cbn [w_store set_store add_trace].
        destruct (mboxlist_createmailbox st1 (dl_mailbox d) u) as [st2 rc] eqn:Hcr.
        cbv beta iota. destruct (rc =? 0) eqn:Hrc.
        -- apply Z.eqb_eq in Hrc. subst rc. cbn [Z.eqb].
           cbn [w_store set_store add_trace].
           unfold annotate_specialuse.
           pose proof (eq_refl (annotated (mboxlist_changesub st2 (dl_mailbox d) u) fc (Some u) (dl_mailbox d))) as Han.
           unfold annotated at 2 in Han.
           destruct (fc_specialuse fc) as [su|];
             [destruct (specialuse_validate (Some u) su) as [v|]|];
             unfold_m; cbn [w_store set_store add_trace];
             match goal with
             | |- context [deliver_mailbox ?s d] =>
                 destruct (deliver_mailbox s d) as [st3 r2] eqn:Hd2
             end; cbv beta iota;
             eexists _, _, _; (split; [reflexivity|]);
             (split; [cbn [w_trace set_store add_trace];
                      rewrite <- ?app_assoc; reflexivity|]);
             (split; [reflexivity|]); (split; [reflexivity|]);
             cbn [w_store set_store add_trace];
             rewrite <- Han in Hd2;
             exact (fileinto_retried cfg fc (Some u) d (w_store w) st1 st2 st3 u r2
                      Hd1 eq_refl Hpol Hcr Hd2).
        -- apply Z.eqb_neq in Hrc. rewrite (proj2 (Z.eqb_neq _ _) Hrc).
           eexists _, _, _. split; [reflexivity|].
           split; [cbn [w_trace set_store add_trace];
                   rewrite <- ?app_assoc; reflexivity|].
           split; [reflexivity|]. split; [reflexivity|].
           exact (fileinto_create_failed cfg fc (Some u) d (w_store w) st1 st2 u rc
                    Hd1 eq_refl Hpol Hcr Hrc).
      * rewrite (proj2 (Z.eqb_neq _ 0) IMAP_MAILBOX_NONEXISTENT_nonzero).
        eexists _, _, _. split; [reflexivity|].
        split; [cbn [w_trace set_store add_trace];
                rewrite <- ?app_assoc; reflexivity|].
        split; [reflexivity|]. split; [reflexivity|].
        apply (fileinto_not_permitted cfg fc (Some u) d (w_store w) st1 Hd1).
        right. exists u. split; [reflexivity|].
        rewrite <- autocreate_allowed_iff, Hal. discriminate.
    + unfold_m.
      rewrite (proj2 (Z.eqb_neq _ 0) IMAP_MAILBOX_NONEXISTENT_nonzero).
      eexists _, _, _. split; [reflexivity|].
      split; [reflexivity|]. split; [reflexivity|]. split; [reflexivity|].
      apply (fileinto_not_permitted cfg fc None d (w_store w) st1 Hd1).
      left. reflexivity.
  - apply Z.eqb_neq in Hr1.
    eexists _, _, _. split; [reflexivity|].
    split; [reflexivity|]. split; [reflexivity|]. split; [reflexivity|].
    exact (fileinto_once cfg fc userid d (w_store w) st1 r1 Hd1 Hr1).
Qed.

Lemma fileinto_calls_delivered (fc : sieve_fileinto_context_t)
    (userid : option string) (d : delivery) (st : store)
    (calls : list event) (st' : store) (r : Z) :
  fileinto_calls cfg fc userid d st calls st' r ->
  delivered calls = [dl_file d] \/ delivered calls = [dl_file d; dl_file d].
Proof.
  intros Hc. destruct Hc; [left | left | left | right]; reflexivity.
Qed.

(** A run of [fileinto_deliver] hands over what its store calls hand
    over. *)
Lemma fileinto_deliver_delivered (fc : sieve_fileinto_context_t)
    (userid : option string) (d : delivery) w (r : Z) w' :
  fileinto_deliver cfg fc userid d w = Some (r, w') ->
  exists t : list event,
    w_trace w' = w_trace w ++ t /\ delivered t = delivered (store_calls t).
Proof.
  unfold fileinto_deliver, call_deliver_mailbox, autosieve_createfolder,
    annotate_specialuse.
  unfold_m.
  destruct (deliver_mailbox (w_store w) d) as [st1 r1]. cbv beta iota.
  destruct (r1 =? IMAP_MAILBOX_NONEXISTENT).
  - destruct userid as [u|].
    + unfold_m.
      destruct (autocreate_allowed cfg u (dl_mailbox d) (fc_do_create fc)).
      * cbn [w_store set_store add_trace].
        destruct (mboxlist_createmailbox st1 (dl_mailbox d) u) as [st2 rc].
        cbv beta iota. destruct (rc =? 0) eqn:Hrc.
        -- apply Z.eqb_eq in Hrc. subst rc. cbn [Z.eqb].
           destruct (fc_specialuse fc) as [su|];
             [destruct (specialuse_validate (Some u) su) as [v|]|];
             unfold_m; cbn [w_store set_store add_trace];
             match goal with
             | |- context [deliver_mailbox ?s d] =>
                 destruct (deliver_mailbox s d) as [st3 r2]
             end; cbv beta iota; intros [= <- <-]; eexists;
             (split; [cbn [w_trace set_store add_trace];
                      rewrite <- ?app_assoc; reflexivity | reflexivity]).
        -- rewrite Hrc. intros [= <- <-]. eexists.
           split; [cbn [w_trace set_store add_trace];
                   rewrite <- ?app_assoc; reflexivity | reflexivity].
      * rewrite (proj2 (Z.eqb_neq _ 0) IMAP_MAILBOX_NONEXISTENT_nonzero); intros [= <- <-]; eexists;
          (split; [cbn [w_trace set_store add_trace];
                      rewrite <- ?app_assoc; reflexivity | reflexivity]).
    + unfold_m. rewrite (proj2 (Z.eqb_neq _ 0) IMAP_MAILBOX_NONEXISTENT_nonzero); intros [= <- <-];
        eexists; (split; [reflexivity | reflexivity]).
  - intros [= <- <-]. eexists. split; reflexivity.
Qed.

(** A run of [sieve_fileinto]: it ends; the folder is resolved on the store
    as it was; what is asked of the store is a [fileinto_calls] for the
    message that [special_delivery] hands over. *)
Lemma sieve_fileinto_run o (fc : sieve_fileinto_context_t) sd
    (mdata : deliver_data_t) w :
  exists (special : option deliver_data_t) (res : Z * option string) w'
         (t : list event),
    special_delivery o sd mdata w =
      Some (special,
            add_trace w (if sd_edited_header sd
                         then [NewStage (o_newstage o)] else [])) /\
    sieve_fileinto cfg o fc sd mdata w = Some (res, w') /\
    w_trace w' = w_trace w ++ t /\
    match special with
    | Some mdata' =>
        exists ret_ : Z,
          let d := fileinto_delivery fc sd mdata'
                     (resolve_folder (w_store w) fc
                        (mbname_userid (sd_mbname sd))) in
          fileinto_calls cfg fc (mbname_userid (sd_mbname sd)) d (w_store w)
            (store_calls t) (w_store w') ret_ /\
          delivered t = delivered (store_calls t) /\
          res = if ret_ =? 0 then (SIEVE_OK, None)
                else (SIEVE_FAIL, Some (error_message ret_))
    | None =>
        t = [NewStage None] /\ res = (SIEVE_FAIL, None) /\
        w_store w' = w_store w
    end.
Proof.
  destruct (special_delivery_copy o sd mdata w) as (special & Hsp & Hplain & Hed).
  exists special. unfold sieve_fileinto. rewrite (bind_run _ _ _ _ _ Hsp).
  destruct special as [mdata'|].
  - unfold get_store at 1. unfold bind at 1. cbv beta iota.
    cbn [w_store add_trace].
    set (d := fileinto_delivery fc sd mdata'
                (resolve_folder (w_store w) fc (mbname_userid (sd_mbname sd)))).
    set (wa := add_trace w (if sd_edited_header sd
                            then [NewStage (o_newstage o)] else [])).
    destruct (fileinto_deliver_run fc (mbname_userid (sd_mbname sd)) d wa)
      as (ret_ & w2 & t2 & Hrun2 & Ht2 & _ & _ & Hcalls).
    destruct (fileinto_deliver_delivered fc _ d wa ret_ w2 Hrun2)
      as (t2' & Ht2' & Hdel).
    assert (t2' = t2) as -> by (rewrite Ht2 in Ht2'; apply app_inv_head in Ht2';
                                 symmetry; exact Ht2').
    rewrite (bind_run _ _ _ _ _ Hrun2).
    subst wa. cbn [w_store w_trace add_trace] in *.
    destruct (sd_edited_header sd); destruct (ret_ =? 0) eqn:Hret;
      unfold_m; eexists _, _, _; (split; [exact Hsp|]);
      (split; [reflexivity|]);
      (split; [cbn [w_trace add_trace]; rewrite Ht2, <- ?app_assoc;
               reflexivity|]);
      exists ret_; rewrite Hret;
      rewrite ?store_calls_app, ?delivered_app, ?Hdel; cbn [w_store add_trace];
      cbn [store_calls filter is_store_call delivered omap delivered_text app];
      rewrite ?app_nil_r; (split; [exact Hcalls|]); split; reflexivity.
  - destruct (sd_edited_header sd) eqn:Hedit.
    + destruct (Hed eq_refl) as (hdrs & _ & Hnone).
      destruct (o_newstage o); [discriminate|].
      unfold_m. eexists _, _, _. split; [exact Hsp|].
      split; [reflexivity|]. split; [reflexivity|].
      split; [reflexivity|]. split; reflexivity.
    + specialize (Hplain eq_refl). discriminate.
Qed.

(** [sieve_redirect] past the duplicate check forwards the message that
    [special_delivery] hands to it, at most once, and exactly once when it
    returns [SIEVE_OK]. *)
Lemma redirect_send_delivers o (rc : sieve_redirect_context_t)
    (ctx : sieve_interp_ctx) sd (mdata : deliver_data_t)
    (dkey : option duplicate_key_t) w :
  exists (special : option deliver_data_t) (res : Z * option string) w'
         (t : list event),
    special_delivery o sd mdata w =
      Some (special,
            add_trace w (if sd_edited_header sd
                         then [NewStage (o_newstage o)] else [])) /\
    redirect_send cfg o rc ctx sd mdata dkey w = Some (res, w') /\
    w_trace w' = w_trace w ++ t /\
    match special with
    | Some mdata' =>
        (delivered t = [] \/ delivered t = [forwarded (m_f (dd_m mdata'))]) /\
        (fst res = SIEVE_OK -> delivered t = [forwarded (m_f (dd_m mdata'))])
    | None => t = [NewStage None] /\ res = (SIEVE_FAIL, None)
    end.
Proof.
  destruct (special_delivery_copy o sd mdata w) as (special & Hsp & Hplain & Hed).
  exists special. unfold redirect_send. rewrite (bind_run _ _ _ _ _ Hsp).
  destruct special as [mdata'|].
  - set (wa := add_trace w (if sd_edited_header sd
                            then [NewStage (o_newstage o)] else [])) in *.
    destruct (send_forward_delivered o rc ctx (m_return_path (dd_m mdata'))
                (m_f (dd_m mdata')) wa) as (r & t2 & Hfwd & Hdel & Hok).
    rewrite (bind_run _ _ _ _ _ Hfwd).
    assert (Hd1 : delivered (hdrcache := hdrcache)
                    (if sd_edited_header sd
                     then [NewStage (o_newstage o)] else []) = []).
    { destruct (sd_edited_header sd); reflexivity. }
    assert (Hd3 : delivered (hdrcache := hdrcache)
                    (if sd_edited_header sd
                     then [RemoveStage (dd_stage mdata')] else []) = []).
    { destruct (sd_edited_header sd); reflexivity. }
    assert (Hclean : when (sd_edited_header sd)
                       (cleanup_special_delivery mdata') (add_trace wa t2) =
                     Some (tt, add_trace (add_trace wa t2)
                             (if sd_edited_header sd
                              then [RemoveStage (dd_stage mdata')] else []))).
    { destruct (sd_edited_header sd); [reflexivity|].
      rewrite add_trace_nil. reflexivity. }
    rewrite (bind_run _ _ _ _ _ Hclean). subst wa.
    destruct (r =? 0) eqn:Hr.
    + apply Z.eqb_eq in Hr. specialize (Hok Hr).
      unfold_m.
      destruct dkey as [k|]; destruct (config_auditlog cfg); cbv beta iota;
        eexists _, _, _; (split; [exact Hsp|]); (split; [reflexivity|]);
        (split; [cbn [w_trace add_trace set_dup]; rewrite <- ?app_assoc;
                 reflexivity|]);
        rewrite !delivered_app, Hd1, Hd3, Hok;
        (split; [right; reflexivity | intros _; reflexivity]).
    + unfold_m. eexists _, _, _. split; [exact Hsp|].
      split; [reflexivity|].
      split; [cbn [w_trace add_trace]; rewrite <- ?app_assoc; reflexivity|].
      rewrite !delivered_app, Hd1, Hd3, app_nil_r. cbn [app fst].
      split; [exact Hdel|]. intros Hbad. exfalso.
      apply SIEVE_FAIL_nonzero. exact Hbad.
  - destruct (sd_edited_header sd) eqn:Hedit.
    + destruct (Hed eq_refl) as (hdrs & _ & Hnone).
      destruct (o_newstage o); [discriminate|].
      unfold_m. eexists _, _, _. split; [exact Hsp|].
      split; [reflexivity|]. split; [reflexivity|]. split; reflexivity.
    + specialize (Hplain eq_refl). discriminate.
Qed.

(** The context that a header edit leaves. *)
Lemma header_edit_inv (sc sc' : script_data_t) (mc mc' : deliver_data_t) :
  (exists head body index,
      addheader sc mc head body index = (SIEVE_OK, sc', mc')) \/
  (exists head index, deleteheader sc mc head index = (SIEVE_OK, sc', mc')) ->
  sc' = set_edited_header sc /\
  mc' = set_m mc (set_hdrcache (dd_m mc) (m_hdrcache (dd_m mc'))) /\
  ((exists head body : string,
       m_hdrcache (dd_m mc') =
         spool_append_header head body (m_hdrcache (dd_m mc)) \/
       m_hdrcache (dd_m mc') =
         spool_prepend_header head body (m_hdrcache (dd_m mc))) \/
   (exists head : string,
       m_hdrcache (dd_m mc') = spool_remove_header head (m_hdrcache (dd_m mc))
       \/ exists index : Z,
            m_hdrcache (dd_m mc') =
              spool_remove_header_instance head index
                (m_hdrcache (dd_m mc)))).
Proof.
  intros [(head & body & index & Hadd) | (head & index & Hdel)].
  - unfold addheader in Hadd. destruct head as [head|].
    + destruct body as [body|].
      * injection Hadd as <- <-. split; [reflexivity|]. split; [reflexivity|].
        left. exists head, body. cbn [dd_m set_m m_hdrcache set_hdrcache].
        destruct (index <? 0); [left | right]; reflexivity.
      * injection Hadd as Hbad _ _. exfalso.
        apply SIEVE_FAIL_nonzero. exact Hbad.
    + injection Hadd as Hbad _ _. exfalso.
      apply SIEVE_FAIL_nonzero. exact Hbad.
  - unfold deleteheader in Hdel. destruct head as [head|].
    + injection Hdel as <- <-. split; [reflexivity|]. split; [reflexivity|].
      right. exists head. cbn [dd_m set_m m_hdrcache set_hdrcache].
      destruct (index =? 0); [left | right; exists index]; reflexivity.
    + injection Hdel as Hbad _ _. exfalso.
      apply SIEVE_FAIL_nonzero. exact Hbad.
Qed.

(** C1, amended.  What a header edit does and what a later [keep],
    [fileinto] or [redirect] hands over.  An edit that [addheader] or
    [deleteheader] accepts changes the header cache of the inbound message
    itself (a header is appended or prepended to it, or removed from it),
    and nothing else of the message, and sets the [edited_header] flag: a
    later header test reads the edited cache, while the spool file, and so
    the body, is as it was.  A [keep], a [fileinto] and a [redirect] that
    follow (the redirect for a message without id or an owner with a
    userid) always return, and what they deliver is not the spool file but
    a staged copy of it: the headers of the edited cache as [dump_header]
    writes them followed by the body of the spool file.  [keep] delivers it
    once, [fileinto] once, or twice when it retries after creating the
    folder, and [redirect] forwards it (less its Return-Path lines) at most
    once, and once when it returns [SIEVE_OK] without having found the
    redirect in the ledger.  When no stage file can be made they fail and
    nothing is delivered. *)
Theorem header_edit_then_deliver o (sc sc' : script_data_t)
    (mc mc' : deliver_data_t) :
  (exists head body index,
      addheader sc mc head body index = (SIEVE_OK, sc', mc')) \/
  (exists head index, deleteheader sc mc head index = (SIEVE_OK, sc', mc')) ->
  sd_edited_header sc' = true /\
  dd_m mc' = set_hdrcache (dd_m mc) (m_hdrcache (dd_m mc')) /\
  ((exists head body : string,
       m_hdrcache (dd_m mc') =
         spool_append_header head body (m_hdrcache (dd_m mc)) \/
       m_hdrcache (dd_m mc') =
         spool_prepend_header head body (m_hdrcache (dd_m mc))) \/
   (exists head : string,
       m_hdrcache (dd_m mc') = spool_remove_header head (m_hdrcache (dd_m mc))
       \/ exists index : Z,
            m_hdrcache (dd_m mc') =
              spool_remove_header_instance head index
                (m_hdrcache (dd_m mc)))) /\
  (forall h : string,
      snd (getheader mc' (Some h)) = spool_getheader (m_hdrcache (dd_m mc')) h) /\
  m_f (dd_m mc') = m_f (dd_m mc) /\
  m_body_offset (dd_m mc') = m_body_offset (dd_m mc) /\
  exists hdrs : string,
    dump_headers (m_hdrcache (dd_m mc')) = Some hdrs /\
    let file := hdrs +:+ str (drop (m_body_offset (dd_m mc))
                                (chars (m_f (dd_m mc)))) in
    (forall (imapflags : list string) w,
        exists (res : Z * option string) w' (t : list event),
          sieve_keep o imapflags sc' mc' w = Some (res, w') /\
          w_trace w' = w_trace w ++ t /\
          match o_newstage o with
          | Some _ => delivered t = [file]
          | None => delivered t = [] /\ res = (SIEVE_FAIL, None)
          end) /\
    (forall (fc : sieve_fileinto_context_t) w,
        exists (res : Z * option string) w' (t : list event),
          sieve_fileinto cfg o fc sc' mc' w = Some (res, w') /\
          w_trace w' = w_trace w ++ t /\
          match o_newstage o with
          | Some _ => delivered t = [file] \/ delivered t = [file; file]
          | None => delivered t = [] /\ res = (SIEVE_FAIL, None)
          end) /\
    (forall (rc : sieve_redirect_context_t) (ctx : sieve_interp_ctx) w,
        m_id (dd_m mc) = None \/ is_Some (mbname_userid (sd_mbname sc)) ->
        exists (res : Z * option string) w' (t : list event),
          sieve_redirect cfg o rc ctx sc' mc' w = Some (res, w') /\
          w_trace w' = w_trace w ++ t /\
          match o_newstage o with
          | Some _ =>
              (delivered t = [] \/ delivered t = [forwarded file]) /\
              (fst res = SIEVE_OK ->
               delivered t = [forwarded file] \/
               exists k, t = [DuplicateLog k "redirect"])
          | None =>
              delivered t = [] /\
              (res = (SIEVE_FAIL, None) \/
               exists k, t = [DuplicateLog k "redirect"])
          end).
Proof.
  intros Hedit.
  destruct (header_edit_inv sc sc' mc mc' Hedit) as (Hsc & Hmc & Hop).
  assert (Hflag : sd_edited_header sc' = true) by (rewrite Hsc; reflexivity).
  assert (Hm : dd_m mc' = set_hdrcache (dd_m mc) (m_hdrcache (dd_m mc'))).
  { rewrite Hmc at 1. reflexivity. }
  assert (Hf : m_f (dd_m mc') = m_f (dd_m mc)) by (rewrite Hm; reflexivity).
  assert (Hoff : m_body_offset (dd_m mc') = m_body_offset (dd_m mc))
    by (rewrite Hm; reflexivity).
  assert (Hid : m_id (dd_m mc') = m_id (dd_m mc)) by (rewrite Hm; reflexivity).
  assert (Hown : sd_mbname sc' = sd_mbname sc) by (rewrite Hsc; reflexivity).
  split; [exact Hflag|]. split; [exact Hm|]. split; [exact Hop|].
  split; [intros h; unfold getheader, msg_getheader;
          destruct (spool_getheader (m_hdrcache (dd_m mc')) h); reflexivity|].
  split; [exact Hf|]. split; [exact Hoff|].
  destruct (dump_headers_total (m_hdrcache (dd_m mc'))) as [hdrs Hh].
  exists hdrs. split; [exact Hh|]. cbv zeta.
  assert (Hcopy : forall w (special : option deliver_data_t),
             special_delivery o sc' mc' w =
               Some (special,
                     add_trace w (if sd_edited_header sc'
                                  then [NewStage (o_newstage o)] else [])) ->
             special = match o_newstage o with
                       | Some stage => Some (staged_copy stage hdrs mc')
                       | None => None
                       end).
  { intros w special Hsp.
    destruct (special_delivery_copy o sc' mc' w) as (sp & Hsp' & _ & Hed).
    rewrite Hsp' in Hsp. injection Hsp as <-.
    destruct (Hed Hflag) as (hdrs' & Hh' & ->).
    rewrite Hh in Hh'. injection Hh' as <-. reflexivity. }
  assert (Hfile : forall stage,
             m_f (dd_m (staged_copy stage hdrs mc')) =
             hdrs +:+ str (drop (m_body_offset (dd_m mc))
                             (chars (m_f (dd_m mc))))).
  { intros stage. cbn [staged_copy dd_m m_f]. rewrite Hf, Hoff. reflexivity. }
  split; [|split].
  - intros imapflags w.
    destruct (keep_delivers o imapflags sc' mc' w)
      as (special & res & w' & t & Hsp & Hrun & Ht & Hcase).
    exists res, w', t. split; [exact Hrun|]. split; [exact Ht|].
    rewrite (Hcopy w special Hsp) in Hcase.
    destruct (o_newstage o) as [stage|].
    + destruct Hcase as (Hdel & _). rewrite Hdel, Hfile. reflexivity.
    + destruct Hcase as (-> & -> & _). split; reflexivity.
  - intros fc w.
    destruct (sieve_fileinto_run o fc sc' mc' w)
      as (special & res & w' & t & Hsp & Hrun & Ht & Hcase).
    exists res, w', t. split; [exact Hrun|]. split; [exact Ht|].
    rewrite (Hcopy w special Hsp) in Hcase.
    destruct (o_newstage o) as [stage|].
    + destruct Hcase as (ret_ & Hcalls & Hdel & _). rewrite Hdel.
      apply fileinto_calls_delivered in Hcalls.
      cbn [dl_file fileinto_delivery] in Hcalls. rewrite Hfile in Hcalls.
      exact Hcalls.
    + destruct Hcase as (-> & -> & _). split; reflexivity.
  - intros rc ctx w Huser.
    assert (Hsend : forall dkey,
               exists (res : Z * option string) w' (t : list event),
                 redirect_send cfg o rc ctx sc' mc' dkey w = Some (res, w') /\
                 w_trace w' = w_trace w ++ t /\
                 match o_newstage o with
                 | Some _ =>
                     (delivered t = [] \/
                      delivered t =
                        [forwarded
                           (hdrs +:+ str (drop (m_body_offset (dd_m mc))
                                            (chars (m_f (dd_m mc)))))]) /\
                     (fst res = SIEVE_OK ->
                      delivered t =
                        [forwarded
                           (hdrs +:+ str (drop (m_body_offset (dd_m mc))
                                            (chars (m_f (dd_m mc)))))] \/
                      exists k, t = [DuplicateLog k "redirect"])
                 | None =>
                     delivered t = [] /\
                     (res = (SIEVE_FAIL, None) \/
                      exists k, t = [DuplicateLog k "redirect"])
                 end).
    { intros dkey.
      destruct (redirect_send_delivers o rc ctx sc' mc' dkey w)
        as (special & res & w' & t & Hsp & Hrun & Ht & Hcase).
      exists res, w', t. split; [exact Hrun|]. split; [exact Ht|].
      rewrite (Hcopy w special Hsp) in Hcase.
      destruct (o_newstage o) as [stage|].
      - rewrite Hfile in Hcase. destruct Hcase as [Hdel Hok].
        split; [exact Hdel|]. intros Hres. left. exact (Hok Hres).
      - destruct Hcase as (-> & ->). split; [reflexivity|].
        left. reflexivity. }
    unfold sieve_redirect. rewrite Hid, Hown.
    destruct (m_id (dd_m mc)) as [id|]; [|apply Hsend].
    destruct Huser as [Hno | [userid Hu]]; [discriminate|]. rewrite Hu.
    unfold_m.
    destruct (negb (duplicate_check (w_dup w)
                      (redirect_key id rc userid (dd_m mc')) =? 0)).
    + eexists _, _, _. split; [reflexivity|]. split; [reflexivity|].
      destruct (o_newstage o).
      * split; [left; reflexivity|]. intros _. right. eexists. reflexivity.
      * split; [reflexivity|]. right. eexists. reflexivity.
    + apply Hsend.
Qed.

(** C6.  A run of [sieve_fileinto] ends.  Unless the staging of an edited
    message failed (nothing is then asked of the store), what it asks of
    the store, what the store answers and the store it leaves are one of
    the four shapes of [fileinto_calls] for the resolved folder, started on
    the store as it was: a creation is asked for only after the store has
    answered "mailbox does not exist" to the delivery, with a userid, under
    the policy (the any-folder override, a configured name, or the create
    flag of the rule), and the delivery is retried once, on the store that
    the creation left, after a creation that succeeded; without the policy
    the action fails with the message of "mailbox does not exist"; any
    other answer of the store ends the action, as a [SIEVE_FAIL] with its
    message when it is a failure, and no creation is asked for. *)
Theorem fileinto_autocreate o (fc : sieve_fileinto_context_t) sd
    (mdata : deliver_data_t) w :
  exists (r : Z) (e : option string) w' (t : list event),
    sieve_fileinto cfg o fc sd mdata w = Some ((r, e), w') /\
    w_trace w' = w_trace w ++ t /\
    ((sd_edited_header sd = true /\ o_newstage o = None /\
      store_calls t = [] /\ w_store w' = w_store w /\
      r = SIEVE_FAIL /\ e = None) \/
     exists (d : delivery) (ret_ : Z),
       dl_mailbox d =
         resolve_folder (w_store w) fc (mbname_userid (sd_mbname sd)) /\
       fileinto_calls cfg fc (mbname_userid (sd_mbname sd)) d (w_store w)
         (store_calls t) (w_store w') ret_ /\
       (r, e) = if ret_ =? 0 then (SIEVE_OK, None)
                else (SIEVE_FAIL, Some (error_message ret_))).
Proof.
  destruct (sieve_fileinto_run o fc sd mdata w)
    as (special & [r e] & w' & t & Hsp & Hrun & Ht & Hcase).
  exists r, e, w', t. split; [exact Hrun|]. split; [exact Ht|].
  destruct special as [mdata'|].
  - right. destruct Hcase as (ret_ & Hcalls & _ & Hres).
    eexists _, ret_. split; [|split; [exact Hcalls | exact Hres]].
    reflexivity.
  - left. destruct Hcase as (-> & [= -> ->] & Hst).
    destruct (special_delivery_copy o sd mdata w) as (sp & Hsp' & Hplain & Hed).
    rewrite Hsp' in Hsp. injection Hsp as ->.
    destruct (sd_edited_header sd) eqn:Hedit.
    + destruct (Hed eq_refl) as (hdrs & _ & Hnone).
      destruct (o_newstage o); [discriminate|].
      repeat split; try reflexivity. exact Hst.
    + specialize (Hplain eq_refl). discriminate.
Qed.

(** *** The rejection in the LMTP dialogue *)

(** X31.  The rejection in the LMTP dialogue.  When the reject is the
    extended form, or LMTP rejection is switched on and the reason is pure
    ASCII, [sieve_reject] answers in the LMTP dialogue.  With [lines] the
    lines that the tokenizer cuts the reason into (the quoted-printable
    text of the reason when it is not ASCII): when there is at least one,
    the recipient gets the status "rejected" with the response
    ["550-5.7.1 <line>"] for every line but the last and
    ["550 5.7.1 <line>"] for the last, and the handler returns [SIEVE_OK];
    when there is none, the pointer given to the last [%s] is NULL and the
    run has no defined result.  A reason that is not ASCII, in a reject
    that is not extended, goes to the rejection by mail whatever the switch
    says, and that path leaves the recipient's status alone. *)
Theorem reject_lmtp_lines o (rc : sieve_reject_context_t)
    (ctx : sieve_interp_ctx) sd (mydata : deliver_data_t) w :
  (forall lines : list string,
      rj_is_extended rc = true \/
      (sieve_use_lmtp_reject cfg = true /\ need_encode (rj_msg rc) = false) ->
      tok_tokens (if need_encode (rj_msg rc)
                  then charset_qpencode_mimebody (rj_msg rc)
                  else rj_msg rc) CRLF = lines ->
      match lines with
      | [] => sieve_reject cfg o rc ctx sd mydata w = None
      | _ :: _ =>
          sieve_reject cfg o rc ctx sd mydata w =
            Some ((SIEVE_OK, None,
                   set_m mydata
                     (msg_setrcpt_status (dd_m mydata) (dd_cur_rcpt mydata)
                        LMTP_MESSAGE_REJECTED
                        (map (fun l => "550-5.7.1 " +:+ l +:+ CRLF)
                             (List.removelast lines)
                         ++ ["550 5.7.1 " +:+ List.last lines "" +:+ CRLF]))),
                  add_trace w
                    ([Prometheus "CYRUS_LMTP_SIEVE_REJECT_TOTAL";
                      Snmp "SIEVE_REJECT";
                      Syslog LOG_INFO "sieve LMTP rejected: %s"
                        [id_or_nomsgid (m_id (dd_m mydata))]] ++
                     (if config_auditlog cfg
                      then [Syslog LOG_NOTICE
                              "auditlog: LMTP reject sessionid=<%s> message-id=%s"
                              [Some (o_session_id o);
                               id_or_nomsgid (m_id (dd_m mydata))]]
                      else [])))
      end) /\
  (rj_is_extended rc = false -> need_encode (rj_msg rc) = true ->
   sieve_reject cfg o rc ctx sd mydata w = reject_mail cfg o rc ctx sd mydata w
   /\ forall r e mydata' w',
        reject_mail cfg o rc ctx sd mydata w = Some ((r, e, mydata'), w') ->
        mydata' = mydata).
Proof.
  split.
  - intros lines Hcase Htok.
    assert (Hcond : rj_is_extended rc ||
                    (sieve_use_lmtp_reject cfg &&
                     negb (need_encode (rj_msg rc))) = true).
    { destruct Hcase as [-> | [-> ->]]; [reflexivity | apply orb_true_r]. }
    unfold sieve_reject. rewrite Hcond. unfold reject_lmtp. rewrite Htok.
    destruct lines as [|cur rest]; [reflexivity|].
    unfold reject_response. rewrite reject_lines_spec. unfold_m.
    destruct (config_auditlog cfg); cbv beta iota;
      rewrite !add_trace_app; reflexivity.
  - intros Hext Hneed. split.
    + unfold sieve_reject. rewrite Hext, Hneed.
      rewrite andb_false_r. reflexivity.
    + intros r e mydata' w'. unfold reject_mail.
      destruct (m_return_path (dd_m mydata)) as [return_path|].
      * destruct (strlen return_path =? 0).
        -- unfold_m. destruct (config_auditlog cfg); cbv beta iota;
             intros [= _ _ <- _]; reflexivity.
        -- unfold bind at 1.
           destruct (send_rejection _ _ _ _ _ _ _ _ _ _) as [[res w1]|];
             [|discriminate].
           destruct (res =? 0).
           ++ unfold_m. destruct (config_auditlog cfg); cbv beta iota;
                intros [= _ _ <- _]; reflexivity.
           ++ unfold_m. intros [= _ _ <- _]; reflexivity.
      * unfold_m. intros [= _ _ <- _]; reflexivity.
Qed.

(** *** The duplicate test *)

(** X32.  The [duplicate] test and its tracking, for a script whose owner
    has a userid, with the clock at or after the epoch.  The record of an
    id is kept under the key (the id as the script gives it, the sieve
    database name of the owner, the empty date).  [sieve_duplicate_check]
    answers 1 exactly when the ledger has a record under that key whose
    expiry is after now (it then logs the duplicate), and 0 otherwise, and
    leaves the ledger as it is.  [sieve_duplicate_track] writes
    [now + seconds] under that key whatever was there and changes nothing
    else.  So after an id has been tracked, a test of the same id answers
    1 exactly until that expiry, and the answer for any other id is what
    it was before. *)
Theorem duplicate_check_and_track o (dtc : sieve_duplicate_context_t) sd
    (userid : string) w :
  mbname_userid (sd_mbname sd) = Some userid ->
  0 <= o_now o ->
  (exists r : Z,
      sieve_duplicate_check o dtc sd w =
        Some (r, if r =? 1
                 then add_trace w
                        [DuplicateLog {| dk_id := dtc_id dtc;
                                         dk_to := make_sieve_db userid;
                                         dk_date := "" |} "sieve-duplicate"]
                 else w) /\
      (r = 1 \/ r = 0) /\
      (r = 1 <->
       exists e, w_dup w !! (dtc_id dtc, make_sieve_db userid, "") = Some e /\
                 o_now o < e)) /\
  sieve_duplicate_track o dtc sd w =
    Some (SIEVE_OK,
          set_dup w (<[(dtc_id dtc, make_sieve_db userid, "") :=
                         o_now o + dtc_seconds dtc]> (w_dup w))) /\
  (forall o' (dtc' : sieve_duplicate_context_t),
      0 <= o_now o' ->
      exists w1,
        sieve_duplicate_track o dtc sd w = Some (SIEVE_OK, w1) /\
        (dtc_id dtc' = dtc_id dtc ->
         (fst <$> sieve_duplicate_check o' dtc' sd w1 = Some 1 <->
          o_now o' < o_now o + dtc_seconds dtc)) /\
        (dtc_id dtc' <> dtc_id dtc ->
         fst <$> sieve_duplicate_check o' dtc' sd w1 =
         fst <$> sieve_duplicate_check o' dtc' sd w)).
Proof.
  intros Hu Hnow.
  assert (Hcheck : forall o' (dtc' : sieve_duplicate_context_t) w',
             0 <= o_now o' ->
             exists r : Z,
               sieve_duplicate_check o' dtc' sd w' =
                 Some (r, if r =? 1
                          then add_trace w'
                                 [DuplicateLog
                                    {| dk_id := dtc_id dtc';
                                       dk_to := make_sieve_db userid;
                                       dk_date := "" |} "sieve-duplicate"]
                          else w') /\
               (r = 1 \/ r = 0) /\
               (r = 1 <->
                exists e,
                  w_dup w' !! (dtc_id dtc', make_sieve_db userid, "") = Some e
                  /\ o_now o' < e)).
  { intros o' dtc' w' Hnow'.
    unfold sieve_duplicate_check. rewrite Hu. unfold_m.
    unfold duplicate_check, duplicate_key, dkey_tuple.
    cbn [dk_id dk_to dk_date].
    destruct (w_dup w' !! (dtc_id dtc', make_sieve_db userid, ""))
      as [e|] eqn:He; cbn [default from_option id].
    - destruct (negb (e =? 0) && (o_now o' <? e)) eqn:Hc.
      + exists 1. split; [reflexivity|]. split; [left; reflexivity|].
        split; [|reflexivity]. intros _. exists e. split; [reflexivity|].
        apply andb_true_iff in Hc as [_ Hc]. lia.
      + exists 0. split; [reflexivity|]. split; [right; reflexivity|].
        split; [discriminate|]. intros (e' & [= <-] & Hlt). exfalso.
        apply andb_false_iff in Hc as [Hc | Hc].
        * apply negb_false_iff in Hc. lia.
        * lia.
    - exists 0. split; [reflexivity|]. split; [right; reflexivity|].
      split; [discriminate|]. intros (e' & He' & _). discriminate. }
  assert (Htrack : sieve_duplicate_track o dtc sd w =
            Some (SIEVE_OK,
                  set_dup w (<[(dtc_id dtc, make_sieve_db userid, "") :=
                                 o_now o + dtc_seconds dtc]> (w_dup w)))).
  { unfold sieve_duplicate_track. rewrite Hu. reflexivity. }
  split; [exact (Hcheck o dtc w Hnow)|]. split; [exact Htrack|].
  intros o' dtc' Hnow'. eexists. split; [exact Htrack|].
  set (w1 := set_dup w _).
  destruct (Hcheck o' dtc' w1 Hnow') as (r1 & Hrun1 & Hr1 & Hiff1).
  destruct (Hcheck o' dtc' w Hnow') as (r0 & Hrun0 & Hr0 & Hiff0).
  rewrite Hrun1, Hrun0. cbn [fmap option_fmap option_map fst].
  split.
  - intros Hid. rewrite Hid in Hiff1. subst w1. cbn [w_dup set_dup] in Hiff1.
    rewrite lookup_insert_eq in Hiff1. split.
    + intros [= ->]. destruct (proj1 Hiff1 eq_refl) as (e & [= <-] & Hlt).
      exact Hlt.
    + intros Hlt. f_equal. apply Hiff1. eexists. split; [reflexivity|exact Hlt].
  - intros Hid. subst w1. cbn [w_dup set_dup] in Hiff1.
    rewrite lookup_insert_ne in Hiff1 by congruence.
    f_equal. destruct Hr1 as [-> | ->]; destruct Hr0 as [-> | ->];
      try reflexivity; exfalso.
    + pose proof (proj2 Hiff0 (proj1 Hiff1 eq_refl)). discriminate.
    + pose proof (proj2 Hiff1 (proj1 Hiff0 eq_refl)). discriminate.
Qed.

End DeliveryFacts.

(** ** More on C strings *)

Lemma strlen_nonneg (s : string) : 0 <= strlen s.
Proof. unfold strlen. lia. Qed.

Lemma strlen_str (l : list ascii) : strlen (str l) = Z.of_nat (length l).
Proof. rewrite <- strlen_chars, chars_str. reflexivity. Qed.

Lemma string_app_nil_r (a : string) : a +:+ "" = a.
Proof.
  induction a as [|c a IH]; [reflexivity|].
  change (String c a +:+ "") with (String c (a +:+ "")). rewrite IH.
  reflexivity.
Qed.

Lemma string_app_inv_head (a b c : string) : a +:+ b = a +:+ c -> b = c.
Proof.
  intros Heq. apply (f_equal chars) in Heq. rewrite !chars_app in Heq.
  apply app_inv_head in Heq. apply (f_equal str) in Heq.
  rewrite !str_chars in Heq. exact Heq.
Qed.

Lemma string_app_inv_tail (a b c : string) : a +:+ c = b +:+ c -> a = b.
Proof.
  intros Heq. apply (f_equal chars) in Heq. rewrite !chars_app in Heq.
  apply app_inv_tail in Heq. apply (f_equal str) in Heq.
  rewrite !str_chars in Heq. exact Heq.
Qed.

Lemma existsb_rev {A} (f : A -> bool) (l : list A) :
  existsb f (rev l) = existsb f l.
Proof.
  induction l as [|x l IH]; [reflexivity|].
  cbn [rev existsb]. rewrite existsb_app, IH. cbn [existsb].
  rewrite orb_false_r. apply orb_comm.
Qed.

Lemma strlen_snprintf (size : Z) (s : string) :
  1 <= size ->
  strlen (snprintf size s) < size /\ strlen (snprintf size s) <= strlen s.
Proof.
  intros Hs. unfold snprintf. rewrite strlen_str, length_take, length_chars.
  unfold strlen. lia.
Qed.

Lemma snprintf_short (size : Z) (s : string) :
  strlen (snprintf size s) < size - 1 -> snprintf size s = s.
Proof.
  unfold snprintf. rewrite strlen_str, length_take, length_chars.
  intros Hlen. rewrite take_ge; [apply str_chars|].
  rewrite length_chars. lia.
Qed.

Lemma strlen_strlcat (dst src : string) (size : Z) :
  1 <= size ->
  strlen (strlcat dst src size) < size /\
  strlen (strlcat dst src size) <= strlen dst + strlen src.
Proof.
  intros Hs. unfold strlcat. rewrite strlen_str, length_take, length_chars.
  pose proof (strlen_app dst src). unfold strlen in *. lia.
Qed.

Lemma strlcat_fits (dst src : string) (size : Z) :
  strlen dst + strlen src < size -> strlcat dst src size = dst +:+ src.
Proof.
  intros Hlen. unfold strlcat. rewrite take_ge; [apply str_chars|].
  rewrite length_chars. pose proof (strlen_app dst src).
  unfold strlen in *. lia.
Qed.

(** ** Folding and unfolding *)

Module UnfoldFacts.
Import Fold FoldFacts.

Local Arguments Ascii.eqb : simpl never.

Lemma unfolded_cons_nocr c tl :
  Ascii.eqb c CR = false -> unfolded (c :: tl) = c :: unfolded tl.
Proof.
  intros Hc. cbn [unfolded]. destruct tl as [|c2 [|c3 tl]]; try reflexivity.
  rewrite Hc. reflexivity.
Qed.

Lemma unfolded_nocr_app x y :
  has_cr x = false -> unfolded (x ++ y) = x ++ unfolded y.
Proof.
  induction x as [|c x IH]; intros Hx; [reflexivity|].
  simpl in Hx. apply orb_false_iff in Hx as [Hc Hx].
  change ((c :: x) ++ y) with (c :: (x ++ y)).
  rewrite unfolded_cons_nocr by exact Hc. rewrite IH by exact Hx. reflexivity.
Qed.

Lemma unfolded_crlf_blank c rest :
  isblank c = true ->
  unfolded (CR :: LF :: c :: rest) = unfolded (c :: rest).
Proof.
  intros Hb. cbn [unfolded]. rewrite Hb. reflexivity.
Qed.

Lemma has_cr_app x y : has_cr (x ++ y) = has_cr x || has_cr y.
Proof. apply existsb_app. Qed.

Lemma has_cr_take_drop p s :
  has_cr s = false -> has_cr (take p s) = false /\ has_cr (drop p s) = false.
Proof.
  intros Hs. rewrite <- (take_drop p s), has_cr_app in Hs.
  apply orb_false_iff in Hs. exact Hs.
Qed.

(** Folding only puts a CRLF in front of a blank of the value. *)
Lemma fold_value_unfolded n : forall m s out,
  (length s <= n)%nat -> has_cr s = false ->
  fold_value m s = Some out -> unfolded out = s.
Proof.
  induction n as [|n IH]; intros m s out Hn Hcr Hf.
  - destruct s; [|simpl in Hn; lia]. injection Hf as <-. reflexivity.
  - destruct s as [|c tl]; [injection Hf as <-; reflexivity|].
    rewrite fold_value_cons in Hf.
    pose proof (chunk_end_bounds m c tl) as [Hp1 Hp2].
    set (p := chunk_end m (c :: tl)) in *.
    destruct (fold_value 78 (drop p (c :: tl))) as [out'|] eqn:Hrest;
      [|discriminate].
    injection Hf as <-.
    destruct (has_cr_take_drop p (c :: tl) Hcr) as [Htk Hdr].
    assert (Hout' : unfolded out' = drop p (c :: tl)).
    { apply (IH 78 _ _); [|exact Hdr | exact Hrest].
      rewrite length_drop. simpl in *. lia. }
    assert (Hbody : unfolded (take p (c :: tl) ++ out') = c :: tl).
    { rewrite unfolded_nocr_app by exact Htk. rewrite Hout'.
      apply take_drop. }
    destruct (isblank c) eqn:Hb; [|exact Hbody].
    destruct p as [|p']; [lia|].
    change (chars CRLF) with [CR; LF].
    change ([CR; LF] ++ take (S p') (c :: tl) ++ out')
      with (CR :: LF :: c :: (take p' tl ++ out')).
    rewrite unfolded_crlf_blank by exact Hb. exact Hbody.
Qed.

(** Without HTAB and double SP, a value that fits the line is scanned to
    its end. *)
Lemma scan_short s : forall total m off,
  total <= m -> has_tab s = false -> has_double_sp s = false ->
  scan total m off None s = (off + length s)%nat.
Proof.
  induction s as [|c s IH]; intros total m off Hle Htab Hdbl; simpl in *.
  - lia.
  - apply orb_false_iff in Htab as [Hc Htab].
    apply orb_false_iff in Hdbl as [Hd Hdbl].
    rewrite Hc.
    destruct (Ascii.eqb c SP) eqn:Hsp; simpl in Hd.
    + rewrite Hd. rewrite (proj2 (Z.leb_le _ _) Hle).
      rewrite IH by assumption. lia.
    + rewrite IH by assumption. lia.
Qed.

Lemma has_tab_drop p s : has_tab s = false -> has_tab (drop p s) = false.
Proof.
  intros Hs. unfold has_tab in *. rewrite <- (take_drop p s), existsb_app in Hs.
  apply orb_false_iff in Hs. apply Hs.
Qed.

Lemma has_double_sp_tail c s :
  has_double_sp (c :: s) = false -> has_double_sp s = false.
Proof. simpl. intros Hs. apply orb_false_iff in Hs. apply Hs. Qed.

Lemma has_double_sp_drop p : forall s,
  has_double_sp s = false -> has_double_sp (drop p s) = false.
Proof.
  induction p as [|p IH]; intros s Hs; [rewrite drop_0; exact Hs|].
  destruct s as [|c s]; [reflexivity|].
  cbn [drop]. apply IH. exact (has_double_sp_tail c s Hs).
Qed.

Lemma lead_blanks_le s : (lead_blanks s <= length s)%nat.
Proof.
  unfold lead_blanks. destruct s as [|c tl]; [reflexivity|].
  pose proof (skip_fws_le tl). destruct (isblank c); simpl; lia.
Qed.

Lemma chunk_end_short m s :
  Z.of_nat (length s) <= m -> has_tab s = false -> has_double_sp s = false ->
  chunk_end m s = length s.
Proof.
  intros Hle Htab Hdbl. unfold chunk_end.
  rewrite scan_short;
    [|exact Hle | apply has_tab_drop; exact Htab
      | apply has_double_sp_drop; exact Hdbl].
  rewrite length_drop. pose proof (lead_blanks_le s). lia.
Qed.

Lemma fold_value_short m s :
  Z.of_nat (length s) <= m -> has_tab s = false -> has_double_sp s = false ->
  fold_value m s = Some ((if starts_blank s then chars CRLF else []) ++ s).
Proof.
  intros Hle Htab Hdbl. destruct s as [|c tl]; [reflexivity|].
  rewrite fold_value_cons, chunk_end_short by assumption.
  rewrite drop_all, take_ge by reflexivity.
  change (fold_value 78 []) with (Some (@nil ascii)). cbv beta iota.
  rewrite app_nil_r. reflexivity.
Qed.

End UnfoldFacts.

(** X1.  Folding loses nothing: for every header name and every value whose
    encoded form has no CR, [dump_header] writes the name, a colon and a
    space, then a text that unfolds (RFC 5322: take out each CRLF that a
    blank follows) to exactly the encoded value, then CRLF.  So every line
    break that the folding adds stands in front of a SP or HTAB of the
    value, and nothing of the value is dropped or changed. *)
Theorem dump_header_unfolds (enc : string -> string) (name value : string) :
  has_cr (chars (enc value)) = false ->
  exists out : list ascii,
    Fold.dump_header enc name value =
      Some (name +:+ ": " +:+ str out +:+ CRLF) /\
    unfolded out = chars (enc value).
Proof.
  intros Hcr. unfold Fold.dump_header.
  destruct (FoldFacts.fold_value_total (Fold.first_maxlen name)
              (chars (enc value))) as [out Hout].
  rewrite Hout. exists out. split; [reflexivity|].
  exact (UnfoldFacts.fold_value_unfolded _ _ _ _ (Nat.le_refl _) Hcr Hout).
Qed.

(** X2.  A header that fits on one line is not folded: when the name, the
    colon and space, and the encoded value take at most 78 columns and the
    value has neither HTAB nor two SP in a row, [dump_header] writes
    [name: value CRLF]; only a value that begins with a blank is put on a
    line of its own, after a CRLF. *)
Theorem dump_header_short (enc : string -> string) (name value : string) :
  strlen name + 2 + strlen (enc value) <= 78 ->
  Fold.has_tab (chars (enc value)) = false ->
  Fold.has_double_sp (chars (enc value)) = false ->
  Fold.dump_header enc name value =
    Some (name +:+ ": " +:+
          (if Fold.starts_blank (chars (enc value)) then CRLF else "") +:+
          enc value +:+ CRLF).
Proof.
  intros Hlen Htab Hdbl. unfold Fold.dump_header.
  assert (Hn : 0 <= strlen (enc value)) by (unfold strlen; lia).
  rewrite first_maxlen_small by lia.
  rewrite UnfoldFacts.fold_value_short;
    [|rewrite strlen_chars; lia | exact Htab | exact Hdbl].
  rewrite str_app, str_chars.
  destruct (Fold.starts_blank (chars (enc value))); reflexivity.
Qed.

(** ** Where the scripts are *)

Section ScriptFacts.

Context `{Constants} `{Library}.
Context {hdrcache : Type} `{HeaderCache hdrcache}.
Context {store : Type} `{MailStore (hdrcache := hdrcache) store}.
Variable cfg : config.

Implicit Types (w : world (hdrcache := hdrcache) (store := store)).
Implicit Types (o : oracle) (sd : script_data_t).

Lemma snprintf_at_bound (fname : string) (size len : Z) (text f : string) :
  snprintf_at fname size len text = Some f ->
  strlen fname <= len -> strlen fname < size ->
  strlen f < size /\ strlen f <= len + strlen text.
Proof.
  unfold snprintf_at. intros Hf Hlen Hsize.
  pose proof (strlen_nonneg text).
  destruct (size <? len); [discriminate|].
  destruct (len =? size); injection Hf as <-; [lia|].
  rewrite strlen_app, strlen_str, length_take, length_chars.
  unfold strlen in *. lia.
Qed.

Lemma snprintf_at_fits (fname : string) (size : Z) (text : string) :
  strlen fname + strlen text < size ->
  snprintf_at fname size (strlen fname) text = Some (fname +:+ text).
Proof.
  intros Hlen. unfold snprintf_at.
  pose proof (strlen_nonneg text). pose proof (strlen_nonneg fname).
  rewrite (proj2 (Z.ltb_ge _ _)) by lia.
  rewrite (proj2 (Z.eqb_neq _ _)) by lia.
  rewrite take_ge; [rewrite str_chars; reflexivity|].
  rewrite length_chars. unfold strlen in *. lia.
Qed.

(** The last dot of a name that ends in [.bc] is the dot of [.bc]. *)
Lemma strrchr_bc (a : string) : strrchr (a +:+ ".bc") "."%char = Some ".bc".
Proof.
  induction a as [|c a IH]; [reflexivity|].
  change (String c a +:+ ".bc") with (String c (a +:+ ".bc")).
  cbn [strrchr]. rewrite IH. reflexivity.
Qed.

Lemma rebuild_if_bc_bc (a : string) w :
  rebuild_if_bc (a +:+ ".bc") w =
    Some ((0, a +:+ ".bc"), add_trace w [SieveRebuild (a +:+ ".bc")]).
Proof.
  unfold rebuild_if_bc. rewrite strrchr_bc. reflexivity.
Qed.

Lemma rebuild_if_bc_run (fname : string) w :
  exists t : list event,
    rebuild_if_bc fname w = Some ((0, fname), add_trace w t).
Proof.
  unfold rebuild_if_bc.
  destruct (match strrchr fname "."%char with
            | Some ext => String.eqb ext ".bc"
            | None => false
            end).
  - eexists [_]. reflexivity.
  - exists []. rewrite add_trace_nil. reflexivity.
Qed.


Lemma domain_fits (size : Z) (dir text : string) :
  strlen dir + strlen text < size ->
  snprintf_at (snprintf size dir) size (strlen dir) text = Some (dir +:+ text).
Proof.
  intros Hlen. pose proof (strlen_nonneg text).
  rewrite snprintf_fits by lia. apply snprintf_at_fits. exact Hlen.
Qed.

Lemma snprintf_at_cut (fname : string) (size : Z) (text : string) :
  strlen fname < size ->
  snprintf_at fname size (strlen fname) text
    = Some (snprintf size (fname +:+ text)).
Proof.
  intros Hlen. unfold snprintf_at, snprintf.
  pose proof (strlen_nonneg fname).
  rewrite (proj2 (Z.ltb_ge _ _)) by lia.
  rewrite (proj2 (Z.eqb_neq _ _)) by lia.
  rewrite chars_app, take_app_ge by (rewrite length_chars; unfold strlen in *; lia).
  rewrite str_app, str_chars, length_chars. unfold strlen.
  repeat f_equal. lia.
Qed.

(** A lookup below [sieve_dir] whose directory part fits the buffer. *)
Lemma sieve_find_script_run o (dir : string)
    (user domain script : option string) (fname : string) (size : Z) w :
  sieve_usehomedir cfg = false ->
  sieve_dir cfg = Some dir ->
  (user = None -> script <> None) ->
  (forall u, user = Some u -> strlen u <= 900) ->
  strlen (dir +:+ domain_dir cfg domain +:+ user_dir cfg user) < size ->
  exists t : list event,
    sieve_find_script cfg o user domain script fname size w =
      Some ((0, snprintf size (script_path cfg dir domain user script)),
            add_trace w t) /\
    (strlen (script_path cfg dir domain user script) < size ->
     t = lookup_events o user script
           (script_path cfg dir domain user script)).
Proof.
  intros Hhome Hdir Hsome Hu Hfit.
  unfold sieve_find_script.
  assert (Hboth : negb (is_Some_b user) && negb (is_Some_b script) = false).
  { destruct user; [reflexivity|]. destruct script; [reflexivity|].
    exfalso. apply Hsome; reflexivity. }
  rewrite Hboth.
  assert (Hlong : match user with Some u => 900 <? strlen u | None => false end
               = false).
  { destruct user as [u|]; [|reflexivity]. apply Z.ltb_ge. apply Hu.
    reflexivity. }
  rewrite Hlong, Hhome.
  unfold sieve_dir_global. rewrite Hhome, Hdir.
  unfold nonnull at 1. unfold bind at 1, ret at 1. cbv beta iota zeta.
  assert (Hpath : script_path cfg dir domain user script =
                  ((dir +:+ domain_dir cfg domain) +:+ user_dir cfg user)
                    +:+ script_file script).
  { unfold script_path. rewrite !string_app_assoc. reflexivity. }
  rewrite Hpath. clear Hpath.
  rewrite <- string_app_assoc in Hfit.
  set (domtext := domain_dir cfg domain) in *.
  set (usertext := user_dir cfg user) in *.
  pose proof (strlen_nonneg dir). pose proof (strlen_nonneg domtext).
  pose proof (strlen_nonneg usertext).
  pose proof (strlen_nonneg (script_file script)).
  assert (Hfit2 : strlen dir + strlen domtext + strlen usertext < size).
  { rewrite !strlen_app in Hfit. exact Hfit. }
  match goal with
  | |- exists t, bind ?m _ w = _ /\ _ =>
      assert (Hdom : m w = Some ((dir +:+ domtext, strlen dir + strlen domtext), w))
  end.
  { subst domtext. unfold domain_dir in *. destruct domain as [d|].
    - rewrite domain_fits by lia. unfold_m. reflexivity.
    - rewrite snprintf_fits by lia. rewrite string_app_nil_r.
      change (strlen "") with 0. rewrite Z.add_0_r. reflexivity. }
  rewrite (bind_run _ _ _ _ _ Hdom). cbn [fst snd]. clear Hdom.
  rewrite <- (strlen_app dir domtext).
  destruct user as [u|].
  - change ("/" +:+ String (dir_hash_c u (config_fulldirhash cfg)) "" +:+ "/"
              +:+ u +:+ "/") with usertext.
    rewrite snprintf_at_fits by (rewrite ?strlen_app; lia).
    unfold nonnull at 1. unfold bind at 1, ret at 1. cbv beta iota.
    destruct script as [name|].
    + rewrite <- strlen_app. rewrite snprintf_at_cut by exact Hfit.
      unfold nonnull at 1. unfold bind at 1, ret at 1. cbv beta iota.
      cbn [script_file].
      destruct (rebuild_if_bc_run
                  (snprintf size (((dir +:+ domtext) +:+ usertext) +:+ name
                                    +:+ ".bc")) w) as [t Ht].
      exists t. split; [exact Ht|]. intros Hall.
      rewrite snprintf_fits in Ht by exact Hall.
      rewrite <- string_app_assoc in Ht. rewrite rebuild_if_bc_bc in Ht.
      injection Ht as Ht. unfold lookup_events.
      rewrite <- string_app_assoc.
      apply app_inv_head in Ht. symmetry. exact Ht.
    + exists (lookup_events o (Some u) None
                (snprintf size (((dir +:+ domtext) +:+ usertext)
                                  +:+ "defaultbc"))).
      split.
      * unfold_m. cbn [script_file]. unfold lookup_events.
        change (strlcat ?a ?b size) with (snprintf size (a +:+ b)).
        destruct (o_getdefaultbcfname o _) eqn:Hbc; rewrite ?add_trace_app;
          reflexivity.
      * intros Hall. cbn [script_file] in *.
        rewrite snprintf_fits by exact Hall. reflexivity.
  - destruct script as [name|]; [|exfalso; apply Hsome; reflexivity].
    unfold nonnull at 1. unfold bind at 1, ret at 1. cbv beta iota.
    change "/global/" with usertext.
    rewrite strlcat_fits by (rewrite ?strlen_app; lia).
    rewrite <- strlen_app. rewrite snprintf_at_cut by exact Hfit.
    unfold nonnull at 1. unfold bind at 1, ret at 1. cbv beta iota.
    cbn [script_file].
    destruct (rebuild_if_bc_run
                (snprintf size (((dir +:+ domtext) +:+ usertext) +:+ name
                                  +:+ ".bc")) w) as [t Ht].
    exists t. split; [exact Ht|]. intros Hall.
    rewrite snprintf_fits in Ht by exact Hall.
    rewrite <- string_app_assoc in Ht. rewrite rebuild_if_bc_bc in Ht.
    injection Ht as Ht. unfold lookup_events.
    rewrite <- string_app_assoc.
    apply app_inv_head in Ht. symmetry. exact Ht.
Qed.

Lemma rebuild_if_bc_inv (fname : string) w (r : Z) (f : string) w' :
  rebuild_if_bc fname w = Some ((r, f), w') -> r = 0 /\ f = fname.
Proof.
  destruct (rebuild_if_bc_run fname w) as [t Ht]. rewrite Ht.
  intros [= <- <- _]. split; reflexivity.
Qed.

Lemma nonnull_inv {A} (p : option A) w (a : A) w' :
  nonnull p w = Some (a, w') -> p = Some a /\ w' = w.
Proof.
  destruct p as [x|]; [|discriminate]. intros [= <- <-]. split; reflexivity.
Qed.

Lemma sieve_find_script_inv o (user domain script : option string)
    (fname : string) (size : Z) w (r : Z) (f : string) w' :
  sieve_find_script cfg o user domain script fname size w = Some ((r, f), w') ->
  (1 <= size -> strlen fname < size -> strlen f < size) /\
  ((r = -1 /\ f = fname /\
    (w' = w \/ exists u, user = Some u /\ w' = add_trace w [Getpwnam u]) /\
    ((user = None /\ script = None) \/
     exists u, user = Some u /\
       (900 < strlen u \/
        (sieve_usehomedir cfg = true /\ o_getpwnam o u = None)))) \/
   (r = 0 /\
    (is_Some user \/ is_Some script) /\
    forall u, user = Some u ->
      strlen u <= 900 /\
      (sieve_usehomedir cfg = true -> is_Some (o_getpwnam o u)))).
Proof.
  unfold sieve_find_script. intros Hrun.
  destruct (negb (is_Some_b user) && negb (is_Some_b script)) eqn:Hboth.
  { injection Hrun as <- <- <-. split; [intros _ Hf; exact Hf|]. left.
    split; [reflexivity|]. split; [reflexivity|]. split; [left; reflexivity|].
    left. destruct user, script; try discriminate. split; reflexivity. }
  assert (Hsome : is_Some user \/ is_Some script).
  { destruct user; [left; eexists; reflexivity|].
    destruct script; [right; eexists; reflexivity | discriminate]. }
  destruct (match user with Some u => 900 <? strlen u | None => false end)
    eqn:Hlong.
  { injection Hrun as <- <- <-. split; [intros _ Hf; exact Hf|]. left.
    split; [reflexivity|]. split; [reflexivity|]. split; [left; reflexivity|].
    right. destruct user as [u|]; [|discriminate]. exists u.
    split; [reflexivity|]. left. apply Z.ltb_lt. exact Hlong. }
  assert (Hshort : forall u, user = Some u -> strlen u <= 900).
  { intros u ->. apply Z.ltb_ge. exact Hlong. }
  assert (Hdirbranch :
    (sieve_usehomedir cfg = false \/ user = None) ->
    forall m : M (Z * string),
      m w = Some ((r, f), w') ->
      (forall (r0 : Z) (f0 : string) w0,
          m w = Some ((r0, f0), w0) ->
          r0 = 0 /\ (1 <= size -> strlen f0 < size)) ->
      (1 <= size -> strlen fname < size -> strlen f < size) /\
      ((r = -1 /\ f = fname /\
        (w' = w \/ exists u, user = Some u /\ w' = add_trace w [Getpwnam u]) /\
        ((user = None /\ script = None) \/
         exists u, user = Some u /\
           (900 < strlen u \/
            (sieve_usehomedir cfg = true /\ o_getpwnam o u = None)))) \/
       (r = 0 /\ (is_Some user \/ is_Some script) /\
        forall u, user = Some u ->
          strlen u <= 900 /\
          (sieve_usehomedir cfg = true -> is_Some (o_getpwnam o u))))).
  { intros Hmode m Hm Hinv. destruct (Hinv r f w' Hm) as [-> Hb].
    split; [intros Hs _; exact (Hb Hs)|]. right. split; [reflexivity|].
    split; [exact Hsome|]. intros u Hu. split; [exact (Hshort u Hu)|].
    intros Hh. destruct Hmode as [Hm0|Hm0]; congruence. }
  assert (Hdir : forall (r0 : Z) (f0 : string) w0,
    bind (nonnull (sieve_dir_global cfg))
      (fun dir =>
         let fname := snprintf size dir in
         let len := strlen dir in
         bind
           match domain with
           | Some d =>
               let dhash := dir_hash_c d (config_fulldirhash cfg) in
               let text := FNAME_DOMAINDIR +:+ String dhash "" +:+ "/" +:+ d in
               bind (nonnull (snprintf_at fname size len text))
                 (fun f => ret (f, len + strlen text))
           | None => ret (fname, len)
           end
           (fun fl =>
              let fname := fl.1 in
              let len := fl.2 in
              match user with
              | Some u =>
                  let hash := dir_hash_c u (config_fulldirhash cfg) in
                  let text := "/" +:+ String hash "" +:+ "/" +:+ u +:+ "/" in
                  bind (nonnull (snprintf_at fname size len text))
                    (fun f =>
                       let fname := f in
                       let len := len + strlen text in
                       match script with
                       | Some name =>
                           bind (nonnull (snprintf_at fname size len
                                            (name +:+ ".bc")))
                             (fun f => rebuild_if_bc f)
                       | None =>
                           let fname := strlcat fname "defaultbc" size in
                           bind (emit (GetDefaultBc fname))
                             (fun _ =>
                                bind
                                  match o_getdefaultbcfname o fname with
                                  | Some bc_fname =>
                                      emit (SieveRebuild bc_fname)
                                  | None => ret tt
                                  end
                                  (fun _ => ret (0, fname)))
                       end)
              | None =>
                  let len := strlen fname + strlen "/global/" in
                  let fname := strlcat fname "/global/" size in
                  bind (nonnull script)
                    (fun name =>
                       bind (nonnull (snprintf_at fname size len
                                        (name +:+ ".bc")))
                         (fun f => rebuild_if_bc f))
              end)) w = Some ((r0, f0), w0) ->
    r0 = 0 /\ (1 <= size -> strlen f0 < size)).
  { clear Hrun. intros r0 f0 w0 Hrun.
    unfold bind at 1 in Hrun.
    destruct (nonnull (sieve_dir_global cfg) w) as [[dir w1]|] eqn:Hd;
      [|discriminate].
    apply nonnull_inv in Hd as [_ ->]. cbv zeta in Hrun.
    unfold bind at 1 in Hrun.
    match type of Hrun with
    | match ?m w with _ => _ end = _ =>
        destruct (m w) as [[[f1 len1] w1]|] eqn:Hdom; [|discriminate];
        assert (Hf1 : w1 = w /\ (1 <= size ->
                        strlen f1 < size /\ strlen f1 <= len1))
    end.
    { destruct domain as [d|].
      - unfold bind at 1 in Hdom.
        match type of Hdom with
        | match nonnull ?p w with _ => _ end = _ =>
            destruct (nonnull p w) as [[f2 w2]|] eqn:Hat; [|discriminate];
            apply nonnull_inv in Hat as [Hat ->]
        end.
        injection Hdom as <- <- <-. split; [reflexivity|]. intros Hs.
        destruct (strlen_snprintf size dir Hs) as [Ha Hb].
        apply (snprintf_at_bound _ _ _ _ _ Hat); lia.
      - injection Hdom as <- <- <-. split; [reflexivity|]. intros Hs.
        apply (strlen_snprintf size dir Hs). }
    destruct Hf1 as [-> Hf1]. cbn [fst snd] in Hrun.
    destruct user as [u|].
    - unfold bind at 1 in Hrun.
      match type of Hrun with
      | match nonnull ?p w with _ => _ end = _ =>
          destruct (nonnull p w) as [[f2 w2]|] eqn:Hat; [|discriminate];
          apply nonnull_inv in Hat as [Hat ->]
      end.
      destruct script as [name|].
      + unfold bind at 1 in Hrun.
        match type of Hrun with
        | match nonnull ?p w with _ => _ end = _ =>
            destruct (nonnull p w) as [[f3 w3]|] eqn:Hat3; [|discriminate];
            apply nonnull_inv in Hat3 as [Hat3 ->]
        end.
        apply rebuild_if_bc_inv in Hrun as [-> ->]. split; [reflexivity|].
        intros Hs. destruct (Hf1 Hs) as [Ha Hb].
        destruct (snprintf_at_bound _ _ _ _ _ Hat Hb Ha) as [Hc Hd].
        apply (snprintf_at_bound _ _ _ _ _ Hat3); lia.
      + unfold_m. destruct (o_getdefaultbcfname o _);
          injection Hrun as <- <- _; (split; [reflexivity|]); intros Hs;
          apply (strlen_strlcat _ _ _ Hs).
    - unfold bind at 1 in Hrun.
      destruct (nonnull script w) as [[name w2]|] eqn:Hn; [|discriminate].
      apply nonnull_inv in Hn as [_ ->].
      unfold bind at 1 in Hrun.
      match type of Hrun with
      | match nonnull ?p w with _ => _ end = _ =>
          destruct (nonnull p w) as [[f3 w3]|] eqn:Hat3; [|discriminate];
          apply nonnull_inv in Hat3 as [Hat3 ->]
      end.
      apply rebuild_if_bc_inv in Hrun as [-> ->]. split; [reflexivity|].
      intros Hs. destruct (strlen_strlcat f1 "/global/" size Hs) as [Ha Hb].
      apply (snprintf_at_bound _ _ _ _ _ Hat3); lia. }
  destruct (sieve_usehomedir cfg) eqn:Hhome.
  - destruct user as [u|].
    + unfold bind at 1 in Hrun. unfold emit at 1 in Hrun. cbv beta iota in Hrun.
      destruct (o_getpwnam o u) as [pw_dir|] eqn:Hpw.
      * apply rebuild_if_bc_inv in Hrun as [-> ->].
        split; [intros Hs _; apply (strlen_snprintf _ _ Hs)|].
        right. split; [reflexivity|]. split; [exact Hsome|].
        intros u' [= <-]. split; [apply Hshort; reflexivity|].
        intros _. rewrite Hpw. eexists; reflexivity.
      * injection Hrun as <- <- <-. split; [intros _ Hf; exact Hf|]. left.
        split; [reflexivity|]. split; [reflexivity|].
        split; [right; exists u; split; reflexivity|].
        right. exists u. split; [reflexivity|]. right.
        split; [reflexivity | exact Hpw].
    + apply (Hdirbranch (or_intror eq_refl) _ Hrun). exact Hdir.
  - apply (Hdirbranch (or_introl eq_refl) _ Hrun). exact Hdir.
Qed.


Lemma strlen_script_dir (dir : string) (domain user script : option string) :
  strlen (dir +:+ domain_dir cfg domain +:+ user_dir cfg user)
  <= strlen (script_path cfg dir domain user script).
Proof.
  unfold script_path. rewrite !strlen_app.
  pose proof (strlen_nonneg (script_file script)). lia.
Qed.

(** X3.  Where [sieve_find_script] puts a script.  With the scripts below
    [sieve_dir] (not in the home directories), a user name of at most 900
    bytes and a path that fits the buffer, the lookup returns 0 and leaves
    in [fname] the path of the layout: [sieve_dir], the domain part if
    there is a domain, then the hashed directory of the user or [global],
    then [<script>.bc], or [defaultbc] when no script is named.  A named
    script is handed to [sieve_rebuild] under exactly that path; for the
    default script the bytecode file that [sieve_getdefaultbcfname] finds,
    if any, is rebuilt. *)
Theorem sieve_find_script_layout o (dir : string)
    (user domain script : option string) (fname : string) (size : Z) w :
  sieve_usehomedir cfg = false ->
  sieve_dir cfg = Some dir ->
  (user = None -> script <> None) ->
  (forall u, user = Some u -> strlen u <= 900) ->
  strlen (script_path cfg dir domain user script) < size ->
  sieve_find_script cfg o user domain script fname size w =
    Some ((0, script_path cfg dir domain user script),
          add_trace w
            (lookup_events o user script
               (script_path cfg dir domain user script))).
Proof.
  intros Hhome Hdir Hsome Hu Hfit.
  pose proof (strlen_script_dir dir domain user script) as Hle.
  destruct (sieve_find_script_run o dir user domain script fname size w
              Hhome Hdir Hsome Hu ltac:(lia)) as (t & Hrun & Ht).
  rewrite Hrun, (Ht Hfit), snprintf_fits by exact Hfit. reflexivity.
Qed.

(** X4.  A script name that is too long is cut, not refused: with the
    scripts below [sieve_dir], as soon as the directory part of the path
    (down to the directory of the user, or [global]) fits the buffer, the
    lookup returns 0 for every script name, and [fname] holds the path of
    the layout cut to the [size - 1] bytes that the buffer holds. *)
Theorem sieve_find_script_cuts_name o (dir : string)
    (user domain script : option string) (fname : string) (size : Z) w :
  sieve_usehomedir cfg = false ->
  sieve_dir cfg = Some dir ->
  (user = None -> script <> None) ->
  (forall u, user = Some u -> strlen u <= 900) ->
  strlen (dir +:+ domain_dir cfg domain +:+ user_dir cfg user) < size ->
  exists w',
    sieve_find_script cfg o user domain script fname size w =
      Some ((0, str (take (Z.to_nat (size - 1))
                      (chars (script_path cfg dir domain user script)))),
            w').
Proof.
  intros Hhome Hdir Hsome Hu Hfit.
  destruct (sieve_find_script_run o dir user domain script fname size w
              Hhome Hdir Hsome Hu Hfit) as (t & Hrun & _).
  exists (add_trace w t). exact Hrun.
Qed.

(** X6.  When [sieve_find_script] refuses.  It returns -1, with [fname]
    untouched and nothing rebuilt, when neither a user nor a script is
    given, when the user name is longer than 900 bytes, and, with the
    scripts in the home directories, when [getpwnam] does not know the
    user (the only thing done is that lookup).  These are the only
    refusals: every other run that returns, returns 0. *)
Theorem sieve_find_script_refuses o (domain : option string)
    (fname : string) (size : Z) w :
  sieve_find_script cfg o None domain None fname size w
    = Some ((-1, fname), w) /\
  (forall (u : string) (script : option string),
      900 < strlen u ->
      sieve_find_script cfg o (Some u) domain script fname size w
        = Some ((-1, fname), w)) /\
  (forall (u : string) (script : option string),
      strlen u <= 900 -> sieve_usehomedir cfg = true ->
      o_getpwnam o u = None ->
      sieve_find_script cfg o (Some u) domain script fname size w
        = Some ((-1, fname), add_trace w [Getpwnam u])) /\
  (forall (user script : option string) (r : Z) (f : string) w',
      sieve_find_script cfg o user domain script fname size w
        = Some ((r, f), w') ->
      r <> 0 ->
      r = -1 /\ f = fname /\
      ((user = None /\ script = None) \/
       exists u, user = Some u /\
         (900 < strlen u \/
          (sieve_usehomedir cfg = true /\ o_getpwnam o u = None)))).
Proof.
  split; [reflexivity|]. split; [|split].
  - intros u script Hlong. unfold sieve_find_script.
    cbn [is_Some_b negb andb]. rewrite (proj2 (Z.ltb_lt _ _) Hlong).
    reflexivity.
  - intros u script Hshort Hhome Hpw. unfold sieve_find_script.
    cbn [is_Some_b negb andb]. rewrite (proj2 (Z.ltb_ge _ _) Hshort).
    rewrite Hhome. unfold_m. rewrite Hpw. reflexivity.
  - intros user script r f w' Hrun Hr.
    destruct (sieve_find_script_inv _ _ _ _ _ _ _ _ _ _ Hrun)
      as [_ [(-> & -> & _ & Hc) | (-> & _)]]; [|contradiction].
    split; [reflexivity|]. split; [reflexivity | exact Hc].
Qed.

(** X7.  With the scripts in the home directories ([sieveusehomedir]),
    [setup_sieve] leaves [sieve_dir] NULL, and a lookup without a user, a
    global script, gives that NULL to [strlcpy]: such a lookup has no
    defined result.  This is what an [include :global] of a script name
    without ["../"] runs into. *)
Theorem global_script_in_homedir_mode o sd (domain : option string)
    (script : string) (fname : string) (size : Z) w :
  sieve_usehomedir cfg = true ->
  sieve_find_script cfg o None domain (Some script) fname size w = None /\
  (strstr script "../" = false ->
   getinclude cfg o sd script true fname size w = None).
Proof.
  intros Hhome.
  assert (Hfind : forall domain fname,
             sieve_find_script cfg o None domain (Some script) fname size w
             = None).
  { intros domain' fname'. unfold sieve_find_script. cbn [is_Some_b negb andb].
    rewrite Hhome. unfold sieve_dir_global. rewrite Hhome. reflexivity. }
  split; [apply Hfind|].
  intros Hdots. unfold getinclude. rewrite Hdots.
  unfold bind at 1. rewrite Hfind. reflexivity.
Qed.

(** X8.  An [include :global] in a virtual domain looks in the domain
    first: the path is computed below the domain directory and handed to
    [sieve_rebuild], then [stat] is asked; when the file is there this is
    the result, when it is not the server-wide [global] directory is used
    instead (and that path is handed to [sieve_rebuild] in turn).  The
    result is 0 in both cases. *)
Theorem getinclude_global_fallback o sd (dir d script : string)
    (fname : string) (size : Z) w :
  strstr script "../" = false ->
  sieve_usehomedir cfg = false ->
  sieve_dir cfg = Some dir ->
  mbname_domain (sd_mbname sd) = Some d ->
  strlen (script_path cfg dir (Some d) None (Some script)) < size ->
  getinclude cfg o sd script true fname size w =
    Some (if o_stat o (script_path cfg dir (Some d) None (Some script))
          then ((0, script_path cfg dir (Some d) None (Some script)),
                add_trace w
                  [SieveRebuild
                     (script_path cfg dir (Some d) None (Some script));
                   Stat (script_path cfg dir (Some d) None (Some script))])
          else ((0, script_path cfg dir None None (Some script)),
                add_trace w
                  [SieveRebuild
                     (script_path cfg dir (Some d) None (Some script));
                   Stat (script_path cfg dir (Some d) None (Some script));
                   SieveRebuild
                     (script_path cfg dir None None (Some script))])).
Proof.
  intros Hdots Hhome Hdir Hd Hfit.
  assert (Hfit' : strlen (script_path cfg dir None None (Some script)) < size).
  { revert Hfit. unfold script_path. rewrite !strlen_app.
    pose proof (strlen_nonneg (domain_dir cfg (Some d))).
    change (strlen (domain_dir cfg None)) with 0. lia. }
  unfold getinclude. rewrite Hdots, Hd.
  pose proof (strlen_script_dir dir (Some d) None (Some script)) as Hle.
  pose proof (strlen_script_dir dir None None (Some script)) as Hle'.
  destruct (sieve_find_script_run o dir None (Some d) (Some script) fname
              size w Hhome Hdir ltac:(discriminate) ltac:(discriminate)
              ltac:(lia)) as (t & Hrun & Ht).
  rewrite (Ht Hfit), snprintf_fits in Hrun by exact Hfit.
  rewrite (bind_run _ _ _ _ _ Hrun).
  cbn [fst snd is_Some_b andb Z.eqb lookup_events]. unfold_m.
  destruct (o_stat o _); cbn [negb].
  - rewrite !add_trace_app. reflexivity.
  - match goal with
    | |- sieve_find_script _ _ _ _ _ ?f _ ?w1 = _ =>
        destruct (sieve_find_script_run o dir None None (Some script) f
                    size w1 Hhome Hdir ltac:(discriminate)
                    ltac:(discriminate) ltac:(lia)) as (t' & Hrun' & Ht')
    end.
    rewrite (Ht' Hfit'), snprintf_fits in Hrun' by exact Hfit'.
    rewrite Hrun'. cbn [lookup_events]. rewrite !add_trace_app. reflexivity.
Qed.

Lemma strrchr_suffix (a b : string) (c : ascii) :
  strrchr b c = None -> strrchr (a +:+ String c b) c = Some (String c b).
Proof.
  intros Hb. induction a as [|x a IH].
  - change ("" +:+ String c b) with (String c b). cbn [strrchr].
    rewrite Hb, Ascii.eqb_refl. reflexivity.
  - change (String x a +:+ String c b) with (String x (a +:+ String c b)).
    cbn [strrchr]. rewrite IH. reflexivity.
Qed.

(** X9.  Scripts in the home directories.  With [sieveusehomedir], for a
    user that [getpwnam] knows and a path that fits the buffer, the script
    that a delivery runs is [.sieve] in the home directory of the user
    (the domain plays no part), and it is not handed to [sieve_rebuild];
    a named script is looked up there under its bare name, and one whose
    name ends in [.bc] is handed to [sieve_rebuild]. *)
Theorem sieve_find_script_in_homedir o (u pw_dir : string)
    (domain : option string) (fname : string) (size : Z) w :
  sieve_usehomedir cfg = true ->
  strlen u <= 900 ->
  o_getpwnam o u = Some pw_dir ->
  (strlen (pw_dir +:+ "/" +:+ ".sieve") < size ->
   sieve_find_script cfg o (Some u) domain None fname size w =
     Some ((0, pw_dir +:+ "/" +:+ ".sieve"), add_trace w [Getpwnam u])) /\
  (forall name : string,
      strlen (pw_dir +:+ "/" +:+ name +:+ ".bc") < size ->
      sieve_find_script cfg o (Some u) domain (Some (name +:+ ".bc")) fname
        size w =
        Some ((0, pw_dir +:+ "/" +:+ name +:+ ".bc"),
              add_trace w
                [Getpwnam u;
                 SieveRebuild (pw_dir +:+ "/" +:+ name +:+ ".bc")])).
Proof.
  intros Hhome Hshort Hpw. split.
  - intros Hfit. unfold sieve_find_script. cbn [is_Some_b negb andb].
    rewrite (proj2 (Z.ltb_ge _ _) Hshort), Hhome. unfold_m. rewrite Hpw.
    cbn [default from_option id]. rewrite snprintf_fits by exact Hfit.
    unfold rebuild_if_bc.
    replace (pw_dir +:+ "/" +:+ ".sieve")
      with ((pw_dir +:+ "/") +:+ String "."%char "sieve")
      by (rewrite string_app_assoc; reflexivity).
    rewrite strrchr_suffix by reflexivity.
    change (String.eqb (String "."%char "sieve") ".bc") with false.
    unfold_m. reflexivity.
  - intros name Hfit. unfold sieve_find_script. cbn [is_Some_b negb andb].
    rewrite (proj2 (Z.ltb_ge _ _) Hshort), Hhome. unfold_m. rewrite Hpw.
    cbn [default from_option id]. rewrite snprintf_fits by exact Hfit.
    replace (pw_dir +:+ "/" +:+ name +:+ ".bc")
      with (((pw_dir +:+ "/") +:+ name) +:+ ".bc")
      by (rewrite !string_app_assoc; reflexivity).
    rewrite rebuild_if_bc_bc, add_trace_app. reflexivity.
Qed.

End ScriptFacts.

(** ** Includes *)





Section IncludeFacts.

Context `{Constants} `{Library}.
Context {hdrcache : Type} `{HeaderCache hdrcache}.
Context {store : Type} `{MailStore (hdrcache := hdrcache) store}.
Variable cfg : config.

Implicit Types (w : world (hdrcache := hdrcache) (store := store)).
Implicit Types (o : oracle) (sd : script_data_t).



End IncludeFacts.

(** ** What a redirect sends *)

Module LineFacts.

Local Arguments Ascii.eqb : simpl never.

Lemma concat_lines_from (s : list ascii) : forall cur,
  concat_lines (lines_from cur s) = str (rev cur ++ s).
Proof.
  induction s as [|c s IH]; intros cur; cbn [lines_from].
  - rewrite app_nil_r. destruct cur as [|x cur]; [reflexivity|].
    cbn [concat_lines foldr]. apply string_app_nil_r.
  - destruct (Ascii.eqb c LF) eqn:Hc.
    + cbn [concat_lines foldr]. fold (concat_lines (lines_from [] s)).
      rewrite IH. cbn [rev app]. rewrite <- str_app.
      rewrite <- app_assoc. reflexivity.
    + rewrite IH. cbn [rev]. rewrite <- app_assoc. reflexivity.
Qed.

Lemma lines_from_line (t rest : list ascii) : forall cur,
  existsb (fun x => Ascii.eqb x LF) t = false ->
  lines_from cur (t ++ LF :: rest) =
    str (rev cur ++ t ++ [LF]) :: lines_from [] rest.
Proof.
  induction t as [|c t IH]; intros cur Ht.
  - cbn [app lines_from]. rewrite Ascii.eqb_refl. reflexivity.
  - cbn [existsb] in Ht. apply orb_false_iff in Ht as [Hc Ht].
    cbn [app lines_from]. rewrite Hc. rewrite IH by exact Ht.
    cbn [rev]. rewrite <- !app_assoc. reflexivity.
Qed.

Lemma header_line_inv (l : string) :
  header_line l = true ->
  exists t, chars l = t ++ [LF] /\
            existsb (fun x => Ascii.eqb x LF) t = false /\
            strip_prefix CRLF l = None.
Proof.
  unfold header_line. intros Hl. apply andb_true_iff in Hl as [Hl Hn].
  destruct (rev (chars l)) as [|c t] eqn:Hrev; [discriminate|].
  apply andb_true_iff in Hl as [Hc Ht]. apply Ascii.eqb_eq in Hc. subst c.
  exists (rev t). split; [|split].
  - rewrite <- (rev_involutive (chars l)), Hrev. reflexivity.
  - apply negb_true_iff in Ht. rewrite existsb_rev. exact Ht.
  - destruct (strip_prefix CRLF l); [discriminate | reflexivity].
Qed.

Lemma strip_return_path_body (lines : list string) :
  strip_return_path true lines = concat_lines lines.
Proof.
  induction lines as [|l lines IH]; [reflexivity|].
  cbn [strip_return_path concat_lines foldr orb negb andb]. rewrite IH.
  reflexivity.
Qed.

(** The copy loop drops the Return-Path lines of the header and nothing
    else. *)
Lemma strip_return_path_message (hl : list string) (body : string) :
  Forall (fun l => header_line l = true) hl ->
  strip_return_path false
    (lines_from [] (chars (concat_lines hl +:+ CRLF +:+ body))) =
  concat_lines (filter (fun l => is_return_path l = false) hl)
    +:+ CRLF +:+ body.
Proof.
  induction 1 as [|l hl Hl _ IH].
  - cbn [concat_lines foldr filter]. change ("" +:+ ?x) with x.
    rewrite chars_app. change (chars CRLF) with ([CR] ++ LF :: []).
    rewrite <- app_assoc. cbn [app].
    change (CR :: LF :: chars body) with ([CR] ++ LF :: chars body).
    rewrite lines_from_line by reflexivity.
    cbn [rev app strip_return_path].
    change (str [CR; LF]) with CRLF.
    change (is_Some_b (strip_prefix CRLF CRLF)) with true.
    cbn [orb negb andb]. rewrite strip_return_path_body, concat_lines_from.
    cbn [rev app]. rewrite str_chars. reflexivity.
  - destruct (header_line_inv l Hl) as (t & Hchars & Ht & Hcrlf).
    cbn [concat_lines foldr]. fold (concat_lines hl).
    rewrite string_app_assoc, chars_app, Hchars, <- app_assoc. cbn [app].
    rewrite lines_from_line by exact Ht. cbn [rev app].
    rewrite <- Hchars, str_chars. cbn [strip_return_path].
    rewrite Hcrlf. cbn [is_Some_b orb negb andb]. rewrite IH.
    rewrite filter_cons. fold (is_return_path l).
    destruct (is_return_path l) eqn:Hrp.
    + destruct (decide (true = false)) as [Hd|_]; [discriminate|].
      reflexivity.
    + destruct (decide (false = false)) as [_|Hd]; [|congruence].
      cbn [concat_lines foldr].
      fold (concat_lines (filter (fun l => is_return_path l = false) hl)).
      rewrite string_app_assoc. reflexivity.
Qed.

End LineFacts.

Section ForwardFacts.

Context `{Constants} `{Library}.
Context {hdrcache : Type} `{HeaderCache hdrcache}.
Context {store : Type} `{MailStore (hdrcache := hdrcache) store}.
Variable cfg : config.

Implicit Types (w : world (hdrcache := hdrcache) (store := store)).
Implicit Types (o : oracle) (sd : script_data_t).

(** X10.  What a redirect sends.  For a redirect to an address (not to a
    list), without an SRS engine and with the transport open, [send_forward]
    hands exactly one message to the transport, for the one recipient
    [rc->addr] and from the return path of the message ([<>] when it is
    NULL or empty), and returns what the transport returns.  The message is
    the original with the Return-Path fields of its header left out: every
    other header line, the empty line and the whole body are passed on
    byte for byte, also a body line that starts with [Return-Path:]. *)
Theorem send_forward_strips_return_path o (rc : sieve_redirect_context_t)
    (ctx : sieve_interp_ctx) (return_path : option string)
    (hl : list string) (body : string) w :
  o_srs_engine o = None ->
  rc_is_ext_list rc = false ->
  o_smtp_open o = 0 ->
  Forall (fun l => header_line l = true) hl ->
  send_forward cfg o rc ctx return_path
    (concat_lines hl +:+ CRLF +:+ body) w =
  Some (o_smtp_send o,
        add_trace w
          [SmtpSend
             {| sm_auth := ctx_userid ctx;
                sm_dsn := Some (rc_dsn_notify rc, rc_dsn_ret rc,
                                rc_deliverby rc);
                sm_env :=
                  {| env_from := match return_path with
                                 | Some p => if String.eqb p "" then "<>" else p
                                 | None => "<>"
                                 end;
                     env_rcpts := [rc_addr rc] |};
                sm_msg :=
                  concat_lines
                    (filter (fun l => is_return_path l = false) hl)
                  +:+ CRLF +:+ body |}]).
Proof.
  intros Hsrs Hlist Hopen Hhl.
  unfold send_forward, sieve_srs_forward. rewrite Hsrs, Hlist.
  unfold_m. rewrite smtp_submit_run, Hopen. cbn [Z.eqb].
  rewrite LineFacts.strip_return_path_message by exact Hhl. reflexivity.
Qed.

(** X11.  A message without a Message-ID is redirected on every run: the
    handler never asks the ledger and never marks it, whether the send
    works or not (and it does not need the owner's userid, which only the
    ledger key uses); when it returns [SIEVE_OK] exactly one message was
    handed to the transport. *)
Theorem redirect_without_id_not_tracked o (rc : sieve_redirect_context_t)
    (ctx : sieve_interp_ctx) sd (mdata : deliver_data_t) w :
  m_id (dd_m mdata) = None ->
  exists (r : Z) (e : option string) w' (t : list event),
    sieve_redirect cfg o rc ctx sd mdata w = Some ((r, e), w') /\
    w_trace w' = w_trace w ++ t /\
    w_dup w' = w_dup w /\
    (r = SIEVE_OK \/ r = SIEVE_FAIL) /\
    (r = SIEVE_OK -> exists job, sends t = [SmtpSend job]).
Proof.
  intros Hid. unfold sieve_redirect. rewrite Hid.
  destruct (redirect_send_run cfg o rc ctx sd mdata None w)
    as (r & e & w' & t & Hrun & Ht & Hcase).
  exists r, e, w', t. split; [exact Hrun|]. split; [exact Ht|].
  destruct Hcase as [(-> & _ & Hdup & Hjob) | (-> & Hdup & _)].
  - split; [exact Hdup|]. split; [left; reflexivity|]. intros _. exact Hjob.
  - split; [exact Hdup|]. split; [right; reflexivity|]. intros Hr.
    exfalso. apply SIEVE_FAIL_nonzero. exact Hr.
Qed.

(** X12.  A redirect to a list (built with DAV).  When the address book
    of the list is not found, or the CardDAV database of the user cannot
    be opened, [send_forward] fails with [SIEVE_FAIL] and hands nothing to
    the transport.  Otherwise the recipients are the e-mail addresses of
    the cards of that address book, in the order of the cards, a card
    without addresses giving none; with the session open, one message
    goes out to them. *)
Theorem redirect_to_list o (rc : sieve_redirect_context_t)
    (ctx : sieve_interp_ctx) (return_path : option string) (file : string) w :
  with_dav cfg = true ->
  rc_is_ext_list rc = true ->
  (get_addrbook_mboxname (w_store w) (rc_addr rc) (ctx_userid ctx) = None \/
   o_carddav_open o = false ->
   exists t : list event,
     send_forward cfg o rc ctx return_path file w
       = Some (SIEVE_FAIL, add_trace w t) /\
     sends t = []) /\
  (forall abook : string,
      get_addrbook_mboxname (w_store w) (rc_addr rc) (ctx_userid ctx)
        = Some abook ->
      o_carddav_open o = true ->
      o_smtp_open o = 0 ->
      exists (t : list event) (job : smtp_job),
        send_forward cfg o rc ctx return_path file w
          = Some (o_smtp_send o, add_trace w (t ++ [SmtpSend job])) /\
        sends t = [] /\
        env_rcpts (sm_env job) =
          concat (map (fun emails => default [] emails)
                    (carddav_emails (w_store w) abook))).
Proof.
  intros Hdav Hlist.
  destruct (sieve_srs_forward_run cfg o return_path w) as (p & t0 & Hsrs & Hs0).
  split.
  - intros Hno. unfold send_forward. rewrite (bind_run _ _ _ _ _ Hsrs).
    unfold get_store at 1. unfold bind at 1. cbv beta iota.
    rewrite Hlist, Hdav. cbn [w_store add_trace].
    exists t0. split; [|exact Hs0].
    destruct (get_addrbook_mboxname (w_store w) (rc_addr rc) (ctx_userid ctx))
      as [abook|]; [|reflexivity].
    destruct Hno as [Hno|Hno]; [discriminate|]. rewrite Hno. reflexivity.
  - intros abook Habook Hopen Hsmtp. unfold send_forward.
    rewrite (bind_run _ _ _ _ _ Hsrs).
    unfold get_store at 1. unfold bind at 1. cbv beta iota.
    rewrite Hlist, Hdav. cbn [w_store add_trace]. rewrite Habook, Hopen.
    rewrite smtp_submit_run, Hsmtp. cbn [Z.eqb].
    eexists t0, _. rewrite add_trace_app. split; [reflexivity|].
    split; [exact Hs0 | reflexivity].
Qed.

(** X13.  The envelope sender of a redirect under SRS.  When the SRS
    engine rewrites the return path (status 0 and a result), the message
    goes out from the rewritten address.  When the rewriting fails, the
    redirect is not given up: the failure is logged with the return path,
    the SRS domain and the text of the status, and the message goes out
    from the return path of the message as it is ([<>] when it is NULL or
    empty). *)
Theorem redirect_envelope_under_srs o (rc : sieve_redirect_context_t)
    (ctx : sieve_interp_ctx) (return_path : option string) (file : string)
    (srs_forward_alloc : option string -> option string -> Z * option string)
    (srs_status : Z) (srs_return_path : option string) w :
  o_srs_engine o = Some srs_forward_alloc ->
  srs_forward_alloc return_path (srs_domain cfg)
    = (srs_status, srs_return_path) ->
  rc_is_ext_list rc = false ->
  o_smtp_open o = 0 ->
  exists job : smtp_job,
    send_forward cfg o rc ctx return_path file w =
      Some (o_smtp_send o,
            add_trace w
              ((if srs_status =? 0 then []
                else [Syslog LOG_ERR "sieve SRS forward failed (%s, %s): %s"
                        [return_path; srs_domain cfg;
                         Some (srs_strerror srs_status)]])
               ++ [SmtpSend job])) /\
    env_rcpts (sm_env job) = [rc_addr rc] /\
    env_from (sm_env job) =
      match (if srs_status =? 0 then srs_return_path else None) with
      | Some rewritten => rewritten
      | None =>
          match return_path with
          | Some p => if String.eqb p "" then "<>" else p
          | None => "<>"
          end
      end.
Proof.
  intros Hengine Halloc Hlist Hsmtp.
  unfold send_forward, sieve_srs_forward. rewrite Hengine, Halloc, Hlist.
  destruct (srs_status =? 0); unfold_m; rewrite smtp_submit_run, Hsmtp;
    cbn [Z.eqb]; eexists; rewrite ?add_trace_app;
    (split; [reflexivity|]); split; reflexivity.
Qed.

End ForwardFacts.

(** ** Frames *)

Section FrameFacts.

Context {hdrcache store : Type}.
Variable P : event (hdrcache := hdrcache) -> bool.

Local Abbreviation M := (M (hdrcache := hdrcache) (store := store)).

Lemma eo_ret {A} (a : A) : emits_only P (ret a : M A).
Proof.
  intros w a' w' [= <- <-]. exists []. rewrite app_nil_r.
  split; reflexivity.
Qed.

Lemma eo_bind {A B} (m : M A) (k : A -> M B) :
  emits_only P m -> (forall a, emits_only P (k a)) -> emits_only P (bind m k).
Proof.
  intros Hm Hk w b w' Hrun. unfold bind in Hrun.
  destruct (m w) as [[a w1]|] eqn:Hmw; [|discriminate].
  destruct (Hm _ _ _ Hmw) as (t1 & Ht1 & Hp1).
  destruct (Hk a _ _ _ Hrun) as (t2 & Ht2 & Hp2).
  exists (t1 ++ t2). rewrite Ht2, Ht1, app_assoc. split; [reflexivity|].
  rewrite forallb_app, Hp1, Hp2. reflexivity.
Qed.

Lemma eo_emit (e : event) : P e = true -> emits_only P (emit e : M unit).
Proof.
  intros He w [] w' [= <-]. exists [e]. split; [reflexivity|].
  cbn [forallb]. rewrite He. reflexivity.
Qed.

Lemma eo_state {A}
    (f : world (hdrcache := hdrcache) (store := store) -> A * world) :
  (forall w, w_trace (f w).2 = w_trace w) ->
  emits_only P (fun w => Some (f w)).
Proof.
  intros Hf w a w' [= Hfw]. exists []. rewrite app_nil_r.
  split; [|reflexivity]. rewrite <- (Hf w), Hfw. reflexivity.
Qed.

Lemma eo_get_dup : emits_only P (get_dup : M _).
Proof. exact (eo_state (fun w => (w_dup w, w)) (fun _ => eq_refl)). Qed.
Lemma eo_put_dup db : emits_only P (put_dup db : M _).
Proof. exact (eo_state (fun w => (tt, set_dup w db)) (fun _ => eq_refl)). Qed.
Lemma eo_get_store : emits_only P (get_store : M _).
Proof. exact (eo_state (fun w => (w_store w, w)) (fun _ => eq_refl)). Qed.
Lemma eo_put_store st : emits_only P (put_store st : M _).
Proof. exact (eo_state (fun w => (tt, set_store w st)) (fun _ => eq_refl)). Qed.
Lemma eo_next_outgoing_count : emits_only P (next_outgoing_count : M _).
Proof. intros w a w' [= <- <-]. exists []. rewrite app_nil_r. split; reflexivity. Qed.

Lemma eo_undefined {A} : emits_only P (undefined : M A).
Proof. intros w a w' Hrun. discriminate. Qed.

Lemma eo_nonnull {A} (p : option A) : emits_only P (nonnull p : M A).
Proof. destruct p; [apply eo_ret | apply eo_undefined]. Qed.

Lemma eo_when (b : bool) (m : M unit) :
  emits_only P m -> emits_only P (when b m).
Proof. intros Hm. destruct b; [exact Hm | apply eo_ret]. Qed.

(** A run that is known to return, seen through [emits_only]. *)
Lemma eo_run {A} (m : M A) w (a : A) w' (t : list event) :
  emits_only P m -> m w = Some (a, w') -> w_trace w' = w_trace w ++ t ->
  forallb P t = true.
Proof.
  intros Hm Hrun Ht. destruct (Hm _ _ _ Hrun) as (t' & Ht' & Hp).
  rewrite Ht in Ht'. apply app_inv_head in Ht'. subst t'. exact Hp.
Qed.

End FrameFacts.

Section PreserveFacts.

Context {hdrcache store X : Type}.
Variable f : world (hdrcache := hdrcache) (store := store) -> X.

Local Abbreviation M := (M (hdrcache := hdrcache) (store := store)).

Lemma pr_state {A}
    (g : world (hdrcache := hdrcache) (store := store) -> A * world) :
  (forall w, f (g w).2 = f w) -> preserves f (fun w => Some (g w)).
Proof. intros Hg w a w' [= Hgw]. rewrite <- (Hg w), Hgw. reflexivity. Qed.

Lemma pr_ret {A} (a : A) : preserves f (ret a : M A).
Proof. intros w a' w' [= <- <-]. reflexivity. Qed.

Lemma pr_bind {A B} (m : M A) (k : A -> M B) :
  preserves f m -> (forall a, preserves f (k a)) -> preserves f (bind m k).
Proof.
  intros Hm Hk w b w' Hrun. unfold bind in Hrun.
  destruct (m w) as [[a w1]|] eqn:Hmw; [|discriminate].
  rewrite (Hk a _ _ _ Hrun). exact (Hm _ _ _ Hmw).
Qed.

Lemma pr_undefined {A} : preserves f (undefined : M A).
Proof. intros w a w' Hrun. discriminate. Qed.

Lemma pr_nonnull {A} (p : option A) : preserves f (nonnull p : M A).
Proof. destruct p; [apply pr_ret | apply pr_undefined]. Qed.

Lemma pr_when (b : bool) (m : M unit) :
  preserves f m -> preserves f (when b m).
Proof. intros Hm. destruct b; [exact Hm | apply pr_ret]. Qed.

End PreserveFacts.

(** Splits a handler into its steps. *)
Ltac eo_step :=
  first
    [ apply eo_ret
    | apply eo_emit; reflexivity
    | apply eo_get_dup | apply eo_put_dup
    | apply eo_get_store | apply eo_put_store
    | apply eo_next_outgoing_count
    | apply eo_nonnull | apply eo_undefined
    | apply eo_when
    | apply eo_bind; [|intros ?]
    | match goal with
      | |- emits_only _ (match ?x with _ => _ end) => destruct x
      end ].

Ltac eo := repeat eo_step.

(** The same for [preserves]: a step of the state monad is taken when it
    leaves the part alone by computation. *)
Ltac pr_step :=
  first
    [ apply pr_ret
    | apply pr_nonnull | apply pr_undefined
    | apply pr_when
    | apply pr_bind; [|intros ?]
    | match goal with
      | |- preserves _ (match ?x with _ => _ end) => destruct x
      end
    | apply (pr_state _ (fun w => (tt, add_trace w [_]))); intros; reflexivity
    | apply (pr_state _ (fun w => (w_dup w, w))); intros; reflexivity
    | apply (pr_state _ (fun w => (w_store w, w))); intros; reflexivity
    | apply (pr_state _ (fun w => (tt, set_dup w _))); intros; reflexivity
    | apply (pr_state _ (fun w => (tt, set_store w _))); intros; reflexivity
    | apply (pr_state _ (fun w =>
               (w_outgoing_count w,
                {| w_dup := w_dup w; w_store := w_store w;
                   w_trace := w_trace w;
                   w_outgoing_count := to_int (w_outgoing_count w + 1) |})));
      intros; reflexivity ].

Ltac pr := repeat pr_step.

(** Opens the handlers down to the steps of the monad. *)
Ltac unfold_handlers :=
  repeat progress
    unfold getinclude, sieve_redirect, redirect_send, sieve_discard,
      sieve_reject, reject_lmtp, reject_mail, sieve_fileinto, sieve_keep,
      sieve_notify, autorespond, do_fcc, sieve_duplicate_check,
      sieve_duplicate_track, send_forward, send_rejection,
      sieve_find_script, rebuild_if_bc, sieve_srs_forward, smtp_submit,
      new_msgid, special_delivery, setup_special_delivery,
      cleanup_special_delivery, fileinto_deliver, call_deliver_mailbox,
      autosieve_createfolder, annotate_specialuse.

Section StageFacts.

Context `{Constants} `{Library}.
Context {hdrcache : Type} `{HeaderCache hdrcache}.
Context {store : Type} `{MailStore (hdrcache := hdrcache) store}.
Variable cfg : config.

Implicit Types (w : world (hdrcache := hdrcache) (store := store)).
Implicit Types (o : oracle) (sd : script_data_t).

Lemma stage_events_app (t1 t2 : list (event (hdrcache := hdrcache))) :
  stage_events (t1 ++ t2) = stage_events t1 ++ stage_events t2.
Proof. apply filter_app. Qed.

Lemma stage_events_none (t : list (event (hdrcache := hdrcache))) :
  forallb not_stage t = true -> stage_events t = [].
Proof.
  induction t as [|e t IH]; [reflexivity|]. cbn [forallb].
  intros Ht. apply andb_true_iff in Ht as [He Ht].
  unfold stage_events. rewrite filter_cons.
  unfold not_stage in He. apply negb_true_iff in He. rewrite He.
  destruct (decide (false = true)) as [Hd|_]; [discriminate|].
  apply IH. exact Ht.
Qed.

Lemma fileinto_deliver_no_stage (fc : sieve_fileinto_context_t)
    (userid : option string) (d : delivery) :
  emits_only (store := store) not_stage (fileinto_deliver cfg fc userid d).
Proof.
  unfold fileinto_deliver, call_deliver_mailbox, autosieve_createfolder,
    annotate_specialuse.
  eo.
Qed.

Lemma send_forward_no_stage o (rc : sieve_redirect_context_t)
    (ctx : sieve_interp_ctx) (return_path : option string) (file : string) :
  emits_only (store := store) not_stage
    (send_forward cfg o rc ctx return_path file).
Proof.
  unfold send_forward, sieve_srs_forward, smtp_submit.
  eo.
Qed.


(** What [special_delivery] does to the stage. *)
Lemma special_delivery_stage o sd (mdata : deliver_data_t) w :
  exists special : option deliver_data_t,
    special_delivery o sd mdata w =
      Some (special,
            add_trace w (if sd_edited_header sd
                         then [NewStage (o_newstage o)] else [])) /\
    match special with
    | Some mdata' =>
        if sd_edited_header sd
        then o_newstage o = Some (dd_stage mdata')
        else mdata' = mdata
    | None => sd_edited_header sd = true /\ o_newstage o = None
    end.
Proof.
  unfold special_delivery. destruct (sd_edited_header sd).
  - destruct (setup_special_delivery_run o mdata w) as (hdrs & _ & Hrun).
    eexists. split; [exact Hrun|].
    destruct (o_newstage o); [reflexivity | split; reflexivity].
  - exists (Some mdata). rewrite add_trace_nil. split; reflexivity.
Qed.

Lemma keep_stage o (imapflags : list string) sd (mydata : deliver_data_t) w :
  exists (res : Z * option string) w' (t : list event),
    sieve_keep o imapflags sd mydata w = Some (res, w') /\
    w_trace w' = w_trace w ++ t /\
    stage_events t = staged_once o (sd_edited_header sd) /\
    (sd_edited_header sd = true -> o_newstage o = None ->
     t = [NewStage None] /\ res = (SIEVE_FAIL, None)).
Proof.
  unfold sieve_keep, staged_once.
  destruct (special_delivery_stage o sd mydata w) as (special & Hsp & Hst).
  rewrite (bind_run _ _ _ _ _ Hsp). clear Hsp.
  destruct special as [mydata'|].
  - unfold_m. cbn [w_store add_trace].
    destruct (deliver_local (w_store w) mydata' imapflags (sd_mbname sd))
      as [st' r].
    cbv beta iota. destruct (sd_edited_header sd); [rewrite Hst|];
      destruct (r =? 0); cbv beta iota; eexists _, _, _;
      (split; [reflexivity|]);
      (split; [simpl; rewrite <- ?app_assoc; reflexivity|]);
      (split; [reflexivity|]); intros He Hn; congruence.
  - destruct Hst as [-> ->]. unfold_m. eexists _, _, _.
    split; [reflexivity|]. split; [reflexivity|]. split; [reflexivity|].
    intros _ _. split; reflexivity.
Qed.

Lemma fileinto_stage o (fc : sieve_fileinto_context_t) sd
    (mdata : deliver_data_t) w :
  exists (res : Z * option string) w' (t : list event),
    sieve_fileinto cfg o fc sd mdata w = Some (res, w') /\
    w_trace w' = w_trace w ++ t /\
    stage_events t = staged_once o (sd_edited_header sd) /\
    (sd_edited_header sd = true -> o_newstage o = None ->
     t = [NewStage None] /\ res = (SIEVE_FAIL, None)).
Proof.
  unfold sieve_fileinto, staged_once.
  destruct (special_delivery_stage o sd mdata w) as (special & Hsp & Hst).
  rewrite (bind_run _ _ _ _ _ Hsp). clear Hsp.
  destruct special as [mdata'|].
  - unfold get_store at 1. unfold bind at 1. cbv beta iota.
    match goal with
    | |- context [fileinto_deliver cfg fc ?u ?d] =>
        destruct (fileinto_deliver_run cfg fc u d
                    (add_trace w (if sd_edited_header sd
                                  then [NewStage (o_newstage o)] else [])))
          as (r & w2 & t2 & Hrun & Ht2 & _);
        pose proof (eo_run _ _ _ _ _ _
                      (fileinto_deliver_no_stage fc u d) Hrun Ht2) as Hno
    end.
    apply stage_events_none in Hno.
    rewrite (bind_run _ _ _ _ _ Hrun). clear Hrun.
    unfold_m.
    destruct (sd_edited_header sd); [rewrite Hst|];
      destruct (r =? 0); cbv beta iota; eexists _, _, _;
      (split; [reflexivity|]);
      (split; [simpl; rewrite Ht2; simpl; rewrite <- ?app_assoc;
               reflexivity|]);
      (split; [rewrite ?stage_events_app, Hno, ?Hst; reflexivity|]);
      intros He Hn; congruence.
  - destruct Hst as [-> ->]. unfold_m. eexists _, _, _.
    split; [reflexivity|]. split; [reflexivity|]. split; [reflexivity|].
    intros _ _. split; reflexivity.
Qed.

Lemma redirect_send_stage o (rc : sieve_redirect_context_t)
    (ctx : sieve_interp_ctx) sd (mdata : deliver_data_t)
    (dkey : option duplicate_key_t) w :
  exists (res : Z * option string) w' (t : list event),
    redirect_send cfg o rc ctx sd mdata dkey w = Some (res, w') /\
    w_trace w' = w_trace w ++ t /\
    stage_events t = staged_once o (sd_edited_header sd) /\
    (sd_edited_header sd = true -> o_newstage o = None ->
     t = [NewStage None] /\ res = (SIEVE_FAIL, None)).
Proof.
  unfold redirect_send, staged_once.
  destruct (special_delivery_stage o sd mdata w) as (special & Hsp & Hst).
  rewrite (bind_run _ _ _ _ _ Hsp). clear Hsp.
  destruct special as [mdata'|].
  - match goal with
    | |- context [send_forward cfg o rc ctx ?rp ?f] =>
        destruct (send_forward_run cfg o rc ctx rp f
                    (add_trace w (if sd_edited_header sd
                                  then [NewStage (o_newstage o)] else [])))
          as (r & t2 & Hrun & _);
        pose proof (eo_run _ _ _ _ _ t2
                      (send_forward_no_stage o rc ctx rp f) Hrun eq_refl)
          as Hno
    end.
    apply stage_events_none in Hno.
    rewrite (bind_run _ _ _ _ _ Hrun). clear Hrun.
    unfold_m.
    destruct (sd_edited_header sd); [rewrite Hst|];
      destruct (r =? 0); destruct dkey; destruct (config_auditlog cfg);
      cbv beta iota; eexists _, _, _;
      (split; [reflexivity|]);
      (split; [simpl; rewrite <- ?app_assoc; reflexivity|]);
      (split; [rewrite ?stage_events_app, Hno, ?Hst; reflexivity|]);
      intros He Hn; congruence.
  - destruct Hst as [-> ->]. unfold_m. eexists _, _, _.
    split; [reflexivity|]. split; [reflexivity|]. split; [reflexivity|].
    intros _ _. split; reflexivity.
Qed.

(** X14.  The staged copy of an edited message never outlives the action.
    [sieve_keep] and [sieve_fileinto] always return, and [sieve_redirect]
    does for a message without id or an owner with a userid.  On the way
    they make no stage when no header was edited; when one was, they ask
    for one stage; if there is none they do nothing else and return
    [SIEVE_FAIL] without a message; otherwise they remove that very stage
    before they return, whether the delivery or the send worked or not.
    The one exception is a redirect that the ledger already knows: it
    logs the duplicate and returns [SIEVE_OK] before any staging. *)
Theorem staged_copy_is_removed o (imapflags : list string)
    (fc : sieve_fileinto_context_t) (rc : sieve_redirect_context_t)
    (ctx : sieve_interp_ctx) sd (mdata : deliver_data_t) w :
  (exists (res : Z * option string) w' (t : list event),
      sieve_keep o imapflags sd mdata w = Some (res, w') /\
      w_trace w' = w_trace w ++ t /\
      stage_events t = staged_once o (sd_edited_header sd) /\
      (sd_edited_header sd = true -> o_newstage o = None ->
       t = [NewStage None] /\ res = (SIEVE_FAIL, None))) /\
  (exists (res : Z * option string) w' (t : list event),
      sieve_fileinto cfg o fc sd mdata w = Some (res, w') /\
      w_trace w' = w_trace w ++ t /\
      stage_events t = staged_once o (sd_edited_header sd) /\
      (sd_edited_header sd = true -> o_newstage o = None ->
       t = [NewStage None] /\ res = (SIEVE_FAIL, None))) /\
  (m_id (dd_m mdata) = None \/ is_Some (mbname_userid (sd_mbname sd)) ->
   exists (res : Z * option string) w' (t : list event),
      sieve_redirect cfg o rc ctx sd mdata w = Some (res, w') /\
      w_trace w' = w_trace w ++ t /\
      ((stage_events t = staged_once o (sd_edited_header sd) /\
        (sd_edited_header sd = true -> o_newstage o = None ->
         t = [NewStage None] /\ res = (SIEVE_FAIL, None))) \/
       (exists id userid,
           m_id (dd_m mdata) = Some id /\
           mbname_userid (sd_mbname sd) = Some userid /\
           duplicate_check (w_dup w) (redirect_key id rc userid (dd_m mdata))
             <> 0 /\
           t = [DuplicateLog (redirect_key id rc userid (dd_m mdata))
                  "redirect"] /\
           res = (SIEVE_OK, None)))).
Proof.
  split; [apply keep_stage|]. split; [apply fileinto_stage|].
  intros Hok. unfold sieve_redirect.
  destruct (m_id (dd_m mdata)) as [id|].
  - destruct Hok as [Hno|[userid Hu]]; [discriminate|]. rewrite Hu.
    unfold_m.
    destruct (duplicate_check (w_dup w)
                (redirect_key id rc userid (dd_m mdata)) =? 0) eqn:Hdup;
      cbn [negb].
    + destruct (redirect_send_stage o rc ctx sd mdata
                  (Some (redirect_key id rc userid (dd_m mdata))) w)
        as (res & w' & t & Hrun & Ht & Hs).
      exists res, w', t. split; [exact Hrun|]. split; [exact Ht|].
      left. exact Hs.
    + apply Z.eqb_neq in Hdup.
      eexists _, _, _. split; [reflexivity|]. split; [reflexivity|].
      right. exists id, userid. split; [reflexivity|].
      split; [reflexivity|]. split; [exact Hdup|]. split; reflexivity.
  - destruct (redirect_send_stage o rc ctx sd mdata None w)
      as (res & w' & t & Hrun & Ht & Hs).
    exists res, w', t. split; [exact Hrun|]. split; [exact Ht|].
    left. exact Hs.
Qed.

(** X16.  Which actions leave the mailbox store alone.  Looking up a
    script, [redirect], [discard], [reject] (in the LMTP dialogue or by
    mail), [notify], [autorespond] and the [duplicate] test and tracking
    never create, change or fill a mailbox: whenever one of them returns,
    the store is what it was.  (Fileinto, keep and the [:fcc] of a
    vacation are the ones that deliver.) *)
Theorem store_left_alone o sd (ctx : sieve_interp_ctx)
    (mc : deliver_data_t (hdrcache := hdrcache)) :
  (forall script isglobal fname size,
      keeps_store (hdrcache := hdrcache) (store := store)
        (getinclude cfg o sd script isglobal fname size)) /\
  (forall rc, keeps_store (hdrcache := hdrcache) (store := store)
        (sieve_redirect cfg o rc ctx sd mc)) /\
  keeps_store (hdrcache := hdrcache) (store := store)
        (sieve_discard cfg o mc) /\
  (forall rc, keeps_store (hdrcache := hdrcache) (store := store)
        (sieve_reject cfg o rc ctx sd mc)) /\
  (forall nc,
      keeps_store (hdrcache := hdrcache) (store := store)
        (sieve_notify cfg nc sd)) /\
  (forall arc,
      keeps_store (hdrcache := hdrcache) (store := store)
        (autorespond o arc sd)) /\
  (forall dtc,
      keeps_store (hdrcache := hdrcache) (store := store)
        (sieve_duplicate_check o dtc sd)) /\
  (forall dtc,
      keeps_store (hdrcache := hdrcache) (store := store)
        (sieve_duplicate_track o dtc sd)).
Proof.
  unfold keeps_store. repeat split; intros; unfold_handlers;
    unfold emit, get_dup, put_dup, get_store, next_outgoing_count; pr.
Qed.

(** X17.  Which actions send no mail.  Looking up a script, [discard], a
    rejection in the LMTP dialogue, [fileinto], [keep], [notify],
    [autorespond] (which only decides whether a response is due), the
    filing of an [:fcc] copy and the [duplicate] test and tracking hand
    nothing to the transport: whenever one of them returns, it has only
    added to what was asked of the collaborators, and no [smtpclient_send]
    is among it.  (Redirect, the response of a vacation and a rejection by
    mail are the ones that send.) *)
Theorem nothing_sent o sd (mc : deliver_data_t (hdrcache := hdrcache)) :
  (forall script isglobal fname size,
      sends_nothing (hdrcache := hdrcache) (store := store)
        (getinclude cfg o sd script isglobal fname size)) /\
  sends_nothing (hdrcache := hdrcache) (store := store)
        (sieve_discard cfg o mc) /\
  (forall rc, sends_nothing (hdrcache := hdrcache) (store := store)
        (reject_lmtp cfg o rc mc)) /\
  (forall fc, sends_nothing (hdrcache := hdrcache) (store := store)
        (sieve_fileinto cfg o fc sd mc)) /\
  (forall imapflags, sends_nothing (hdrcache := hdrcache) (store := store)
        (sieve_keep o imapflags sd mc)) /\
  (forall nc,
      sends_nothing (hdrcache := hdrcache) (store := store)
        (sieve_notify cfg nc sd)) /\
  (forall arc,
      sends_nothing (hdrcache := hdrcache) (store := store)
        (autorespond o arc sd)) /\
  (forall fcc header msg footer,
      sends_nothing (hdrcache := hdrcache) (store := store)
        (do_fcc cfg sd fcc header msg footer)) /\
  (forall dtc,
      sends_nothing (hdrcache := hdrcache) (store := store)
        (sieve_duplicate_check o dtc sd)) /\
  (forall dtc,
      sends_nothing (hdrcache := hdrcache) (store := store)
        (sieve_duplicate_track o dtc sd)).
Proof.
  unfold sends_nothing. repeat split; intros; unfold_handlers; eo.
Qed.


Lemma annotations_app (t1 t2 : list (event (hdrcache := hdrcache))) :
  annotations (t1 ++ t2) = annotations t1 ++ annotations t2.
Proof. apply filter_app. Qed.

Lemma fileinto_deliver_annotations (fc : sieve_fileinto_context_t)
    (userid : option string) (d : delivery) w :
  exists (r : Z) w' (t : list event),
    fileinto_deliver cfg fc userid d w = Some (r, w') /\
    w_trace w' = w_trace w ++ t /\
    annotations t =
      (if existsb (is_created (dl_mailbox d)) t
       then specialuse_annotation fc userid (dl_mailbox d) else []).
Proof.
  unfold fileinto_deliver, call_deliver_mailbox. unfold_m.
  destruct (deliver_mailbox (w_store w) d) as [st1 r1]. cbv beta iota.
  destruct (r1 =? IMAP_MAILBOX_NONEXISTENT) eqn:Hr1.
  2: { eexists _, _, _. split; [reflexivity|]. split; reflexivity. }
  unfold autosieve_createfolder. destruct userid as [u|].
  2: { unfold_m.
       rewrite (proj2 (Z.eqb_neq _ _) IMAP_MAILBOX_NONEXISTENT_nonzero).
       eexists _, _, _. split; [reflexivity|].
       split; [reflexivity|]. reflexivity. }
  unfold_m. destruct (autocreate_allowed cfg u (dl_mailbox d) (fc_do_create fc)).
  2: { rewrite (proj2 (Z.eqb_neq _ _) IMAP_MAILBOX_NONEXISTENT_nonzero).
       eexists _, _, _. split; [reflexivity|].
       split; [simpl; rewrite <- ?app_assoc; reflexivity|]. reflexivity. }
  cbn [w_store set_store add_trace].
  destruct (mboxlist_createmailbox st1 (dl_mailbox d) u) as [st2 r2].
  cbv beta iota.
  destruct (r2 =? 0) eqn:Hr2; cbn [Z.eqb].
  2: { cbv beta iota. rewrite ?Hr2. eexists _, _, _. split; [reflexivity|].
       split; [simpl; rewrite <- ?app_assoc; reflexivity|].
       cbn [existsb is_created orb app]. rewrite Hr2, andb_false_r.
       reflexivity. }
  apply Z.eqb_eq in Hr2. subst r2. cbn [Z.eqb].
  unfold annotate_specialuse, specialuse_annotation.
  destruct (fc_specialuse fc) as [su|];
    [destruct (specialuse_validate (Some u) su) as [v|]|];
    unfold_m; cbn [w_store set_store add_trace];
    match goal with
    | |- context [deliver_mailbox ?st d] =>
        destruct (deliver_mailbox st d) as [st3 r3]
    end;
    cbv beta iota; eexists _, _, _; (split; [reflexivity|]);
    (split; [simpl; rewrite <- ?app_assoc; reflexivity|]);
    cbn [existsb is_created orb app]; rewrite String.eqb_refl;
    reflexivity.
Qed.

(** X18.  The special-use annotation goes only on a folder that the
    action has just created.  [sieve_fileinto] always returns, and the
    annotations it has written are these: none, unless it created the
    folder it delivers to (the creation returned 0); and then the one
    [/specialuse] annotation on that folder, with the validated value,
    when the rule asks for a special use and [specialuse_validate]
    accepts it, and none otherwise.  A folder that exists is never
    annotated. *)
Theorem fileinto_annotates_what_it_created o (fc : sieve_fileinto_context_t)
    sd (mdata : deliver_data_t) w :
  exists (res : Z * option string) w' (t : list event),
    sieve_fileinto cfg o fc sd mdata w = Some (res, w') /\
    w_trace w' = w_trace w ++ t /\
    annotations t =
      (if existsb
            (is_created
               (resolve_folder (w_store w) fc (mbname_userid (sd_mbname sd))))
            t
       then specialuse_annotation fc (mbname_userid (sd_mbname sd))
              (resolve_folder (w_store w) fc (mbname_userid (sd_mbname sd)))
       else []).
Proof.
  unfold sieve_fileinto.
  destruct (special_delivery_stage o sd mdata w) as (special & Hsp & _).
  rewrite (bind_run _ _ _ _ _ Hsp). clear Hsp.
  destruct special as [mdata'|].
  - unfold get_store at 1. unfold bind at 1. cbv beta iota.
    cbn [w_store add_trace].
    set (intname := resolve_folder (w_store w) fc
                      (mbname_userid (sd_mbname sd))).
    destruct (fileinto_deliver_annotations fc (mbname_userid (sd_mbname sd))
                (fileinto_delivery fc sd mdata' intname)
                (add_trace w (if sd_edited_header sd
                              then [NewStage (o_newstage o)] else [])))
      as (r & w2 & t2 & Hrun & Ht2 & Hann).
    cbn [dl_mailbox fileinto_delivery] in Hann.
    rewrite (bind_run _ _ _ _ _ Hrun). clear Hrun.
    unfold_m.
    destruct (sd_edited_header sd); destruct (r =? 0); cbv beta iota;
      eexists _, _, _; (split; [reflexivity|]);
      (split; [simpl; rewrite Ht2; simpl; rewrite <- ?app_assoc;
               reflexivity|]);
      rewrite ?annotations_app, ?existsb_app, Hann;
      cbn [annotations filter existsb is_created orb app];
      rewrite ?orb_false_r, ?app_nil_r; reflexivity.
  - unfold_m. eexists _, _, _. split; [reflexivity|].
    split; [reflexivity|]. destruct (sd_edited_header sd); reflexivity.
Qed.

End StageFacts.

(** ** Notices: responses and rejections *)

(** X19.  The subject of an automatic reply is cut at its first control
    character: what [send_response] encodes and writes after [Subject:] is
    a prefix of the subject given by the script, has no control character
    in it (so no CR or LF that would start a new header line), and is the
    whole subject when that has none. *)
Theorem sane_subject_has_no_control (subj : string) :
  Forall (fun c => iscntrl c = false) (chars (sane_subject subj)) /\
  (exists rest : string,
      subj = sane_subject subj +:+ rest /\
      match rest with
      | String c _ => iscntrl c = true
      | EmptyString => True
      end) /\
  (Forall (fun c => iscntrl c = false) (chars subj) ->
   sane_subject subj = subj).
Proof.
  induction subj as [|c subj (IH1 & (rest & IH2 & IH3) & IH4)].
  - split; [constructor|]. split; [exists ""; split; [reflexivity | exact I]|].
    reflexivity.
  - cbn [sane_subject]. destruct (iscntrl c) eqn:Hc.
    + split; [constructor|].
      split; [exists (String c subj); split; [reflexivity | exact Hc]|].
      intros Hall. inversion Hall as [|? ? Hc' _]. congruence.
    + split; [constructor; [exact Hc | exact IH1]|].
      split.
      * exists rest. split; [|exact IH3].
        change (String c (sane_subject subj) +:+ rest)
          with (String c (sane_subject subj +:+ rest)).
        rewrite <- IH2. reflexivity.
      * intros Hall. inversion Hall as [|? ? _ Hrest]. rewrite IH4 by exact Hrest.
        reflexivity.
Qed.

Section ResponseFacts.

Context `{Constants} `{Library}.
Context {hdrcache : Type} `{HeaderCache hdrcache}.
Context {store : Type} `{MailStore (hdrcache := hdrcache) store}.
Variable cfg : config.

Implicit Types (w : world (hdrcache := hdrcache) (store := store)).
Implicit Types (o : oracle) (sd : script_data_t).

Lemma new_msgid_eq o w :
  new_msgid cfg o w =
    Some (snprintf 8192
            ("<cmu-sieve-" +:+ fmt_d (to_int (o_pid o)) +:+ "-" +:+
             fmt_d (to_int (o_now o)) +:+ "-" +:+
             fmt_d (w_outgoing_count w) +:+ "@" +:+
             config_servername cfg +:+ ">"),
          {| w_dup := w_dup w; w_store := w_store w; w_trace := w_trace w;
             w_outgoing_count := to_int (w_outgoing_count w + 1) |}).
Proof. reflexivity. Qed.

(** X20.  The outcome of [send_response] is the outcome of the transport
    alone.  For an owner with a userid the handler always returns:
    [SIEVE_OK] when the session opened and the send returned 0, whatever
    then happens to the copy filed by [:fcc] (a failed copy is only
    logged); [SIEVE_FAIL] with the text of the transport's error
    otherwise, and then nothing was filed or marked: the ledger and the
    mailbox store are as before. *)
Theorem send_response_outcome o (src : sieve_send_response_context_t)
    (ctx : sieve_interp_ctx) sd (mc : deliver_data_t) (userid : string) w :
  mbname_userid (sd_mbname sd) = Some userid ->
  exists w',
    send_response cfg o src ctx sd mc w =
      Some (if o_smtp_open o =? 0
            then if o_smtp_send o =? 0 then (SIEVE_OK, None)
                 else (SIEVE_FAIL, Some (error_message (o_smtp_send o)))
            else (SIEVE_FAIL, Some (error_message (o_smtp_open o))),
            w') /\
    ((o_smtp_open o =? 0) && (o_smtp_send o =? 0) = false ->
     w_dup w' = w_dup w /\ w_store w' = w_store w).
Proof.
  intros Hu. unfold send_response.
  rewrite (bind_run _ _ _ _ _ (new_msgid_eq o w)). cbv beta iota zeta.
  unfold bind at 1. rewrite smtp_submit_run.
  destruct (o_smtp_open o =? 0) eqn:Hopen.
  - destruct (o_smtp_send o =? 0) eqn:Hsend.
    + rewrite Hu. unfold nonnull, ret at 1. unfold bind at 1.
      unfold get_dup at 1. unfold bind at 1. unfold put_dup at 1.
      unfold bind at 1. cbv beta iota.
      match goal with
      | |- context [bind ?fccm _ ?w2] =>
          assert (Hfcc : exists w3, fccm w2 = Some (tt, w3))
      end.
      { destruct (src_fcc src) as [fcc|].
        - match goal with
          | |- context [do_fcc cfg sd fcc ?h ?m ?f ?w2] =>
              destruct (do_fcc_run cfg sd fcc h m f w2) as (w3 & _ & Hr & _)
          end.
          exists w3. exact Hr.
        - eexists. reflexivity. }
      destruct Hfcc as (w3 & Hfcc).
      rewrite (bind_run _ _ _ _ _ Hfcc). unfold_m.
      eexists. split; [reflexivity|]. discriminate.
    + unfold_m. eexists. split; [reflexivity|]. intros _. split; reflexivity.
  - rewrite Hopen. unfold_m. eexists. split; [reflexivity|]. intros _.
    split; reflexivity.
Qed.


(** X21.  The copy that [:fcc] files is the reply that was sent.  When the
    response of a vacation went out (the session opened and the send
    returned 0) and the folder of the [:fcc] exists, [send_response]
    hands one message to the transport, from [<>] to the address of the
    response, and then appends to that folder a message with the very
    same bytes, header, text and footer; it returns [SIEVE_OK] whatever
    the append returns. *)
Theorem fcc_copy_is_the_reply o (src : sieve_send_response_context_t)
    (ctx : sieve_interp_ctx) sd (mc : deliver_data_t) (userid : string)
    (fcc : sieve_fileinto_context_t) w :
  mbname_userid (sd_mbname sd) = Some userid ->
  src_fcc src = Some fcc ->
  o_smtp_open o = 0 -> o_smtp_send o = 0 ->
  mboxlist_lookup (w_store w) (resolve_folder (w_store w) fcc (Some userid))
    = 0 ->
  exists (msg : string) (r : Z) w' (rest : list event),
    send_response cfg o src ctx sd mc w = Some ((SIEVE_OK, None), w') /\
    r = snd (append_message (w_store w)
               (resolve_folder (w_store w) fcc (Some userid)) (Some userid)
               (fc_imapflags fcc) msg) /\
    w_trace w' =
      w_trace w ++
      SmtpSend {| sm_auth := ctx_userid ctx; sm_dsn := None;
                  sm_env := {| env_from := "<>";
                               env_rcpts := [src_addr src] |};
                  sm_msg := msg |} ::
      AppendMessage (resolve_folder (w_store w) fcc (Some userid)) msg r ::
      rest.
Proof.
  intros Hu Hfcc Hopen Hsend Hexists. unfold send_response.
  rewrite (bind_run _ _ _ _ _ (new_msgid_eq o w)). cbv beta iota zeta.
  unfold bind at 1. rewrite smtp_submit_run, Hopen, Hsend. cbn [Z.eqb].
  rewrite Hu, Hfcc. unfold do_fcc. rewrite Hu. unfold_m.
  cbn [w_store set_dup add_trace]. rewrite Hexists.
  rewrite (proj2 (Z.eqb_neq 0 IMAP_MAILBOX_NONEXISTENT))
    by (intros Heq; apply IMAP_MAILBOX_NONEXISTENT_nonzero; symmetry;
        exact Heq).
  cbn [Z.eqb]. cbn [w_store set_dup add_trace].
  match goal with
  | |- context [append_message ?st ?n ?u ?fl ?c] =>
      destruct (append_message st n u fl c) as [st' r] eqn:Happ
  end.
  cbv beta iota.
  destruct (r =? 0); cbv beta iota; eexists _, r, _, _;
    (split; [reflexivity|]);
    (split; [rewrite Happ; reflexivity|]);
    simpl; rewrite <- ?app_assoc; reflexivity.
Qed.

(** A run of [send_rejection] for a rejecting user that is given: the id
    of the notice is marked in the ledger before the transport is tried;
    if the session opens, one message goes to the transport, from [<>] to
    [rejto]. *)
Lemma send_rejection_run o (userid origid : option string)
    (rejto : string) (origreceip : option string) (mailreceip : string)
    (reason file : string) w :
  exists (id rest : string) w' (t : list event),
    new_msgid cfg o w =
      Some (id, {| w_dup := w_dup w; w_store := w_store w;
                   w_trace := w_trace w;
                   w_outgoing_count := to_int (w_outgoing_count w + 1) |}) /\
    send_rejection cfg o userid origid rejto origreceip (Some mailreceip)
      reason file w =
      Some (if o_smtp_open o =? 0 then o_smtp_send o else o_smtp_open o, w') /\
    w_dup w' =
      duplicate_mark (w_dup w)
        {| dk_id := id; dk_to := make_sieve_db mailreceip;
           dk_date := time_to_rfc5322 (o_now o) |} (o_now o) /\
    w_store w' = w_store w /\
    w_trace w' = w_trace w ++ t /\
    sends t =
      if o_smtp_open o =? 0
      then [SmtpSend {| sm_auth := userid; sm_dsn := None;
                        sm_env := {| env_from := "<>"; env_rcpts := [rejto] |};
                        sm_msg := "Message-ID: " +:+ id +:+ CRLF +:+ rest |}]
      else [].
Proof.
  unfold send_rejection.
  rewrite (bind_run _ _ _ _ _ (new_msgid_eq o w)). cbv beta iota zeta.
  unfold nonnull at 1. unfold bind at 1, ret at 1. cbv beta iota.
  unfold get_dup at 1. unfold bind at 1. cbv beta iota.
  unfold put_dup at 1. unfold bind at 1. cbv beta iota.
  unfold bind at 1. rewrite smtp_submit_run.
  destruct (o_smtp_open o =? 0) eqn:Hopen.
  - destruct (o_smtp_send o =? 0) eqn:Hsend; unfold_m;
      eexists _, _, _, _; (split; [reflexivity|]);
      (split; [rewrite ?Hsend; reflexivity|]);
      (split; [reflexivity|]); (split; [reflexivity|]);
      (split; [simpl; rewrite <- ?app_assoc; reflexivity | reflexivity]).
  - apply Z.eqb_neq in Hopen. rewrite (proj2 (Z.eqb_neq _ _) Hopen).
    unfold_m. eexists _, "", _, _. split; [reflexivity|].
    split; [reflexivity|]. split; [reflexivity|]. split; [reflexivity|].
    split; [simpl; rewrite <- ?app_assoc; reflexivity | reflexivity].
Qed.

(** [%d] prints different numbers differently. *)
Lemma fmt_d_inj (x y : Z) : fmt_d x = fmt_d y -> x = y.
Proof.
  unfold fmt_d. intros Heq.
  apply (f_equal NilEmpty.int_of_string) in Heq.
  rewrite !NilEmpty.isi in Heq. injection Heq as Heq.
  apply (f_equal Z.of_int) in Heq. rewrite !DecimalZ.of_to in Heq.
  exact Heq.
Qed.

(** X22.  A rejection by mail.  When [sieve_reject] does not answer in the
    LMTP dialogue (the reject is not [ereject], and LMTP rejects are
    switched off or the reason is not ASCII), the sender has a return path
    that is not empty and the owner has a userid, the handler always
    returns.  It makes a Message-ID for the notice and records it in the
    ledger, under the sieve database name of the owner and the date of
    the notice, before the transport is tried; the mark stays when the
    send fails.  If the session opens, exactly one message goes to the
    transport: from the null sender [<>], to the return path alone, and
    beginning with the recorded Message-ID.  The result is [SIEVE_OK] when
    the transport returned 0 and [SIEVE_FAIL] with its error text
    otherwise; the message and its recipient status are left as they
    were, and so is the mailbox store. *)
Theorem reject_by_mail o (rc : sieve_reject_context_t)
    (ctx : sieve_interp_ctx) sd (mydata : deliver_data_t)
    (return_path userid : string) w :
  rj_is_extended rc = false ->
  sieve_use_lmtp_reject cfg && negb (need_encode (rj_msg rc)) = false ->
  m_return_path (dd_m mydata) = Some return_path ->
  return_path <> "" ->
  mbname_userid (sd_mbname sd) = Some userid ->
  exists (id rest : string) w' (t : list event),
    new_msgid cfg o w =
      Some (id, {| w_dup := w_dup w; w_store := w_store w;
                   w_trace := w_trace w;
                   w_outgoing_count := to_int (w_outgoing_count w + 1) |}) /\
    sieve_reject cfg o rc ctx sd mydata w =
      Some (let res := if o_smtp_open o =? 0 then o_smtp_send o
                       else o_smtp_open o in
            if res =? 0 then (SIEVE_OK, None, mydata)
            else (SIEVE_FAIL,
                  Some (if res =? -1 then "Could not spawn sendmail process"
                        else error_message res),
                  mydata),
            w') /\
    w_dup w' =
      duplicate_mark (w_dup w)
        {| dk_id := id; dk_to := make_sieve_db userid;
           dk_date := time_to_rfc5322 (o_now o) |} (o_now o) /\
    w_store w' = w_store w /\
    w_trace w' = w_trace w ++ t /\
    sends t =
      if o_smtp_open o =? 0
      then [SmtpSend {| sm_auth := ctx_userid ctx; sm_dsn := None;
                        sm_env := {| env_from := "<>";
                                     env_rcpts := [return_path] |};
                        sm_msg := "Message-ID: " +:+ id +:+ CRLF +:+ rest |}]
      else [].
Proof.
  intros Hext Hlmtp Hrp Hne Hu.
  unfold sieve_reject. rewrite Hext, Hlmtp. cbn [orb].
  unfold reject_mail. rewrite Hrp, Hu.
  assert (Hlen : (strlen return_path =? 0) = false).
  { apply Z.eqb_neq. unfold strlen. destruct return_path; [congruence|].
    cbn [String.length]. lia. }
  rewrite Hlen.
  match goal with
  | |- context [send_rejection cfg o ?a ?b ?c ?d (Some userid) ?e ?f] =>
      destruct (send_rejection_run o a b c d userid e f w)
        as (id & rest & w1 & t1 & Hid & Hrun & Hdup & Hst & Ht & Hs)
  end.
  rewrite (bind_run _ _ _ _ _ Hrun). cbv zeta.
  destruct ((if o_smtp_open o =? 0 then o_smtp_send o else o_smtp_open o) =? 0);
    unfold_m; destruct (config_auditlog cfg); cbv beta iota;
    eexists id, rest, _, _; (split; [exact Hid|]);
    (split; [reflexivity|]); (split; [exact Hdup|]);
    (split; [exact Hst|]);
    (split; [simpl; rewrite Ht, <- ?app_assoc; reflexivity|]);
    rewrite ?sends_app, ?Hs; cbn [sends filter]; rewrite ?app_nil_r;
    reflexivity.
Qed.

Lemma to_int_succ (n : Z) :
  - 2 ^ 31 <= n < 2 ^ 31 -> to_int (n + 1) <> n.
Proof.
  intros Hn. unfold to_int.
  destruct (Z.eq_dec n (2 ^ 31 - 1)) as [->|Hmax].
  - vm_compute. discriminate.
  - rewrite Z.mod_small by lia. lia.
Qed.

(** X23.  Two notices made one after the other by the same process get
    different Message-IDs, even within the same second: the counter
    [global_outgoing_count] is part of the id and has moved on.  (The ids
    are taken as they are left in the 8192-byte buffer; the property needs
    them not to be cut, that is, a host name that leaves room.) *)
Theorem new_msgid_distinct o w (id1 id2 : string) w1 w2 :
  - 2 ^ 31 <= w_outgoing_count w < 2 ^ 31 ->
  new_msgid cfg o w = Some (id1, w1) ->
  new_msgid cfg o w1 = Some (id2, w2) ->
  strlen id1 < 8191 -> strlen id2 < 8191 ->
  id1 <> id2.
Proof.
  intros Hn Hid1 Hid2 Hl1 Hl2 Heq.
  rewrite new_msgid_eq in Hid1. injection Hid1 as <- <-.
  rewrite new_msgid_eq in Hid2. injection Hid2 as <- _.
  cbn [w_outgoing_count] in *.
  rewrite !snprintf_short in Heq by assumption.
  do 5 apply string_app_inv_head in Heq.
  apply string_app_inv_tail in Heq.
  apply fmt_d_inj in Heq. symmetry in Heq.
  exact (to_int_succ _ Hn Heq).
Qed.

End ResponseFacts.

(** ** Ledger keys and address books *)

Lemma hex_inj (x y : nat) : (x < 16)%nat -> (y < 16)%nat -> hex x = hex y -> x = y.
Proof.
  intros Hx Hy.
  do 16 (destruct x as [|x];
         [do 16 (destruct y as [|y]; [first [reflexivity | discriminate]|]);
          lia|]).
  lia.
Qed.

Lemma hex_pair_inj (a b : ascii) :
  hex (nat_of_ascii a / 16) = hex (nat_of_ascii b / 16) ->
  hex (nat_of_ascii a mod 16) = hex (nat_of_ascii b mod 16) ->
  a = b.
Proof.
  intros Hhi Hlo.
  pose proof (nat_ascii_bounded a) as Ha.
  pose proof (nat_ascii_bounded b) as Hb.
  apply hex_inj in Hhi;
    [|apply Nat.Div0.div_lt_upper_bound; lia
     |apply Nat.Div0.div_lt_upper_bound; lia].
  apply hex_inj in Hlo; [|apply Nat.mod_upper_bound; lia
                         |apply Nat.mod_upper_bound; lia].
  rewrite <- (ascii_nat_embedding a), <- (ascii_nat_embedding b).
  f_equal.
  rewrite (Nat.div_mod_eq (nat_of_ascii a) 16),
          (Nat.div_mod_eq (nat_of_ascii b) 16).
  rewrite Hhi, Hlo. reflexivity.
Qed.

Lemma str_inj (l1 l2 : list ascii) : str l1 = str l2 -> l1 = l2.
Proof.
  intros Heq. apply (f_equal chars) in Heq. rewrite !chars_str in Heq.
  exact Heq.
Qed.

(** X24.  The id that [autorespond] makes of the hash of a vacation: two
    hexadecimal digits for each byte, so an id of twice the length of the
    hash, and different hashes give different ids.  With the userid as the
    target this makes the ledger key of a vacation response: two keys are
    the same only for the same hash and the same user. *)
Theorem vacation_key_identifies_hash_and_user :
  (forall hash : list ascii,
      String.length (hash_id hash) = (2 * length hash)%nat) /\
  (forall hash1 hash2 : list ascii,
      hash_id hash1 = hash_id hash2 -> hash1 = hash2) /\
  (forall (arc1 arc2 : sieve_autorespond_context_t) (u1 u2 : string),
      dkey_tuple (vacation_key arc1 u1) = dkey_tuple (vacation_key arc2 u2) ->
      arc_hash arc1 = arc_hash arc2 /\ u1 = u2).
Proof.
  assert (Hinj : forall hash1 hash2 : list ascii,
             hash_id hash1 = hash_id hash2 -> hash1 = hash2).
  { unfold hash_id. intros hash1 hash2 Heq. apply str_inj in Heq.
    revert hash2 Heq.
    induction hash1 as [|a h1 IH]; intros [|b h2] Heq; try discriminate.
    - reflexivity.
    - cbn [map concat app] in Heq. injection Heq as Hhi Hlo Hrest.
      rewrite (hex_pair_inj a b Hhi Hlo). f_equal. apply IH. exact Hrest. }
  split; [|split; [exact Hinj|]].
  - intros hash. unfold hash_id.
    rewrite <- (length_chars (str _)), chars_str.
    induction hash as [|a h IH]; [reflexivity|].
    cbn [map concat app length]. rewrite IH. lia.
  - intros arc1 arc2 u1 u2 Heq. unfold dkey_tuple, vacation_key in Heq.
    cbn [dk_id dk_to dk_date] in Heq. injection Heq as Hid Hto.
    split; [apply Hinj; exact Hid | exact Hto].
Qed.

Section KeyFacts.

Context `{Constants} `{Library}.
Context {hdrcache : Type} `{HeaderCache hdrcache}.
Context {store : Type} `{MailStore (hdrcache := hdrcache) store}.

(** X25.  The sieve database name of a user, under which redirects,
    vacation responses, [duplicate] tests and whole deliveries are
    tracked: [make_sieve_db] never returns more than the
    [MAX_MAILBOX_PATH] bytes its buffer holds, and on users whose name
    leaves room for the dot and [.sieve.] it is [.<user>.sieve.] and
    tells the users apart, so that two users do not share the ledger
    entries of a [duplicate] test. *)
Theorem sieve_db_names_users :
  (forall user : string,
      0 <= MAX_MAILBOX_PATH ->
      strlen (make_sieve_db user) <= MAX_MAILBOX_PATH) /\
  (forall u1 u2 : string,
      strlen u1 + 8 <= MAX_MAILBOX_PATH ->
      strlen u2 + 8 <= MAX_MAILBOX_PATH ->
      make_sieve_db u1 = make_sieve_db u2 -> u1 = u2) /\
  (forall (dtc1 dtc2 : sieve_duplicate_context_t) (u1 u2 : string),
      strlen u1 + 8 <= MAX_MAILBOX_PATH ->
      strlen u2 + 8 <= MAX_MAILBOX_PATH ->
      dkey_tuple (duplicate_key dtc1 u1) = dkey_tuple (duplicate_key dtc2 u2) ->
      dtc_id dtc1 = dtc_id dtc2 /\ u1 = u2).
Proof.
  assert (Hinj : forall u1 u2 : string,
             strlen u1 + 8 <= MAX_MAILBOX_PATH ->
             strlen u2 + 8 <= MAX_MAILBOX_PATH ->
             make_sieve_db u1 = make_sieve_db u2 -> u1 = u2).
  { intros u1 u2 Hu1 Hu2 Heq.
    rewrite !make_sieve_db_fits in Heq by assumption.
    apply string_app_inv_head in Heq. apply string_app_inv_tail in Heq.
    exact Heq. }
  split; [|split; [exact Hinj|]].
  - intros user Hmax. unfold make_sieve_db.
    assert (Hsize : 1 <= MAX_MAILBOX_PATH + 1) by lia.
    destruct (strlen_strlcat
                (strlcat "." user (MAX_MAILBOX_PATH + 1)) ".sieve."
                (MAX_MAILBOX_PATH + 1) Hsize) as [Hlt _].
    lia.
  - intros dtc1 dtc2 u1 u2 Hu1 Hu2 Heq. unfold dkey_tuple, duplicate_key in Heq.
    cbn [dk_id dk_to dk_date] in Heq. injection Heq as Hid Hto.
    split; [exact Hid | exact (Hinj u1 u2 Hu1 Hu2 Hto)].
Qed.

Lemma strip_prefix_app (p x : string) : strip_prefix p (p +:+ x) = Some x.
Proof.
  induction p as [|c p IH]; [reflexivity|].
  change (String c p +:+ x) with (String c (p +:+ x)).
  cbn [strip_prefix]. rewrite Ascii.eqb_refl. exact IH.
Qed.

(** X26.  The address book that a list names.  The full form
    [urn:ietf:params:sieve:addrbook:<name>] and the short form
    [:addrbook:<name>] of a list (after percent-decoding) name the same
    address book; the name [default] is taken in any mix of upper and
    lower case and stands for [Default]; and the result is the mailbox of
    that address book exactly when [mboxlist_lookup] finds it, NULL
    otherwise.  A list with neither prefix names no address book. *)
Theorem addrbook_of_list (st : store) (userid : option string) :
  (forall (list1 list2 name : string),
      xmlURIUnescapeString list1 = "urn:ietf:params:sieve:addrbook:" +:+ name ->
      xmlURIUnescapeString list2 = ":addrbook:" +:+ name ->
      get_addrbook_mboxname st list1 userid =
        (let abook := if strcaseeq name "Default" then "Default" else name in
         if mboxlist_lookup st (carddav_mboxname userid abook) =? 0
         then Some (carddav_mboxname userid abook) else None) /\
      get_addrbook_mboxname st list2 userid =
        get_addrbook_mboxname st list1 userid) /\
  (forall list : string,
      strip_prefix "urn:ietf:params:sieve:addrbook:"
        (xmlURIUnescapeString list) = None ->
      strip_prefix ":addrbook:" (xmlURIUnescapeString list) = None ->
      get_addrbook_mboxname st list userid = None).
Proof.
  split.
  - intros list1 list2 name Hl1 Hl2. unfold get_addrbook_mboxname.
    rewrite Hl1, Hl2, strip_prefix_app.
    change (strip_prefix "urn:ietf:params:sieve:addrbook:"
              (":addrbook:" +:+ name)) with (@None string).
    rewrite strip_prefix_app. split; reflexivity.
  - intros list Hfull Habbrev. unfold get_addrbook_mboxname.
    rewrite Hfull, Habbrev. reflexivity.
Qed.

End KeyFacts.

(** ** The tests of a script *)

Section TestFacts.

Context `{Constants} `{Library}.
Context {hdrcache : Type} `{HeaderCache hdrcache}.
Context {store : Type} `{MailStore (hdrcache := hdrcache) store}.
Variable cfg : config.

Local Arguments String.eqb : simpl never.




(** X27.  The items of the [environment] test.  [getenvironment] knows
    [domain], [host], [location], [name], [phase], [version] and
    [remote-host], and [remote-ip] when the peer has an address; the name
    is compared exactly, case included.  For every other name, the empty
    one too, it fails and leaves [*res] NULL.  The fixed items are [MDA],
    [Cyrus LMTP], [during] and the version of the build; [host] is the
    configured server name. *)
Theorem getenvironment_items (peer : clienthost) (keyname : string) :
  (fst (getenvironment cfg peer keyname) = SIEVE_OK \/
   getenvironment cfg peer keyname = (SIEVE_FAIL, None)) /\
  (fst (getenvironment cfg peer keyname) = SIEVE_OK <->
   In keyname ["domain"; "host"; "location"; "name"; "phase"; "version";
               "remote-host"] \/
   (keyname = "remote-ip" /\ is_Some (remoteip peer))) /\
  getenvironment cfg peer "host" = (SIEVE_OK, Some (config_servername cfg)) /\
  getenvironment cfg peer "location" = (SIEVE_OK, Some "MDA") /\
  getenvironment cfg peer "name" = (SIEVE_OK, Some "Cyrus LMTP") /\
  getenvironment cfg peer "phase" = (SIEVE_OK, Some "during") /\
  getenvironment cfg peer "version" = (SIEVE_OK, Some CYRUS_VERSION).
Proof.
  split; [|split; [|repeat split]].
  - unfold getenvironment.
    match goal with
    | |- context [is_Some_b ?r] => destruct r
    end; [left | right]; reflexivity.
  - split.
    + unfold getenvironment. destruct keyname as [|c rest].
      { intros Hf. exfalso. cbn in Hf. apply SIEVE_FAIL_nonzero. exact Hf. }
      cbv zeta.
      repeat match goal with
      | |- context [if Ascii.eqb c ?x then _ else _] =>
          destruct (Ascii.eqb c x)
      end;
      try match goal with
      | |- context [String.eqb ?k ?lit] =>
          destruct (String.eqb_spec k lit) as [->|_]
      end;
      cbn [is_Some_b fst]; intros Hok;
        try (exfalso; apply SIEVE_FAIL_nonzero; exact Hok);
        try (left; cbn; tauto).
      destruct (strip_prefix "remote-" (String c rest)) as [item|] eqn:Hitem;
        [|exfalso; apply SIEVE_FAIL_nonzero; exact Hok].
      assert (Hkey : String c rest = "remote-" +:+ item).
      { clear Hok. revert Hitem. generalize (String c rest). intros k.
        do 7 (destruct k as [|? k]; [discriminate|];
              cbn [strip_prefix];
              match goal with
              | |- context [Ascii.eqb ?a ?b] =>
                  destruct (Ascii.eqb_spec a b) as [<-|]; [|discriminate]
              end).
        cbn [strip_prefix]. intros [= ->]. reflexivity. }
      rewrite Hkey.
      destruct (String.eqb_spec item "host") as [->|_]; [left; cbn; tauto|].
      destruct (remoteip peer) as [ip|];
        [|exfalso; apply SIEVE_FAIL_nonzero; exact Hok].
      destruct (String.eqb_spec item "ip") as [->|_];
        [|exfalso; apply SIEVE_FAIL_nonzero; exact Hok].
      right. split; [reflexivity | eexists; reflexivity].
    + intros [Hin | [-> [ip Hip]]].
      * cbn [In] in Hin.
        destruct Hin as [<-|[<-|[<-|[<-|[<-|[<-|[<-|[]]]]]]]]; reflexivity.
      * unfold getenvironment. rewrite Hip. reflexivity.
Qed.



Lemma strcaseeq_lit (field lit : string) :
  lcase lit = lit -> strcaseeq field lit = true <-> lcase field = lit.
Proof.
  intros Hlit. unfold strcaseeq. rewrite Hlit. apply String.eqb_eq.
Qed.

(** X29.  The parts of the [envelope] test.  [getenvelope] knows [from],
    [to] and [auth], in any mix of upper and lower case, and [auth] only
    in a session that is authenticated; for every other name, and for
    [auth] without an authenticated user, it fails and leaves [*contents]
    NULL.  It never yields more than one value: [from] has the return
    path of the message, and no value at all (but still succeeds) when
    that is NULL; [to] has what [msg_getrcptall] gives for the current
    recipient, never another recipient of the message. *)
Theorem getenvelope_parts
    (msg_getrcptall : message_data_t (hdrcache := hdrcache) -> Z
                      -> option string)
    (mydata : deliver_data_t) (field : string) :
  (fst (getenvelope msg_getrcptall mydata field) = SIEVE_OK <->
   lcase field = "from" \/ lcase field = "to" \/
   (lcase field = "auth" /\ is_Some (dd_authuser mydata))) /\
  (fst (getenvelope msg_getrcptall mydata field) = SIEVE_OK \/
   getenvelope msg_getrcptall mydata field = (SIEVE_FAIL, None)) /\
  (forall vals : list string,
      snd (getenvelope msg_getrcptall mydata field) = Some vals ->
      (length vals <= 1)%nat) /\
  (lcase field = "from" ->
   getenvelope msg_getrcptall mydata field =
     (SIEVE_OK, Some (temp_of (m_return_path (dd_m mydata))))) /\
  (lcase field = "to" ->
   getenvelope msg_getrcptall mydata field =
     (SIEVE_OK,
      Some (temp_of (msg_getrcptall (dd_m mydata) (dd_cur_rcpt mydata))))).
Proof.
  pose proof (strcaseeq_lit field "from" eq_refl) as Hfrom.
  pose proof (strcaseeq_lit field "to" eq_refl) as Hto.
  pose proof (strcaseeq_lit field "auth" eq_refl) as Hauth.
  unfold getenvelope.
  destruct (strcaseeq field "from") eqn:Ef.
  { assert (Hl : lcase field = "from") by (apply Hfrom; reflexivity).
    split; [split; [intros _; left; exact Hl | reflexivity]|].
    split; [left; reflexivity|].
    split; [intros vals [= <-]; destruct (m_return_path _); cbn; lia|].
    split; [reflexivity|]. rewrite Hl. discriminate. }
  destruct (strcaseeq field "to") eqn:Et.
  { assert (Hl : lcase field = "to") by (apply Hto; reflexivity).
    split; [split; [intros _; right; left; exact Hl | reflexivity]|].
    split; [left; reflexivity|].
    split; [intros vals [= <-]; destruct (msg_getrcptall _ _); cbn; lia|].
    split; [rewrite Hl; discriminate | reflexivity]. }
  assert (Hnf : lcase field <> "from").
  { intros Hl. apply Hfrom in Hl. congruence. }
  assert (Hnt : lcase field <> "to").
  { intros Hl. apply Hto in Hl. congruence. }
  destruct (strcaseeq field "auth") eqn:Ea; cbn [andb].
  - assert (Hl : lcase field = "auth") by (apply Hauth; reflexivity).
    destruct (dd_authuser mydata) as [user|] eqn:Eu; cbn [is_Some_b].
    + split; [split; [intros _; right; right; split;
                      [exact Hl | eexists; reflexivity] | reflexivity]|].
      split; [left; reflexivity|].
      split; [intros vals [= <-]; cbn; lia|].
      split; [intros Hc; contradiction | intros Hc; contradiction].
    + split.
      { split.
        - intros Hok. exfalso. apply SIEVE_FAIL_nonzero. exact Hok.
        - intros [Hc|[Hc|[_ [x Hx]]]]; [contradiction | contradiction
                                         | discriminate]. }
      split; [right; reflexivity|].
      split; [intros vals Hv; discriminate|].
      split; [intros Hc; contradiction | intros Hc; contradiction].
  - split.
    { split.
      - intros Hok. exfalso. apply SIEVE_FAIL_nonzero. exact Hok.
      - intros [Hc|[Hc|[Hc _]]]; [contradiction | contradiction|].
        apply Hauth in Hc. congruence. }
    split; [right; reflexivity|].
    split; [intros vals Hv; discriminate|].
    split; [intros Hc; contradiction | intros Hc; contradiction].
Qed.

(** X30.  Lists: the validator and the comparison agree.  [listvalidator]
    accepts a list exactly when [get_addrbook_mboxname] finds its address
    book.  [listcompare] reports a match only for a list that the
    validator accepts, and only with the CardDAV database of the user
    open; the number it returns is the number of cards that have the
    address, and it hands the text to [strarray_add] for the match
    variables exactly when that number is not zero (and leaves them as they
    are otherwise). *)
Theorem listcompare_agrees_with_validator
    (carddav_getemail2uids : store -> string -> string -> list string)
    (strarray_add : list string -> string -> list string)
    o (st : store) (ctx : sieve_interp_ctx) (text listname : string)
    (match_vars : option (list string)) :
  (listvalidator st ctx listname = SIEVE_OK <->
   is_Some (get_addrbook_mboxname st listname (ctx_userid ctx))) /\
  (fst (listcompare carddav_getemail2uids strarray_add o st ctx text listname match_vars)
     <> 0 ->
   listvalidator st ctx listname = SIEVE_OK /\ o_carddav_open o = true) /\
  (forall abook : string,
      get_addrbook_mboxname st listname (ctx_userid ctx) = Some abook ->
      o_carddav_open o = true ->
      fst (listcompare carddav_getemail2uids strarray_add o st ctx text listname
             match_vars)
      = Z.of_nat (length (carddav_getemail2uids st text abook))) /\
  snd (listcompare carddav_getemail2uids strarray_add o st ctx text listname match_vars) =
    (if fst (listcompare carddav_getemail2uids strarray_add o st ctx text listname
               match_vars) =? 0
     then match_vars
     else (fun mv => strarray_add mv text) <$> match_vars).
Proof.
  unfold listvalidator, listcompare.
  destruct (get_addrbook_mboxname st listname (ctx_userid ctx)) as [abook|];
    cbn [is_Some_b fst snd].
  - split; [split; [intros _; eexists; reflexivity | reflexivity]|].
    split.
    { intros Hn. split; [reflexivity|].
      destruct (o_carddav_open o); [reflexivity | contradiction]. }
    split.
    { intros abook' [= <-] ->. reflexivity. }
    destruct (_ =? 0); reflexivity.
  - split.
    { split.
      - intros Hok. exfalso. apply SIEVE_FAIL_nonzero. exact Hok.
      - intros [x Hx]. discriminate. }
    split; [intros Hn; contradiction|].
    split; [intros abook' Hc; discriminate | reflexivity].
Qed.

End TestFacts.

(** ** The handlers on the sample installation *)

Import ListCache Sample.

Example redirect_twice_sends_once_sample :
  m_id (dd_m dd) = Some "<m1@example.com>" /\
  mbname_userid (sd_mbname sd) = Some "bob" /\
  duplicate_check (w_dup w0)
    (redirect_key "<m1@example.com>" redirect_to_carol "bob" (dd_m dd)) = 0 /\
  o_now (oracle_at 100) <> 0 /\
  sieve_redirect cfg (oracle_at 100) redirect_to_carol ctx sd dd w0 =
    Some ((SIEVE_OK, None), w1) /\
  (exists job, sends (w_trace w1) = sends (w_trace w0) ++ [SmtpSend job]) /\
  exists w2,
    sieve_redirect cfg (oracle_at 200) redirect_to_carol ctx sd dd w1 =
      Some ((SIEVE_OK, None), w2) /\
    sends (w_trace w2) = sends (w_trace w1) /\
    w_dup w2 = w_dup w1.
Proof.
  assert (Hfree : duplicate_check (w_dup w0)
                    (redirect_key "<m1@example.com>" redirect_to_carol "bob"
                       (dd_m dd)) = 0) by by_vm.
  assert (Hrun : sieve_redirect cfg (oracle_at 100) redirect_to_carol ctx sd
                   dd w0 = Some ((SIEVE_OK, None), w1)) by by_vm.
  split; [reflexivity|]. split; [reflexivity|].
  split; [exact Hfree|]. split; [simpl; lia|].
  split; [exact Hrun|].
  refine (redirect_twice_sends_once cfg (oracle_at 100) (oracle_at 200)
            redirect_to_carol redirect_to_carol ctx ctx sd sd dd dd
            "<m1@example.com>" "bob" w0 w1 None eq_refl eq_refl eq_refl
            eq_refl eq_refl eq_refl Hfree _ Hrun).
  simpl. lia.
Defined.

(** C3, as the specification has it, does not hold: after the redirect of
    the sample message at time 100 the ledger has nothing under (message
    id, target address, empty date), and the mark is under the key of
    [redirect_key]; and a ledger marked under the specification's key does
    not stop the redirect, which sends. *)
Example redirect_key_is_not_the_claimed_key :
  (sieve_redirect cfg (oracle_at 100) redirect_to_carol ctx sd dd w0 =
     Some ((SIEVE_OK, None), w1) /\
   w_dup w1 !! dkey_tuple claimed_redirect_key = None /\
   w_dup w1 !! ("<m1@example.com>-carol@example.net", ".bob.sieve.",
                "Fri, 30 Oct 2026 10:00:00 +0000") = Some 100) /\
  (exists w' job,
      sieve_redirect cfg (oracle_at 100) redirect_to_carol ctx sd dd
        (set_dup w0 (duplicate_mark (w_dup w0) claimed_redirect_key 50)) =
        Some ((SIEVE_OK, None), w') /\
      sends (w_trace w') = [SmtpSend job]).
Proof.
  split.
  - repeat split; by_vm.
  - exists (match sieve_redirect cfg (oracle_at 100) redirect_to_carol ctx sd
                    dd (set_dup w0 (duplicate_mark (w_dup w0)
                                      claimed_redirect_key 50)) with
            | Some (_, w) => w
            | None => w0
            end),
      {| sm_auth := Some "bob"; sm_dsn := Some ("", "", "");
         sm_env := {| env_from := "alice@example.com";
                      env_rcpts := ["carol@example.net"] |};
         sm_msg := m_f msg |}.
    split; by_vm.
Qed.

Example redirect_ledger_key_sample :
  m_id (dd_m dd) = Some "<m1@example.com>" /\
  mbname_userid (sd_mbname sd) = Some "bob" /\
  dk_id (redirect_key "<m1@example.com>" redirect_to_carol "bob" (dd_m dd)) =
    "<m1@example.com>-carol@example.net" /\
  dk_to (redirect_key "<m1@example.com>" redirect_to_carol "bob" (dd_m dd)) =
    ".bob.sieve." /\
  exists (r : Z) (e : option string) w',
    sieve_redirect cfg (oracle_at 100) redirect_to_carol ctx sd dd w0 =
      Some ((r, e), w') /\
    ((r = SIEVE_OK /\
      w_dup w' = duplicate_mark (w_dup w0)
                   (redirect_key "<m1@example.com>" redirect_to_carol "bob"
                      (dd_m dd)) (o_now (oracle_at 100))) \/
     (r = SIEVE_FAIL /\ w_dup w' = w_dup w0)).
Proof.
  pose proof (redirect_ledger_key cfg (oracle_at 100) redirect_to_carol ctx sd
                dd "<m1@example.com>" "bob" w0 eq_refl eq_refl)
    as (_ & Hid & Hto & _ & Hmark).
  split; [reflexivity|]. split; [reflexivity|].
  split; [apply Hid; vm_compute; reflexivity|].
  split; [apply Hto; vm_compute; intro; discriminate|].
  apply Hmark. vm_compute. reflexivity.
Defined.


(** C7, as the specification has it, does not hold: with the transport
    down at time 1000 no response is sent and the handler pair fails, yet
    the ledger holds the mark [1000 + 86400] (it was made by [autorespond],
    before [send_response] started); the next trigger, one second later, is
    then suppressed although nothing was ever sent. *)
Example vacation_marks_before_sending :
  exists e w' w'',
    vacation cfg (oracle_smtp_down 1000) holiday reply ctx sd dd w0 =
      Some ((SIEVE_FAIL, Some e), w') /\
    sends (w_trace w') = [] /\
    w_dup w' !! dkey_tuple (vacation_key holiday "bob") = Some (1000 + 86400) /\
    vacation cfg (oracle_at 1001) holiday reply ctx sd dd w' =
      Some ((SIEVE_DONE, None), w'') /\
    sends (w_trace w'') = [].
Proof.
  exists "75",
    (match vacation cfg (oracle_smtp_down 1000) holiday reply ctx sd dd w0 with
     | Some (_, w) => w
     | None => w0
     end),
    (add_trace
       (match vacation cfg (oracle_smtp_down 1000) holiday reply ctx sd dd
                w0 with
        | Some (_, w) => w
        | None => w0
        end) autorespond_counters).
  repeat split; by_vm.
Qed.

Example vacation_window_sample :
  mbname_userid (sd_mbname sd) = Some "bob" /\
  w_dup w0 !! dkey_tuple (vacation_key holiday "bob") = None /\
  0 < 1000 + arc_seconds holiday /\
  exists r0 e0 w1 job0 w2 r2 e2 w3 job2,
    vacation cfg (oracle_at 1000) holiday reply ctx sd dd w0
      = Some ((r0, e0), w1) /\
    sends (w_trace w1) = sends (w_trace w0) ++ [SmtpSend job0] /\
    vacation cfg (oracle_at (1000 + 86400 - 1)) holiday reply ctx sd dd w1
      = Some ((SIEVE_DONE, None), w2) /\
    sends (w_trace w2) = sends (w_trace w1) /\
    w_dup w2 = w_dup w1 /\
    vacation cfg (oracle_at (1000 + 86400 + 1)) holiday reply ctx sd dd w2
      = Some ((r2, e2), w3) /\
    sends (w_trace w3) = sends (w_trace w2) ++ [SmtpSend job2].
Proof.
  split; [reflexivity|]. split; [reflexivity|]. split; [simpl; lia|].
  pose proof (vacation_window cfg holiday reply ctx sd dd "bob" eq_refl)
    as (_ & _ & Hthree).
  apply (Hthree (oracle_at 1000) (oracle_at (1000 + 86400 - 1))
           (oracle_at (1000 + 86400 + 1)) w0 1000).
  - reflexivity.
  - simpl. lia.
  - reflexivity.
  - reflexivity.
  - reflexivity.
  - reflexivity.
  - reflexivity.
Defined.

Example dump_header_folding_sample :
  (Fold.has_tab (chars (fox +:+ " " +:+ woods)) = false /\
   Fold.has_double_sp (chars (fox +:+ " " +:+ woods)) = false /\
   strlen "Subject" + 2 + strlen fox <= 78 /\
   78 < strlen "Subject" + 2 + strlen fox + 1
          + Z.of_nat (Fold.word_len (chars woods)) /\
   exists out : string,
     Fold.dump_header plain_encoder "Subject" (fox +:+ " " +:+ woods) =
       Some ("Subject" +:+ ": " +:+
             (if Fold.starts_blank (chars fox) then CRLF else "") +:+
             fox +:+ CRLF +:+ " " +:+ out +:+ CRLF) /\
     (fox <> "" ->
      Fold.fold_value 78 (chars (" " +:+ woods)) =
        Some (chars (CRLF +:+ " " +:+ out)))) /\
  (Fold.first_fold_point (chars ("one two" +:+ String HTAB "three four"))
     = Some 7%nat /\
   exists out : string,
     Fold.fold_value 78
       (drop 7 (chars ("one two" +:+ String HTAB "three four"))) =
       Some (chars (CRLF +:+ out)) /\
     Fold.dump_header plain_encoder "Subject"
       ("one two" +:+ String HTAB "three four") =
       Some ("Subject" +:+ ": " +:+
             str (take 7 (chars ("one two" +:+ String HTAB "three four")))
             +:+ CRLF +:+ out +:+ CRLF)) /\
  Fold.dump_header plain_encoder "Subject" "unbroken" =
    Some ("Subject" +:+ ": " +:+ "unbroken" +:+ CRLF).
Proof.
  pose proof (dump_header_folding plain_encoder "Subject")
    as (Hlast & Hpoint & Hplain).
  split; [|split].
  - split; [reflexivity|]. split; [reflexivity|].
    split; [vm_compute; intro; discriminate|].
    split; [vm_compute; reflexivity|].
    apply (Hlast fox woods).
    + reflexivity.
    + reflexivity.
    + reflexivity.
    + vm_compute. intro. discriminate.
    + vm_compute. reflexivity.
  - split; [reflexivity|].
    apply (Hpoint ("one two" +:+ String HTAB "three four") 7%nat);
      reflexivity.
  - apply Hplain; reflexivity.
Defined.

(** The value of 100 characters of the specification's test: under the name
    [Subject] the last SP at or before column 78 is the one after
    [eiusmod], and the line is folded there. *)
Example dump_header_hundred :
  String.length hundred = 100%nat /\
  Fold.dump_header plain_encoder "Subject" hundred =
    Some ("Subject: Lorem ipsum dolor sit amet consectetur adipiscing elit sed do eiusmod"
          +:+ CRLF +:+ " tempor incididunt ut labore et" +:+ CRLF).
Proof. split; vm_compute; reflexivity. Qed.

(** C1, as the specification has it, does not hold: the header that
    [addheader] adds, and the one that [deleteheader] removes, change what
    a header test on the inbound message answers, also after a keep. *)
Example header_edit_is_seen_by_getheader :
  (getheader dd (Some "X-Spam") = (SIEVE_FAIL, None) /\
   exists sc' mc' w',
     addheader sd dd (Some "X-Spam") (Some "yes") (-1) = (SIEVE_OK, sc', mc') /\
     sieve_keep (oracle_at 100) [] sc' mc' w0 = Some ((SIEVE_OK, None), w') /\
     getheader mc' (Some "X-Spam") = (SIEVE_OK, Some ["yes"])) /\
  (getheader dd (Some "Subject") = (SIEVE_OK, Some ["hello"]) /\
   exists sc' mc' w',
     deleteheader sd dd (Some "subject") 0 = (SIEVE_OK, sc', mc') /\
     sieve_keep (oracle_at 100) [] sc' mc' w0 = Some ((SIEVE_OK, None), w') /\
     getheader mc' (Some "Subject") = (SIEVE_FAIL, None)).
Proof.
  split.
  - split; [reflexivity|]. eexists _, _, _.
    split; [reflexivity|]. split; vm_compute; reflexivity.
  - split; [reflexivity|]. eexists _, _, _.
    split; [reflexivity|]. split; vm_compute; reflexivity.
Qed.

(** The staged copy of the sample message after the edit: the edited
    headers, then the body of the spool file. *)
Example staged_copy_sample :
  exists w',
    sieve_keep (oracle_at 100) [] sd_edited
      (set_m dd (set_hdrcache (dd_m dd) (hdrs ++ [("X-Spam", "yes")]))) w0
      = Some ((SIEVE_OK, None), w') /\
    exists mc'' rest,
      w_trace w' = NewStage (Some "stage-1") :: DeliverLocal mc'' [] 0 :: rest
      /\ m_f (dd_m mc'') =
           "From: alice@example.com" +:+ CRLF +:+ "Subject: hello" +:+ CRLF
           +:+ "X-Spam: yes" +:+ CRLF +:+ CRLF +:+ "body" +:+ CRLF
      /\ m_f (dd_m dd) =
           "From: alice@example.com" +:+ CRLF +:+ "Subject: hello" +:+ CRLF
           +:+ CRLF +:+ "body" +:+ CRLF.
Proof.
  eexists. split; [vm_compute; reflexivity|].
  eexists _, _. split; [reflexivity|]. split; vm_compute; reflexivity.
Qed.

(** Fileinto on the sample installation, where only [user.bob] exists and
    the configured auto-create names are [Junk] and [Lists]: the folder
    [Junk] is created and the delivery retried; for [Other] nothing is
    created and the action fails with the message of "mailbox does not
    exist". *)
Example fileinto_autocreate_sample :
  (exists w' d,
      sieve_fileinto cfg (oracle_at 100) into_junk sd dd w0 =
        Some ((SIEVE_OK, None), w') /\
      store_calls (w_trace w') =
        [DeliverMailbox d IMAP_MAILBOX_NONEXISTENT;
         CreateMailbox "user.bob.Junk" 0; DeliverMailbox d 0] /\
      dl_mailbox d = "user.bob.Junk" /\
      w_store w' = ["user.bob.Junk"; "user.bob"]) /\
  (exists w' d,
      sieve_fileinto cfg (oracle_at 100) into_other sd dd w0 =
        Some ((SIEVE_FAIL, Some (error_message IMAP_MAILBOX_NONEXISTENT)), w')
      /\ store_calls (w_trace w') =
           [DeliverMailbox d IMAP_MAILBOX_NONEXISTENT] /\
      w_store w' = ["user.bob"]).
Proof.
  split.
  - eexists _, _. split; [vm_compute; reflexivity|].
    split; [|split]; vm_compute; reflexivity.
  - eexists _, _. split; [vm_compute; reflexivity|].
    split; vm_compute; reflexivity.
Qed.

(** ** More runs on the small installation *)

Import MoreSamples.

Example dump_header_unfolds_sample :
  has_cr (chars (plain_encoder fox)) = false /\
  exists out : list ascii,
    Fold.dump_header plain_encoder "X-Long-Header-Name-For-A-Folded-Line" fox =
      Some ("X-Long-Header-Name-For-A-Folded-Line" +:+ ": " +:+ str out +:+ CRLF)
    /\ unfolded out = chars (plain_encoder fox).
Proof.
  split; [reflexivity|].
  apply (dump_header_unfolds plain_encoder). reflexivity.
Defined.

Example dump_header_short_sample :
  strlen "Subject" + 2 + strlen (plain_encoder " hello") <= 78 /\
  Fold.dump_header plain_encoder "Subject" " hello" =
    Some ("Subject: " +:+ CRLF +:+ " hello" +:+ CRLF).
Proof.
  split; [vm_compute; discriminate|].
  apply (dump_header_short plain_encoder "Subject" " hello");
    [vm_compute; discriminate | reflexivity | reflexivity].
Defined.

Example sieve_find_script_layout_sample :
  sieve_find_script cfg (oracle_at 100) (Some "dora") (Some "example.org")
    (Some "vacation") "" 4097 w0 =
  Some ((0, "/var/lib/sieve/domain/e/example.org/d/dora/vacation.bc"),
        add_trace w0
          [SieveRebuild
             "/var/lib/sieve/domain/e/example.org/d/dora/vacation.bc"]).
Proof.
  exact (sieve_find_script_layout cfg (oracle_at 100) "/var/lib/sieve"
           (Some "dora") (Some "example.org") (Some "vacation") "" 4097 w0
           eq_refl eq_refl ltac:(discriminate)
           ltac:(intros u [= <-]; vm_compute; discriminate)
           ltac:(vm_compute; reflexivity)).
Defined.

Example sieve_find_script_cuts_name_sample :
  strlen "/var/lib/sieve/b/bob/" < 24 /\
  exists w',
    sieve_find_script cfg (oracle_at 100) (Some "bob") None (Some "vacation")
      "" 24 w0 = Some ((0, "/var/lib/sieve/b/bob/va"), w').
Proof.
  split; [vm_compute; reflexivity|].
  exact (sieve_find_script_cuts_name cfg (oracle_at 100) "/var/lib/sieve"
           (Some "bob") None (Some "vacation") "" 24 w0
           eq_refl eq_refl ltac:(discriminate)
           ltac:(intros u [= <-]; vm_compute; discriminate)
           ltac:(vm_compute; reflexivity)).
Defined.

Example global_script_in_homedir_mode_sample :
  sieve_usehomedir cfg_homedir = true /\
  sieve_find_script cfg_homedir (oracle_at 100) None None (Some "common")
    "" 4097 w0 = None /\
  getinclude cfg_homedir (oracle_at 100) sd "common" true "" 4097 w0 = None.
Proof.
  split; [reflexivity|].
  destruct (global_script_in_homedir_mode cfg_homedir (oracle_at 100) sd None
              "common" "" 4097 w0 eq_refl) as [Hfind Hincl].
  split; [exact Hfind | exact (Hincl eq_refl)].
Defined.

Example getinclude_global_fallback_sample :
  getinclude cfg oracle_nofile sd_dora "common" true "" 4097 w0 =
  Some ((0, "/var/lib/sieve/global/common.bc"),
        add_trace w0
          [SieveRebuild "/var/lib/sieve/domain/e/example.org/global/common.bc";
           Stat "/var/lib/sieve/domain/e/example.org/global/common.bc";
           SieveRebuild "/var/lib/sieve/global/common.bc"]).
Proof.
  assert (Hfit : strlen (script_path cfg "/var/lib/sieve" (Some "example.org")
                           None (Some "common")) < 4097)
    by (vm_compute; reflexivity).
  exact (getinclude_global_fallback cfg oracle_nofile sd_dora "/var/lib/sieve"
           "example.org" "common" "" 4097 w0
           eq_refl eq_refl eq_refl eq_refl Hfit).
Defined.

Example send_forward_strips_return_path_sample :
  Forall (fun l => header_line l = true) relayed_header /\
  send_forward cfg (oracle_at 100) redirect_to_carol ctx
    (Some "alice@example.com")
    (concat_lines relayed_header +:+ CRLF +:+ relayed_body) w0 =
  Some (0,
        add_trace w0
          [SmtpSend
             {| sm_auth := Some "bob";
                sm_dsn := Some ("", "", "");
                sm_env := {| env_from := "alice@example.com";
                             env_rcpts := ["carol@example.net"] |};
                sm_msg := "Subject: hello" +:+ CRLF +:+ CRLF +:+
                          "Return-Path: is a header field" +:+ CRLF |}]).
Proof.
  assert (Hhl : Forall (fun l => header_line l = true) relayed_header).
  { repeat constructor. }
  split; [exact Hhl|].
  exact (send_forward_strips_return_path cfg (oracle_at 100) redirect_to_carol
           ctx (Some "alice@example.com") relayed_header relayed_body w0
           eq_refl eq_refl eq_refl Hhl).
Defined.

Example redirect_without_id_not_tracked_sample :
  m_id (dd_m dd_noid) = None /\
  exists (r : Z) (e : option string) w' (t : list event),
    sieve_redirect cfg (oracle_at 100) redirect_to_carol ctx sd dd_noid w0
      = Some ((r, e), w') /\
    w_trace w' = w_trace w0 ++ t /\
    w_dup w' = w_dup w0 /\
    (r = SIEVE_OK \/ r = SIEVE_FAIL) /\
    (r = SIEVE_OK -> exists job, sends t = [SmtpSend job]).
Proof.
  split; [reflexivity|].
  exact (redirect_without_id_not_tracked cfg (oracle_at 100) redirect_to_carol
           ctx sd dd_noid w0 eq_refl).
Defined.

Example send_response_outcome_sample :
  mbname_userid (sd_mbname sd) = Some "bob" /\
  exists w',
    send_response cfg (oracle_smtp_down 100) reply ctx sd dd w0 =
      Some ((SIEVE_FAIL, Some "75"), w') /\
    (true -> w_dup w' = w_dup w0 /\ w_store w' = w_store w0).
Proof.
  split; [reflexivity|].
  destruct (send_response_outcome cfg (oracle_smtp_down 100) reply ctx sd dd
              "bob" w0 eq_refl) as (w' & Hrun & Hframe).
  exists w'. split; [exact Hrun|]. intros _. apply Hframe. reflexivity.
Defined.

Example reject_by_mail_sample :
  need_encode (rj_msg fache) = true /\
  exists (id rest : string) w'
         (t : list (event (hdrcache := list (string * string)))),
    sieve_reject cfg (oracle_at 100) fache ctx sd dd w0 =
      Some ((SIEVE_OK, None, dd), w') /\
    w_dup w' =
      duplicate_mark (w_dup w0)
        {| dk_id := id; dk_to := ".bob.sieve."; dk_date := "100" |} 100 /\
    sends t =
      [SmtpSend {| sm_auth := Some "bob"; sm_dsn := None;
                   sm_env := {| env_from := "<>";
                                env_rcpts := ["alice@example.com"] |};
                   sm_msg := "Message-ID: " +:+ id +:+ CRLF +:+ rest |}].
Proof.
  split; [reflexivity|].
  destruct (reject_by_mail cfg (oracle_at 100) fache ctx sd dd
              "alice@example.com" "bob" w0 eq_refl eq_refl eq_refl
              ltac:(discriminate) eq_refl)
    as (id & rest & w' & t & _ & Hrun & Hdup & _ & _ & Hs).
  exists id, rest, w', t. split; [exact Hrun|]. split; [exact Hdup|].
  exact Hs.
Defined.

Example new_msgid_distinct_sample :
  new_msgid cfg (oracle_at 100) w0 =
    Some ("<cmu-sieve-4242-100-0@mail.example.org>",
          {| w_dup := w_dup w0; w_store := w_store w0; w_trace := w_trace w0;
             w_outgoing_count := 1 |}) /\
  "<cmu-sieve-4242-100-0@mail.example.org>" <>
  "<cmu-sieve-4242-100-1@mail.example.org>".
Proof.
  split; [reflexivity|].
  apply (new_msgid_distinct cfg (oracle_at 100) w0
           "<cmu-sieve-4242-100-0@mail.example.org>"
           "<cmu-sieve-4242-100-1@mail.example.org>"
           {| w_dup := w_dup w0; w_store := w_store w0; w_trace := w_trace w0;
              w_outgoing_count := 1 |}
           {| w_dup := w_dup w0; w_store := w_store w0; w_trace := w_trace w0;
              w_outgoing_count := 2 |});
    [vm_compute; split; [discriminate | reflexivity] | reflexivity | reflexivity
     | vm_compute; reflexivity | vm_compute; reflexivity].
Defined.

Example sieve_find_script_in_homedir_sample :
  sieve_find_script cfg_homedir oracle_home (Some "bob") (Some "example.org")
    None "" 4097 w0 =
    Some ((0, "/home/bob/.sieve"), add_trace w0 [Getpwnam "bob"]) /\
  sieve_find_script cfg_homedir oracle_home (Some "bob") (Some "example.org")
    (Some "spam.bc") "" 4097 w0 =
    Some ((0, "/home/bob/spam.bc"),
          add_trace w0 [Getpwnam "bob"; SieveRebuild "/home/bob/spam.bc"]).
Proof.
  destruct (sieve_find_script_in_homedir cfg_homedir oracle_home "bob"
              "/home/bob" (Some "example.org") "" 4097 w0 eq_refl
              ltac:(vm_compute; discriminate) eq_refl) as [Hdefault Hnamed].
  split.
  - apply Hdefault. vm_compute. reflexivity.
  - apply (Hnamed "spam"). vm_compute. reflexivity.
Defined.

Example redirect_envelope_under_srs_sample :
  (exists job : smtp_job,
      send_forward cfg (oracle_srs srs_fails) redirect_to_carol ctx
        (Some "alice@example.com") (m_f msg) w0 =
        Some (0,
              add_trace w0
                [Syslog LOG_ERR "sieve SRS forward failed (%s, %s): %s"
                   [Some "alice@example.com"; None; Some "1"];
                 SmtpSend job]) /\
      env_rcpts (sm_env job) = ["carol@example.net"] /\
      env_from (sm_env job) = "alice@example.com") /\
  (exists job : smtp_job,
      send_forward cfg (oracle_srs srs_rewrites) redirect_to_carol ctx
        (Some "alice@example.com") (m_f msg) w0 =
        Some (0, add_trace w0 [SmtpSend job]) /\
      env_rcpts (sm_env job) = ["carol@example.net"] /\
      env_from (sm_env job) = "SRS0=x@example.org").
Proof.
  split.
  - exact (redirect_envelope_under_srs cfg (oracle_srs srs_fails)
             redirect_to_carol ctx (Some "alice@example.com") (m_f msg)
             srs_fails 1 None w0 eq_refl eq_refl eq_refl eq_refl).
  - exact (redirect_envelope_under_srs cfg (oracle_srs srs_rewrites)
             redirect_to_carol ctx (Some "alice@example.com") (m_f msg)
             srs_rewrites 0 (Some "SRS0=x@example.org") w0
             eq_refl eq_refl eq_refl eq_refl).
Defined.

Example fcc_copy_is_the_reply_sample :
  mboxlist_lookup (hdrcache := list (string * string)) (w_store w_bob)
    (resolve_folder (hdrcache := list (string * string)) (w_store w_bob)
       into_sent (Some "bob")) = 0 /\
  exists (reply_text : string) w'
         (rest : list (event (hdrcache := list (string * string)))),
    send_response cfg (oracle_at 100) reply_fcc ctx sd dd w_bob
      = Some ((SIEVE_OK, None), w') /\
    w_trace w' =
      SmtpSend {| sm_auth := Some "bob"; sm_dsn := None;
                  sm_env := {| env_from := "<>";
                               env_rcpts := ["alice@example.com"] |};
                  sm_msg := reply_text |} ::
      AppendMessage "user.bob.Sent" reply_text 0 :: rest.
Proof.
  assert (Hsent : mboxlist_lookup (hdrcache := list (string * string))
                    (w_store w_bob)
                    (resolve_folder (hdrcache := list (string * string))
                       (w_store w_bob) into_sent (Some "bob")) = 0)
    by reflexivity.
  split; [exact Hsent|].
  destruct (fcc_copy_is_the_reply cfg (oracle_at 100) reply_fcc ctx sd dd
              "bob" into_sent w_bob eq_refl eq_refl eq_refl eq_refl Hsent)
    as (reply_text & r & w' & rest & Hrun & Hr & Ht).
  exists reply_text, w', rest. split; [exact Hrun|].
  rewrite Ht. cbn in Hr. subst r. reflexivity.
Defined.

(** ** Includes, duplicates and rejections on the small installation *)



Example duplicate_check_and_track_sample :
  mbname_userid (sd_mbname sd) = Some "bob" /\
  0 <= o_now (oracle_at 200) /\
  make_sieve_db "bob" = ".bob.sieve." /\
  sieve_duplicate_check (oracle_at 200) dup sd w_tracked =
    Some (1, add_trace w_tracked
               [DuplicateLog {| dk_id := "order-42"; dk_to := ".bob.sieve.";
                                dk_date := "" |} "sieve-duplicate"]) /\
  sieve_duplicate_check (oracle_at 3700) dup sd w_tracked
    = Some (0, w_tracked) /\
  sieve_duplicate_check (oracle_at 200) other_order sd w_tracked
    = Some (0, w_tracked) /\
  sieve_duplicate_track (oracle_at 200) dup sd w_tracked =
    Some (SIEVE_OK,
          set_dup w_tracked {[ ("order-42", ".bob.sieve.", "") := 3800 ]}) /\
  (exists r : Z,
      sieve_duplicate_check (oracle_at 200) dup sd w_tracked =
        Some (r, if r =? 1
                 then add_trace w_tracked
                        [DuplicateLog {| dk_id := dtc_id dup;
                                         dk_to := make_sieve_db "bob";
                                         dk_date := "" |} "sieve-duplicate"]
                 else w_tracked) /\
      (r = 1 \/ r = 0) /\
      (r = 1 <->
       exists e,
         w_dup w_tracked !! (dtc_id dup, make_sieve_db "bob", "") = Some e /\
         o_now (oracle_at 200) < e)).
Proof.
  split; [reflexivity|]. split; [simpl; lia|].
  split; [by_vm|]. split; [by_vm|]. split; [by_vm|]. split; [by_vm|].
  split; [by_vm|].
  exact (proj1 (duplicate_check_and_track (oracle_at 200) dup sd "bob"
                  w_tracked eq_refl ltac:(simpl; lia))).
Defined.

(** C8.  At a call that the runtime makes for the script of a shared
    mailbox, whose owner has no userid: [make_sieve_db] gives the NULL to
    [strlcat], and neither the test nor the tracking has a result. *)
Example duplicate_test_without_userid :
  mbname_userid (sd_mbname sd_shared) = None /\
  sieve_duplicate_check (oracle_at 100) dup sd_shared w0 = None /\
  sieve_duplicate_track (oracle_at 100) dup sd_shared w0 = None.
Proof. split; [reflexivity|]. split; reflexivity. Qed.

(** C4.  At a reject without a reason, with LMTP rejection switched on: the
    text has no line, the pointer given to the last [%s] is NULL, and the
    handler has no result: no response, no status, no [SIEVE_OK]. *)
Example reject_without_lines :
  sieve_use_lmtp_reject cfg = true /\
  need_encode (rj_msg no_reason) = false /\
  tok_tokens (rj_msg no_reason) CRLF = [] /\
  sieve_reject cfg (oracle_at 100) no_reason ctx sd dd w0 = None.
Proof. repeat split; reflexivity. Qed.

Example reject_lmtp_lines_sample :
  (sieve_use_lmtp_reject cfg = true /\ need_encode (rj_msg go_away) = false) /\
  tok_tokens (rj_msg go_away) CRLF = ["go away"; "please"] /\
  sieve_reject cfg (oracle_at 100) go_away ctx sd dd w0 =
    Some ((SIEVE_OK, None,
           set_m dd
             (msg_setrcpt_status (dd_m dd) 0 LMTP_MESSAGE_REJECTED
                ["550-5.7.1 go away" +:+ CRLF; "550 5.7.1 please" +:+ CRLF])),
          add_trace w0
            [Prometheus "CYRUS_LMTP_SIEVE_REJECT_TOTAL"; Snmp "SIEVE_REJECT";
             Syslog LOG_INFO "sieve LMTP rejected: %s"
               [Some "<m1@example.com>"]]) /\
  sieve_reject cfg (oracle_at 100) fache ctx sd dd w0 =
    reject_mail cfg (oracle_at 100) fache ctx sd dd w0.
Proof.
  split; [split; reflexivity|]. split; [reflexivity|].
  pose proof (reject_lmtp_lines cfg (oracle_at 100) go_away ctx sd dd w0)
    as [Hlines _].
  pose proof (reject_lmtp_lines cfg (oracle_at 100) fache ctx sd dd w0)
    as [_ Hmail].
  split.
  - apply (Hlines ["go away"; "please"]).
    + right. split; reflexivity.
    + reflexivity.
  - apply Hmail; reflexivity.
Defined.

(** C2, as the specification has it, does not hold: the ledger key names
    the owner of the script, so when the message [msg] is redirected to
    the same address first by the script of bob and then by the script of
    dora (one message delivered to both), the second redirect does not
    find the mark of the first, and the message is sent twice. *)
Example redirect_for_two_owners_sends_twice :
  m_id (dd_m dd) = Some "<m1@example.com>" /\
  sieve_redirect cfg (oracle_at 100) redirect_to_carol ctx sd dd w0 =
    Some ((SIEVE_OK, None), w1) /\
  sends (w_trace w1) = [SmtpSend carol_job] /\
  exists w2,
    sieve_redirect cfg (oracle_at 200) redirect_to_carol ctx_dora sd_dora dd w1
      = Some ((SIEVE_OK, None), w2) /\
    sends (w_trace w2) = [SmtpSend carol_job; SmtpSend carol_job_of_dora].
Proof.
  split; [reflexivity|]. split; [by_vm|]. split; [by_vm|].
  exists (match sieve_redirect cfg (oracle_at 200) redirect_to_carol ctx_dora
                  sd_dora dd w1 with
          | Some (_, w) => w
          | None => w1
          end).
  split; by_vm.
Qed.

Example header_edit_then_deliver_sample :
  addheader sd dd (Some "X-Spam") (Some "yes") (-1) =
    (SIEVE_OK, sd_edited,
     set_m dd (set_hdrcache (dd_m dd) (hdrs ++ [("X-Spam", "yes")]))) /\
  getheader dd (Some "X-Spam") = (SIEVE_FAIL, None) /\
  getheader (set_m dd (set_hdrcache (dd_m dd) (hdrs ++ [("X-Spam", "yes")])))
    (Some "X-Spam") = (SIEVE_OK, Some ["yes"]) /\
  exists hdrs' : string,
    dump_headers (hdrs ++ [("X-Spam", "yes")]) = Some hdrs' /\
    hdrs' +:+ str (drop (m_body_offset (dd_m dd)) (chars (m_f (dd_m dd)))) =
      "From: alice@example.com" +:+ CRLF +:+ "Subject: hello" +:+ CRLF
      +:+ "X-Spam: yes" +:+ CRLF +:+ CRLF +:+ "body" +:+ CRLF /\
    (exists res w' t,
        sieve_keep (oracle_at 100) [] sd_edited
          (set_m dd (set_hdrcache (dd_m dd) (hdrs ++ [("X-Spam", "yes")]))) w0
          = Some (res, w') /\
        w_trace w' = w_trace w0 ++ t /\
        delivered t =
          [hdrs' +:+ str (drop (m_body_offset (dd_m dd))
                            (chars (m_f (dd_m dd))))]) /\
    (exists res w' t,
        sieve_fileinto cfg (oracle_at 100) into_junk sd_edited
          (set_m dd (set_hdrcache (dd_m dd) (hdrs ++ [("X-Spam", "yes")]))) w0
          = Some (res, w') /\
        w_trace w' = w_trace w0 ++ t /\
        (delivered t =
           [hdrs' +:+ str (drop (m_body_offset (dd_m dd))
                             (chars (m_f (dd_m dd))))] \/
         delivered t =
           [hdrs' +:+ str (drop (m_body_offset (dd_m dd))
                             (chars (m_f (dd_m dd))));
            hdrs' +:+ str (drop (m_body_offset (dd_m dd))
                             (chars (m_f (dd_m dd))))])) /\
    (exists res w' t,
        sieve_redirect cfg (oracle_at 100) redirect_to_carol ctx sd_edited
          (set_m dd (set_hdrcache (dd_m dd) (hdrs ++ [("X-Spam", "yes")]))) w0
          = Some (res, w') /\
        w_trace w' = w_trace w0 ++ t /\
        (delivered t = [] \/
         delivered t =
           [forwarded
              (hdrs' +:+ str (drop (m_body_offset (dd_m dd))
                                (chars (m_f (dd_m dd)))))]) /\
        (fst res = SIEVE_OK ->
         delivered t =
           [forwarded
              (hdrs' +:+ str (drop (m_body_offset (dd_m dd))
                                (chars (m_f (dd_m dd)))))] \/
         exists k, t = [DuplicateLog k "redirect"])).
Proof.
  assert (Hadd : addheader sd dd (Some "X-Spam") (Some "yes") (-1) =
            (SIEVE_OK, sd_edited,
             set_m dd (set_hdrcache (dd_m dd) (hdrs ++ [("X-Spam", "yes")]))))
    by reflexivity.
  split; [exact Hadd|]. split; [reflexivity|]. split; [reflexivity|].
  destruct (header_edit_then_deliver cfg (oracle_at 100) sd sd_edited dd
              (set_m dd (set_hdrcache (dd_m dd) (hdrs ++ [("X-Spam", "yes")])))
              (or_introl (ex_intro _ (Some "X-Spam")
                 (ex_intro _ (Some "yes") (ex_intro _ (-1) Hadd)))))
    as (_ & _ & _ & _ & _ & _ & hdrs' & Hh & Hkeep & Hfile & Hredirect).
  exists hdrs'. split; [exact Hh|].
  split.
  { revert Hh. vm_compute. intros [= <-]. reflexivity. }
  split; [exact (Hkeep nil w0)|]. split; [exact (Hfile into_junk w0)|].
  exact (Hredirect redirect_to_carol ctx w0
           (or_intror (ex_intro _ "bob" eq_refl))).
Defined.

(** ** A redirect to an address book *)

Import DavSample.

Example redirect_to_list_sample :
  get_addrbook_mboxname (hdrcache := list (string * string))
    (w_store w_friends) ":addrbook:default" (Some "bob")
    = Some "user.bob.#addressbooks.Default" /\
  exists (t : list (event (hdrcache := list (string * string))))
         (job : smtp_job),
    send_forward cfg_dav (oracle_srs srs_fails) redirect_to_friends ctx
      (Some "alice@example.com") (m_f msg) w_friends
      = Some (0, add_trace w_friends (t ++ [SmtpSend job])) /\
    sends t = [] /\
    env_rcpts (sm_env job) =
      ["carol@example.net"; "carol@work.example"; "dave@example.net"].
Proof.
  split; [reflexivity|].
  destruct (redirect_to_list cfg_dav (oracle_srs srs_fails)
              redirect_to_friends ctx (Some "alice@example.com") (m_f msg)
              w_friends eq_refl eq_refl) as [_ Hlist].
  exact (Hlist "user.bob.#addressbooks.Default" eq_refl eq_refl eq_refl).
Defined.
